(** * SpotFrontend: the per-scan pipeline of the LOCUS lidar-odometry frontend

    A shallow embedding of [spot_frontend/src/SpotFrontend.cc].

    The class [SpotFrontend] becomes a record of its data members; its member
    functions become computations in a small monad that threads the object
    and the environment, records the calls made to collaborators, and has
    the three ways a C++ statement can complete: normally, by [return], or
    by a propagating exception.

    What the translation unit only uses (double arithmetic, tf2, pcl,
    geometry_utils, gtsam, the ROS runtime, and the four collaborator classes
    filter / odometry / localization / mapper) is an interface: a type class
    whose operations the code calls.  Every theorem holds for every
    implementation of these interfaces; the ones on the odometry delta also
    look at the arithmetic itself, exact and IEEE binary64. *)

From Stdlib Require Import ZArith List Bool String Lia.
From Stdlib Require Import Ring Ring_theory.
From Stdlib Require Import Floats.
Import ListNotations.
Local Open Scope string_scope.
Local Open Scope Z_scope.

(** ** Machine integers *)

(** [std::uint32_t] arithmetic ([pcl::PCLHeader::seq], [PointCloud::width]). *)
Definition uint32 (z : Z) : Z := z mod 2 ^ 32.

(** [int] arithmetic, two's complement.  Signed overflow is undefined in
    C++; the wrap-around is what the target compilers produce. *)
Definition int32 (z : Z) : Z := (z + 2 ^ 31) mod 2 ^ 32 - 2 ^ 31.

(** ** Double-precision arithmetic

    The operations on [double] that the code and the inlined tf linear
    algebra use.  They are kept abstract, so nothing below depends on
    rounding, on NaN, or on what [acos] returns outside [-1, 1]. *)
Class Double : Type := {
  double : Type;
  d_of_Z : Z -> double;                (* literals: 0.0, 1.0, 2 *)
  dadd : double -> double -> double;
  dsub : double -> double -> double;
  dmul : double -> double -> double;
  ddiv : double -> double -> double;
  dopp : double -> double;
  dgt : double -> double -> bool;      (* operator> *)
  fabs : double -> double;
  acos : double -> double
}.

(** ** tf linear algebra ([tf/LinearMath])

    [tf::Transform] and the operations [SpotFrontend] uses on it.  These are
    header-only and inlined in the translation unit; bodies follow
    [Vector3.h], [Matrix3x3.h] and [Transform.h]. *)
Module tf.
Section LinearMath.
Context {D : Double}.

Record Vector3 : Type := mkVector3 { x : double; y : double; z : double }.

Record Quaternion : Type :=
mkQuaternion { qx : double; qy : double; qz : double; qw : double }.

(** [Matrix3x3] stores three rows, [m_el[0..2]]. *)
Record Matrix3x3 : Type :=
mkMatrix3x3 { row0 : Vector3; row1 : Vector3; row2 : Vector3 }.

Record Transform : Type :=
mkTransform { m_basis : Matrix3x3; m_origin : Vector3 }.

Definition dot (a b : Vector3) : double :=
dadd (dadd (dmul (x a) (x b)) (dmul (y a) (y b))) (dmul (z a) (z b)).

Definition vsub (a b : Vector3) : Vector3 :=
mkVector3 (dsub (x a) (x b)) (dsub (y a) (y b)) (dsub (z a) (z b)).

Definition vneg (a : Vector3) : Vector3 :=
mkVector3 (dopp (x a)) (dopp (y a)) (dopp (z a)).

Definition tdotx (m : Matrix3x3) (v : Vector3) : double :=
dadd (dadd (dmul (x (row0 m)) (x v)) (dmul (x (row1 m)) (y v)))
     (dmul (x (row2 m)) (z v)).
Definition tdoty (m : Matrix3x3) (v : Vector3) : double :=
dadd (dadd (dmul (y (row0 m)) (x v)) (dmul (y (row1 m)) (y v)))
     (dmul (y (row2 m)) (z v)).
Definition tdotz (m : Matrix3x3) (v : Vector3) : double :=
dadd (dadd (dmul (z (row0 m)) (x v)) (dmul (z (row1 m)) (y v)))
     (dmul (z (row2 m)) (z v)).

(** [operator*(const Vector3& v, const Matrix3x3& m)] *)
Definition vec_times_mat (v : Vector3) (m : Matrix3x3) : Vector3 :=
mkVector3 (tdotx m v) (tdoty m v) (tdotz m v).

(** [operator*(const Matrix3x3& m, const Vector3& v)] *)
Definition mat_times_vec (m : Matrix3x3) (v : Vector3) : Vector3 :=
mkVector3 (dot (row0 m) v) (dot (row1 m) v) (dot (row2 m) v).

(** [operator*(const Matrix3x3& m1, const Matrix3x3& m2)] *)
Definition mat_times_mat (m1 m2 : Matrix3x3) : Matrix3x3 :=
mkMatrix3x3
  (mkVector3 (tdotx m2 (row0 m1)) (tdoty m2 (row0 m1)) (tdotz m2 (row0 m1)))
  (mkVector3 (tdotx m2 (row1 m1)) (tdoty m2 (row1 m1)) (tdotz m2 (row1 m1)))
  (mkVector3 (tdotx m2 (row2 m1)) (tdoty m2 (row2 m1)) (tdotz m2 (row2 m1))).

Definition transpose (m : Matrix3x3) : Matrix3x3 :=
mkMatrix3x3
  (mkVector3 (x (row0 m)) (x (row1 m)) (x (row2 m)))
  (mkVector3 (y (row0 m)) (y (row1 m)) (y (row2 m)))
  (mkVector3 (z (row0 m)) (z (row1 m)) (z (row2 m))).

(** [Matrix3x3::transposeTimes]: the transpose of [a] times [m]. *)
Definition transposeTimes (a m : Matrix3x3) : Matrix3x3 :=
mkMatrix3x3
  (mkVector3 (tdotx a (mkVector3 (x (row0 m)) (x (row1 m)) (x (row2 m))))
             (tdotx a (mkVector3 (y (row0 m)) (y (row1 m)) (y (row2 m))))
             (tdotx a (mkVector3 (z (row0 m)) (z (row1 m)) (z (row2 m)))))
  (mkVector3 (tdoty a (mkVector3 (x (row0 m)) (x (row1 m)) (x (row2 m))))
             (tdoty a (mkVector3 (y (row0 m)) (y (row1 m)) (y (row2 m))))
             (tdoty a (mkVector3 (z (row0 m)) (z (row1 m)) (z (row2 m)))))
  (mkVector3 (tdotz a (mkVector3 (x (row0 m)) (x (row1 m)) (x (row2 m))))
             (tdotz a (mkVector3 (y (row0 m)) (y (row1 m)) (y (row2 m))))
             (tdotz a (mkVector3 (z (row0 m)) (z (row1 m)) (z (row2 m))))).

Definition Matrix3x3_getIdentity : Matrix3x3 :=
mkMatrix3x3 (mkVector3 (d_of_Z 1) (d_of_Z 0) (d_of_Z 0))
            (mkVector3 (d_of_Z 0) (d_of_Z 1) (d_of_Z 0))
            (mkVector3 (d_of_Z 0) (d_of_Z 0) (d_of_Z 1)).

(** [Matrix3x3::setRotation(const Quaternion& q)] *)
Definition setRotation (q : Quaternion) : Matrix3x3 :=
let d := dadd (dadd (dadd (dmul (qx q) (qx q)) (dmul (qy q) (qy q)))
                    (dmul (qz q) (qz q))) (dmul (qw q) (qw q)) in
let s := ddiv (d_of_Z 2) d in
let xs := dmul (qx q) s in
let ys := dmul (qy q) s in
let zs := dmul (qz q) s in
let wx := dmul (qw q) xs in
let wy := dmul (qw q) ys in
let wz := dmul (qw q) zs in
let xx := dmul (qx q) xs in
let xy := dmul (qx q) ys in
let xz := dmul (qx q) zs in
let yy := dmul (qy q) ys in
let yz := dmul (qy q) zs in
let zz := dmul (qz q) zs in
mkMatrix3x3
  (mkVector3 (dsub (d_of_Z 1) (dadd yy zz)) (dsub xy wz) (dadd xz wy))
  (mkVector3 (dadd xy wz) (dsub (d_of_Z 1) (dadd xx zz)) (dsub yz wx))
  (mkVector3 (dsub xz wy) (dadd yz wx) (dsub (d_of_Z 1) (dadd xx yy))).

Definition Transform_getIdentity : Transform :=
mkTransform Matrix3x3_getIdentity
            (mkVector3 (d_of_Z 0) (d_of_Z 0) (d_of_Z 0)).

(** [Transform::operator()(const Vector3& v)] *)
Definition apply (t : Transform) (v : Vector3) : Vector3 :=
mkVector3 (dadd (dot (row0 (m_basis t)) v) (x (m_origin t)))
          (dadd (dot (row1 (m_basis t)) v) (y (m_origin t)))
          (dadd (dot (row2 (m_basis t)) v) (z (m_origin t))).

(** [Transform::operator*(const Transform& t)]: composition. *)
Definition mul (a t : Transform) : Transform :=
mkTransform (mat_times_mat (m_basis a) (m_basis t)) (apply a (m_origin t)).

(** [Transform::inverse()] *)
Definition inverse (a : Transform) : Transform :=
let inv := transpose (m_basis a) in
mkTransform inv (mat_times_vec inv (vneg (m_origin a))).

(** [Transform::inverseTimes(const Transform& t)] *)
Definition inverseTimes (a t : Transform) : Transform :=
let v := vsub (m_origin t) (m_origin a) in
mkTransform (transposeTimes (m_basis a) (m_basis t))
            (vec_times_mat v (m_basis a)).

(** Columns of unit length and pairwise orthogonal: the rotation part of a
  rigid transform. *)
Definition column (m : Matrix3x3) (j : Z) : Vector3 :=
if j =? 0 then mkVector3 (x (row0 m)) (x (row1 m)) (x (row2 m))
else if j =? 1 then mkVector3 (y (row0 m)) (y (row1 m)) (y (row2 m))
else mkVector3 (z (row0 m)) (z (row1 m)) (z (row2 m)).

Definition orthonormal (m : Matrix3x3) : Prop :=
forall i j, 0 <= i < 3 -> 0 <= j < 3 ->
  dot (column m i) (column m j) = d_of_Z (if i =? j then 1 else 0).
End LinearMath.
End tf.

(** ** ROS and pcl data the callbacks read *)

(** [pcl::PointCloud], [ros::Time] and [diagnostic_msgs::DiagnosticStatus],
    with the accessors the code uses.  The point payload is opaque. *)
Class RosTypes : Type := {
  Time : Type;
  Time_default : Time;                        (* ros::Time() *)
  PointCloud : Type;
  PointCloud_new : PointCloud;                (* new PointCloud() *)
  header_seq : PointCloud -> Z;               (* msg->header.seq, uint32 *)
  header_stamp : PointCloud -> Z;             (* msg->header.stamp, uint64 *)
  width : PointCloud -> Z;                    (* msg->width, uint32 *)
  header_frame_id : PointCloud -> string;     (* msg->header.frame_id *)
  set_header_frame_id : string -> PointCloud -> PointCloud;
  fromPCL : Z -> Time;                        (* pcl_conversions::fromPCL *)
  DiagnosticStatus : Type;
  level : DiagnosticStatus -> Z
}.

(** The exceptions [tf2_ros::Buffer::lookupTransform] is documented to throw.
    [MissingReturn] is not a C++ exception: it marks control flowing off the
    end of a value-returning function, which is undefined behaviour. *)
Inductive exception : Type :=
| LookupException
| ConnectivityException
| ExtrapolationException
| InvalidArgumentException
| MissingReturn.

(** The publishers created by [CreatePublishers]. *)
Inductive Publisher : Type :=
| base_frame_pcld_pub_
| lidar_callback_duration_pub_
| scan_to_scan_duration_pub_
| scan_to_submap_duration_pub_
| diagnostics_pub_.

(** The point-cloud buffers the object owns through shared pointers. *)
Inductive CloudPtr : Type :=
| msg_filtered_
| msg_transformed_
| msg_neighbors_
| msg_base_
| msg_fixed_
| mapper_unused_fixed_
| mapper_unused_out_.

Definition CloudPtr_eqb (a b : CloudPtr) : bool :=
  match a, b with
  | msg_filtered_, msg_filtered_ | msg_transformed_, msg_transformed_
  | msg_neighbors_, msg_neighbors_ | msg_base_, msg_base_
  | msg_fixed_, msg_fixed_ | mapper_unused_fixed_, mapper_unused_fixed_
  | mapper_unused_out_, mapper_unused_out_ => true
  | _, _ => false
  end.

Section Messages.
Context {D : Double} {R : RosTypes}.

Record Header : Type :=
  mkHeader { seq : Z; stamp : Time; frame_id : string }.

(** [geometry_msgs::Transform].  [tf::vector3MsgToTF] and
    [tf::quaternionMsgToTF] copy component by component, so the message
    fields are given the tf types directly.  ([quaternionMsgToTF] also
    normalises, with a warning, a quaternion whose squared length is more
    than 0.1 away from 1; the buffer is taken to hold none.) *)
Record TransformMsg : Type :=
  mkTransformMsg { translation_msg : tf.Vector3; rotation_msg : tf.Quaternion }.

Record TransformStamped : Type :=
  mkTransformStamped {
    ts_header : Header;
    child_frame_id : string;
    transform : TransformMsg }.

(** [nav_msgs::Odometry], the fields [OdometryCallback] reads. *)
Record Odometry : Type :=
  mkOdometry {
    odom_header : Header;
    odom_child_frame_id : string;
    pose_position : tf.Vector3;
    pose_orientation : tf.Quaternion }.

Record DiagnosticArray : Type :=
  mkDiagnosticArray {
    da_header : Header;
    status : list DiagnosticStatus }.

(** [gtsam::Vector3] is a fixed-size Eigen vector. *)
Record gtsam_Vector3 : Type := mkGtsamVector3 { v0 : double; v1 : double; v2 : double }.
End Messages.

(** ** Collaborators and libraries behind an interface

    The four collaborator classes ([PointCloudFilter], [PointCloudOdometry],
    [PointCloudLocalization], [PointCloudMapper]), [tf2_ros::Buffer],
    geometry_utils, gtsam, parameter_utils and the ROS runtime.  A member
    function that may change its object takes the object and returns the
    new one next to its outputs; accessors are functions of the object.
    Boolean status results that the frontend ignores are omitted. *)
Class Externals {D : Double} {R : RosTypes} : Type := {
  (* geometry_utils *)
  Transform3 : Type;
  translation : Transform3 -> Z -> double;          (* pose.translation(i) *)
  rotation : Transform3 -> Z -> Z -> double;        (* pose.rotation(i, j) *)
  Transform3_Identity : Transform3;
  PoseDelta : Transform3 -> Transform3 -> Transform3;
  (* gtsam *)
  Rot3 : Type;
  Rot3_of : double -> double -> double -> double -> double -> double ->
            double -> double -> double -> Rot3;
  toQuaternion_w : Rot3 -> double;                  (* r.toQuaternion().w() *)
  norm : gtsam_Vector3 -> double;
  (* the ROS runtime: clock, parameter server, subscriber counts, files *)
  World : Type;
  now : World -> Time * World;                      (* ros::Time::now() *)
  duration_data : Time -> Time -> double;  (* float((end - start).toSec()) *)
  getNumSubscribers : World -> Publisher -> Z;
  getNamespace : World -> string;
  names_append : string -> string -> string;
  Get_bool : World -> string -> option bool;        (* pu::Get *)
  Get_int : World -> string -> option Z;
  Get_double : World -> string -> option double;
  Get_string : World -> string -> option string;
  read_pcd : World -> string -> PointCloud;         (* pcl::PCDReader::read *)
  (* tf2_ros::Buffer *)
  Buffer : Type;
  setTransform : Buffer -> TransformStamped -> string -> bool -> Buffer;
  lookupTransform :
    Buffer -> string -> string -> Time -> exception + TransformStamped;
  (* PointCloudFilter *)
  PointCloudFilter : Type;
  filter_Initialize : World -> PointCloudFilter -> PointCloudFilter * bool;
  Filter : PointCloudFilter -> PointCloud -> bool ->
           PointCloudFilter * PointCloud;
  (* PointCloudOdometry *)
  PointCloudOdometry : Type;
  odometry_Initialize : World -> PointCloudOdometry -> PointCloudOdometry * bool;
  EnableOdometryIntegration : PointCloudOdometry -> PointCloudOdometry;
  SetOdometryDelta : PointCloudOdometry -> tf.Transform -> PointCloudOdometry;
  SetLidar : PointCloudOdometry -> PointCloud -> PointCloudOdometry;
  UpdateEstimate : PointCloudOdometry -> PointCloudOdometry * bool;
  odometry_GetDiagnostics : PointCloudOdometry -> DiagnosticStatus;
  odometry_PublishAll : PointCloudOdometry -> PointCloudOdometry;
  GetIncrementalEstimate : PointCloudOdometry -> Transform3;
  odometry_SetFlatGroundAssumptionValue :
    PointCloudOdometry -> bool -> PointCloudOdometry;
  (* PointCloudLocalization *)
  PointCloudLocalization : Type;
  localization_Initialize :
    World -> PointCloudLocalization -> PointCloudLocalization * bool;
  MotionUpdate : PointCloudLocalization -> Transform3 -> PointCloudLocalization;
  TransformPointsToFixedFrame :
    PointCloudLocalization -> PointCloud -> PointCloudLocalization * PointCloud;
  TransformPointsToSensorFrame :
    PointCloudLocalization -> PointCloud -> PointCloudLocalization * PointCloud;
  MeasurementUpdate :
    PointCloudLocalization -> PointCloud -> PointCloud ->
    PointCloudLocalization * PointCloud;
  localization_GetDiagnostics : PointCloudLocalization -> DiagnosticStatus;
  localization_PublishAll : PointCloudLocalization -> PointCloudLocalization;
  PublishPoseNoUpdate : PointCloudLocalization -> PointCloudLocalization;
  UpdateTimestamp : PointCloudLocalization -> Time -> PointCloudLocalization;
  GetIntegratedEstimate : PointCloudLocalization -> Transform3;
  localization_SetFlatGroundAssumptionValue :
    PointCloudLocalization -> bool -> PointCloudLocalization;
  (* PointCloudMapper *)
  PointCloudMapper : Type;
  mapper_Initialize : World -> PointCloudMapper -> PointCloudMapper * bool;
  InsertPoints : PointCloudMapper -> PointCloud -> PointCloudMapper * PointCloud;
  ApproxNearestNeighbors :
    PointCloudMapper -> PointCloud -> PointCloudMapper * PointCloud;
  PublishMap : PointCloudMapper -> PointCloudMapper;
  SetRollingMapBufferOn : PointCloudMapper -> PointCloudMapper
}.

(** ** The object

    The data members of [SpotFrontend].  The members that [LoadParameters]
    fills from the parameter server, together with the two flags the
    constructor presets and [LoadParameters] names ([publish_diagnostics_],
    [b_run_rolling_map_buffer_]), are grouped in [Parameters].  The header
    that declares the members is not part of the sources: [counter_],
    [map_publishment_meters_], [number_of_points_open_space_] and the queue
    sizes are taken to be [int]. *)
Section Object.
Context {D : Double} {R : RosTypes} {E : Externals}.

Record Parameters : Type := mkParameters {
  b_verbose_ : bool;
  translation_threshold_kf_ : double;
  rotation_threshold_kf_ : double;
  number_of_points_open_space_ : Z;
  map_publishment_meters_ : Z;
  b_publish_map_ : bool;
  fixed_frame_id_ : string;
  base_frame_id_ : string;
  bd_odom_frame_id_ : string;
  lidar_queue_size_ : Z;
  odom_queue_size_ : Z;
  odometry_buffer_size_limit_ : Z;
  data_integration_mode_ : Z;
  max_number_of_calls_ : Z;
  b_enable_computation_time_profiling_ : bool;
  b_run_with_gt_point_cloud_ : bool;
  gt_point_cloud_filename_ : string;
  publish_diagnostics_ : bool;
  b_run_rolling_map_buffer_ : bool }.

Definition set_b_verbose_ (v : bool) (p : Parameters) : Parameters :=
  mkParameters
    v (translation_threshold_kf_ p) (rotation_threshold_kf_ p)
    (number_of_points_open_space_ p) (map_publishment_meters_ p)
    (b_publish_map_ p) (fixed_frame_id_ p) (base_frame_id_ p)
    (bd_odom_frame_id_ p) (lidar_queue_size_ p) (odom_queue_size_ p)
    (odometry_buffer_size_limit_ p) (data_integration_mode_ p)
    (max_number_of_calls_ p) (b_enable_computation_time_profiling_ p)
    (b_run_with_gt_point_cloud_ p) (gt_point_cloud_filename_ p)
    (publish_diagnostics_ p) (b_run_rolling_map_buffer_ p).
Definition set_translation_threshold_kf_ (v : double) (p : Parameters) : Parameters :=
  mkParameters
    (b_verbose_ p) v (rotation_threshold_kf_ p)
    (number_of_points_open_space_ p) (map_publishment_meters_ p)
    (b_publish_map_ p) (fixed_frame_id_ p) (base_frame_id_ p)
    (bd_odom_frame_id_ p) (lidar_queue_size_ p) (odom_queue_size_ p)
    (odometry_buffer_size_limit_ p) (data_integration_mode_ p)
    (max_number_of_calls_ p) (b_enable_computation_time_profiling_ p)
    (b_run_with_gt_point_cloud_ p) (gt_point_cloud_filename_ p)
    (publish_diagnostics_ p) (b_run_rolling_map_buffer_ p).
Definition set_rotation_threshold_kf_ (v : double) (p : Parameters) : Parameters :=
  mkParameters
    (b_verbose_ p) (translation_threshold_kf_ p) v
    (number_of_points_open_space_ p) (map_publishment_meters_ p)
    (b_publish_map_ p) (fixed_frame_id_ p) (base_frame_id_ p)
    (bd_odom_frame_id_ p) (lidar_queue_size_ p) (odom_queue_size_ p)
    (odometry_buffer_size_limit_ p) (data_integration_mode_ p)
    (max_number_of_calls_ p) (b_enable_computation_time_profiling_ p)
    (b_run_with_gt_point_cloud_ p) (gt_point_cloud_filename_ p)
    (publish_diagnostics_ p) (b_run_rolling_map_buffer_ p).
Definition set_number_of_points_open_space_ (v : Z) (p : Parameters) : Parameters :=
  mkParameters
    (b_verbose_ p) (translation_threshold_kf_ p) (rotation_threshold_kf_ p)
    v (map_publishment_meters_ p) (b_publish_map_ p) (fixed_frame_id_ p)
    (base_frame_id_ p) (bd_odom_frame_id_ p) (lidar_queue_size_ p)
    (odom_queue_size_ p) (odometry_buffer_size_limit_ p)
    (data_integration_mode_ p) (max_number_of_calls_ p)
    (b_enable_computation_time_profiling_ p) (b_run_with_gt_point_cloud_ p)
    (gt_point_cloud_filename_ p) (publish_diagnostics_ p)
    (b_run_rolling_map_buffer_ p).
Definition set_map_publishment_meters_ (v : Z) (p : Parameters) : Parameters :=
  mkParameters
    (b_verbose_ p) (translation_threshold_kf_ p) (rotation_threshold_kf_ p)
    (number_of_points_open_space_ p) v (b_publish_map_ p)
    (fixed_frame_id_ p) (base_frame_id_ p) (bd_odom_frame_id_ p)
    (lidar_queue_size_ p) (odom_queue_size_ p)
    (odometry_buffer_size_limit_ p) (data_integration_mode_ p)
    (max_number_of_calls_ p) (b_enable_computation_time_profiling_ p)
    (b_run_with_gt_point_cloud_ p) (gt_point_cloud_filename_ p)
    (publish_diagnostics_ p) (b_run_rolling_map_buffer_ p).
Definition set_b_publish_map_ (v : bool) (p : Parameters) : Parameters :=
  mkParameters
    (b_verbose_ p) (translation_threshold_kf_ p) (rotation_threshold_kf_ p)
    (number_of_points_open_space_ p) (map_publishment_meters_ p) v
    (fixed_frame_id_ p) (base_frame_id_ p) (bd_odom_frame_id_ p)
    (lidar_queue_size_ p) (odom_queue_size_ p)
    (odometry_buffer_size_limit_ p) (data_integration_mode_ p)
    (max_number_of_calls_ p) (b_enable_computation_time_profiling_ p)
    (b_run_with_gt_point_cloud_ p) (gt_point_cloud_filename_ p)
    (publish_diagnostics_ p) (b_run_rolling_map_buffer_ p).
Definition set_fixed_frame_id_ (v : string) (p : Parameters) : Parameters :=
  mkParameters
    (b_verbose_ p) (translation_threshold_kf_ p) (rotation_threshold_kf_ p)
    (number_of_points_open_space_ p) (map_publishment_meters_ p)
    (b_publish_map_ p) v (base_frame_id_ p) (bd_odom_frame_id_ p)
    (lidar_queue_size_ p) (odom_queue_size_ p)
    (odometry_buffer_size_limit_ p) (data_integration_mode_ p)
    (max_number_of_calls_ p) (b_enable_computation_time_profiling_ p)
    (b_run_with_gt_point_cloud_ p) (gt_point_cloud_filename_ p)
    (publish_diagnostics_ p) (b_run_rolling_map_buffer_ p).
Definition set_base_frame_id_ (v : string) (p : Parameters) : Parameters :=
  mkParameters
    (b_verbose_ p) (translation_threshold_kf_ p) (rotation_threshold_kf_ p)
    (number_of_points_open_space_ p) (map_publishment_meters_ p)
    (b_publish_map_ p) (fixed_frame_id_ p) v (bd_odom_frame_id_ p)
    (lidar_queue_size_ p) (odom_queue_size_ p)
    (odometry_buffer_size_limit_ p) (data_integration_mode_ p)
    (max_number_of_calls_ p) (b_enable_computation_time_profiling_ p)
    (b_run_with_gt_point_cloud_ p) (gt_point_cloud_filename_ p)
    (publish_diagnostics_ p) (b_run_rolling_map_buffer_ p).
Definition set_bd_odom_frame_id_ (v : string) (p : Parameters) : Parameters :=
  mkParameters
    (b_verbose_ p) (translation_threshold_kf_ p) (rotation_threshold_kf_ p)
    (number_of_points_open_space_ p) (map_publishment_meters_ p)
    (b_publish_map_ p) (fixed_frame_id_ p) (base_frame_id_ p) v
    (lidar_queue_size_ p) (odom_queue_size_ p)
    (odometry_buffer_size_limit_ p) (data_integration_mode_ p)
    (max_number_of_calls_ p) (b_enable_computation_time_profiling_ p)
    (b_run_with_gt_point_cloud_ p) (gt_point_cloud_filename_ p)
    (publish_diagnostics_ p) (b_run_rolling_map_buffer_ p).
Definition set_lidar_queue_size_ (v : Z) (p : Parameters) : Parameters :=
  mkParameters
    (b_verbose_ p) (translation_threshold_kf_ p) (rotation_threshold_kf_ p)
    (number_of_points_open_space_ p) (map_publishment_meters_ p)
    (b_publish_map_ p) (fixed_frame_id_ p) (base_frame_id_ p)
    (bd_odom_frame_id_ p) v (odom_queue_size_ p)
    (odometry_buffer_size_limit_ p) (data_integration_mode_ p)
    (max_number_of_calls_ p) (b_enable_computation_time_profiling_ p)
    (b_run_with_gt_point_cloud_ p) (gt_point_cloud_filename_ p)
    (publish_diagnostics_ p) (b_run_rolling_map_buffer_ p).
Definition set_odom_queue_size_ (v : Z) (p : Parameters) : Parameters :=
  mkParameters
    (b_verbose_ p) (translation_threshold_kf_ p) (rotation_threshold_kf_ p)
    (number_of_points_open_space_ p) (map_publishment_meters_ p)
    (b_publish_map_ p) (fixed_frame_id_ p) (base_frame_id_ p)
    (bd_odom_frame_id_ p) (lidar_queue_size_ p) v
    (odometry_buffer_size_limit_ p) (data_integration_mode_ p)
    (max_number_of_calls_ p) (b_enable_computation_time_profiling_ p)
    (b_run_with_gt_point_cloud_ p) (gt_point_cloud_filename_ p)
    (publish_diagnostics_ p) (b_run_rolling_map_buffer_ p).
Definition set_odometry_buffer_size_limit_ (v : Z) (p : Parameters) : Parameters :=
  mkParameters
    (b_verbose_ p) (translation_threshold_kf_ p) (rotation_threshold_kf_ p)
    (number_of_points_open_space_ p) (map_publishment_meters_ p)
    (b_publish_map_ p) (fixed_frame_id_ p) (base_frame_id_ p)
    (bd_odom_frame_id_ p) (lidar_queue_size_ p) (odom_queue_size_ p) v
    (data_integration_mode_ p) (max_number_of_calls_ p)
    (b_enable_computation_time_profiling_ p) (b_run_with_gt_point_cloud_ p)
    (gt_point_cloud_filename_ p) (publish_diagnostics_ p)
    (b_run_rolling_map_buffer_ p).
Definition set_data_integration_mode_ (v : Z) (p : Parameters) : Parameters :=
  mkParameters
    (b_verbose_ p) (translation_threshold_kf_ p) (rotation_threshold_kf_ p)
    (number_of_points_open_space_ p) (map_publishment_meters_ p)
    (b_publish_map_ p) (fixed_frame_id_ p) (base_frame_id_ p)
    (bd_odom_frame_id_ p) (lidar_queue_size_ p) (odom_queue_size_ p)
    (odometry_buffer_size_limit_ p) v (max_number_of_calls_ p)
    (b_enable_computation_time_profiling_ p) (b_run_with_gt_point_cloud_ p)
    (gt_point_cloud_filename_ p) (publish_diagnostics_ p)
    (b_run_rolling_map_buffer_ p).
Definition set_max_number_of_calls_ (v : Z) (p : Parameters) : Parameters :=
  mkParameters
    (b_verbose_ p) (translation_threshold_kf_ p) (rotation_threshold_kf_ p)
    (number_of_points_open_space_ p) (map_publishment_meters_ p)
    (b_publish_map_ p) (fixed_frame_id_ p) (base_frame_id_ p)
    (bd_odom_frame_id_ p) (lidar_queue_size_ p) (odom_queue_size_ p)
    (odometry_buffer_size_limit_ p) (data_integration_mode_ p) v
    (b_enable_computation_time_profiling_ p) (b_run_with_gt_point_cloud_ p)
    (gt_point_cloud_filename_ p) (publish_diagnostics_ p)
    (b_run_rolling_map_buffer_ p).
Definition set_b_enable_computation_time_profiling_ (v : bool) (p : Parameters) : Parameters :=
  mkParameters
    (b_verbose_ p) (translation_threshold_kf_ p) (rotation_threshold_kf_ p)
    (number_of_points_open_space_ p) (map_publishment_meters_ p)
    (b_publish_map_ p) (fixed_frame_id_ p) (base_frame_id_ p)
    (bd_odom_frame_id_ p) (lidar_queue_size_ p) (odom_queue_size_ p)
    (odometry_buffer_size_limit_ p) (data_integration_mode_ p)
    (max_number_of_calls_ p) v (b_run_with_gt_point_cloud_ p)
    (gt_point_cloud_filename_ p) (publish_diagnostics_ p)
    (b_run_rolling_map_buffer_ p).
Definition set_b_run_with_gt_point_cloud_ (v : bool) (p : Parameters) : Parameters :=
  mkParameters
    (b_verbose_ p) (translation_threshold_kf_ p) (rotation_threshold_kf_ p)
    (number_of_points_open_space_ p) (map_publishment_meters_ p)
    (b_publish_map_ p) (fixed_frame_id_ p) (base_frame_id_ p)
    (bd_odom_frame_id_ p) (lidar_queue_size_ p) (odom_queue_size_ p)
    (odometry_buffer_size_limit_ p) (data_integration_mode_ p)
    (max_number_of_calls_ p) (b_enable_computation_time_profiling_ p) v
    (gt_point_cloud_filename_ p) (publish_diagnostics_ p)
    (b_run_rolling_map_buffer_ p).
Definition set_gt_point_cloud_filename_ (v : string) (p : Parameters) : Parameters :=
  mkParameters
    (b_verbose_ p) (translation_threshold_kf_ p) (rotation_threshold_kf_ p)
    (number_of_points_open_space_ p) (map_publishment_meters_ p)
    (b_publish_map_ p) (fixed_frame_id_ p) (base_frame_id_ p)
    (bd_odom_frame_id_ p) (lidar_queue_size_ p) (odom_queue_size_ p)
    (odometry_buffer_size_limit_ p) (data_integration_mode_ p)
    (max_number_of_calls_ p) (b_enable_computation_time_profiling_ p)
    (b_run_with_gt_point_cloud_ p) v (publish_diagnostics_ p)
    (b_run_rolling_map_buffer_ p).
Definition set_publish_diagnostics_ (v : bool) (p : Parameters) : Parameters :=
  mkParameters
    (b_verbose_ p) (translation_threshold_kf_ p) (rotation_threshold_kf_ p)
    (number_of_points_open_space_ p) (map_publishment_meters_ p)
    (b_publish_map_ p) (fixed_frame_id_ p) (base_frame_id_ p)
    (bd_odom_frame_id_ p) (lidar_queue_size_ p) (odom_queue_size_ p)
    (odometry_buffer_size_limit_ p) (data_integration_mode_ p)
    (max_number_of_calls_ p) (b_enable_computation_time_profiling_ p)
    (b_run_with_gt_point_cloud_ p) (gt_point_cloud_filename_ p) v
    (b_run_rolling_map_buffer_ p).
Definition set_b_run_rolling_map_buffer_ (v : bool) (p : Parameters) : Parameters :=
  mkParameters
    (b_verbose_ p) (translation_threshold_kf_ p) (rotation_threshold_kf_ p)
    (number_of_points_open_space_ p) (map_publishment_meters_ p)
    (b_publish_map_ p) (fixed_frame_id_ p) (base_frame_id_ p)
    (bd_odom_frame_id_ p) (lidar_queue_size_ p) (odom_queue_size_ p)
    (odometry_buffer_size_limit_ p) (data_integration_mode_ p)
    (max_number_of_calls_ p) (b_enable_computation_time_profiling_ p)
    (b_run_with_gt_point_cloud_ p) (gt_point_cloud_filename_ p)
    (publish_diagnostics_ p) v.

Record SpotFrontend : Type := mkSpotFrontend {
  params : Parameters;
  b_add_first_scan_to_key_ : bool;
  counter_ : Z;
  last_keyframe_pose_ : Transform3;
  b_pcld_received_ : bool;
  pcld_seq_prev_ : Z;
  clouds : CloudPtr -> PointCloud;
  b_use_odometry_integration_ : bool;
  odometry_number_of_calls_ : Z;
  b_odometry_has_been_received_ : bool;
  b_is_open_space_ : bool;
  tf_buffer_authority_ : string;
  odometry_pose_previous_ : tf.Transform;
  name_ : string;
  filter_ : PointCloudFilter;
  odometry_ : PointCloudOdometry;
  localization_ : PointCloudLocalization;
  mapper_ : PointCloudMapper;
  odometry_buffer_ : Buffer }.

Definition set_params (v : Parameters) (o : SpotFrontend) : SpotFrontend :=
  mkSpotFrontend
    v (b_add_first_scan_to_key_ o) (counter_ o) (last_keyframe_pose_ o)
    (b_pcld_received_ o) (pcld_seq_prev_ o) (clouds o)
    (b_use_odometry_integration_ o) (odometry_number_of_calls_ o)
    (b_odometry_has_been_received_ o) (b_is_open_space_ o)
    (tf_buffer_authority_ o) (odometry_pose_previous_ o) (name_ o)
    (filter_ o) (odometry_ o) (localization_ o) (mapper_ o)
    (odometry_buffer_ o).
Definition set_b_add_first_scan_to_key_ (v : bool) (o : SpotFrontend) : SpotFrontend :=
  mkSpotFrontend
    (params o) v (counter_ o) (last_keyframe_pose_ o) (b_pcld_received_ o)
    (pcld_seq_prev_ o) (clouds o) (b_use_odometry_integration_ o)
    (odometry_number_of_calls_ o) (b_odometry_has_been_received_ o)
    (b_is_open_space_ o) (tf_buffer_authority_ o)
    (odometry_pose_previous_ o) (name_ o) (filter_ o) (odometry_ o)
    (localization_ o) (mapper_ o) (odometry_buffer_ o).
Definition set_counter_ (v : Z) (o : SpotFrontend) : SpotFrontend :=
  mkSpotFrontend
    (params o) (b_add_first_scan_to_key_ o) v (last_keyframe_pose_ o)
    (b_pcld_received_ o) (pcld_seq_prev_ o) (clouds o)
    (b_use_odometry_integration_ o) (odometry_number_of_calls_ o)
    (b_odometry_has_been_received_ o) (b_is_open_space_ o)
    (tf_buffer_authority_ o) (odometry_pose_previous_ o) (name_ o)
    (filter_ o) (odometry_ o) (localization_ o) (mapper_ o)
    (odometry_buffer_ o).
Definition set_last_keyframe_pose_ (v : Transform3) (o : SpotFrontend) : SpotFrontend :=
  mkSpotFrontend
    (params o) (b_add_first_scan_to_key_ o) (counter_ o) v
    (b_pcld_received_ o) (pcld_seq_prev_ o) (clouds o)
    (b_use_odometry_integration_ o) (odometry_number_of_calls_ o)
    (b_odometry_has_been_received_ o) (b_is_open_space_ o)
    (tf_buffer_authority_ o) (odometry_pose_previous_ o) (name_ o)
    (filter_ o) (odometry_ o) (localization_ o) (mapper_ o)
    (odometry_buffer_ o).
Definition set_b_pcld_received_ (v : bool) (o : SpotFrontend) : SpotFrontend :=
  mkSpotFrontend
    (params o) (b_add_first_scan_to_key_ o) (counter_ o)
    (last_keyframe_pose_ o) v (pcld_seq_prev_ o) (clouds o)
    (b_use_odometry_integration_ o) (odometry_number_of_calls_ o)
    (b_odometry_has_been_received_ o) (b_is_open_space_ o)
    (tf_buffer_authority_ o) (odometry_pose_previous_ o) (name_ o)
    (filter_ o) (odometry_ o) (localization_ o) (mapper_ o)
    (odometry_buffer_ o).
Definition set_pcld_seq_prev_ (v : Z) (o : SpotFrontend) : SpotFrontend :=
  mkSpotFrontend
    (params o) (b_add_first_scan_to_key_ o) (counter_ o)
    (last_keyframe_pose_ o) (b_pcld_received_ o) v (clouds o)
    (b_use_odometry_integration_ o) (odometry_number_of_calls_ o)
    (b_odometry_has_been_received_ o) (b_is_open_space_ o)
    (tf_buffer_authority_ o) (odometry_pose_previous_ o) (name_ o)
    (filter_ o) (odometry_ o) (localization_ o) (mapper_ o)
    (odometry_buffer_ o).
Definition set_clouds (v : (CloudPtr -> PointCloud)) (o : SpotFrontend) : SpotFrontend :=
  mkSpotFrontend
    (params o) (b_add_first_scan_to_key_ o) (counter_ o)
    (last_keyframe_pose_ o) (b_pcld_received_ o) (pcld_seq_prev_ o) v
    (b_use_odometry_integration_ o) (odometry_number_of_calls_ o)
    (b_odometry_has_been_received_ o) (b_is_open_space_ o)
    (tf_buffer_authority_ o) (odometry_pose_previous_ o) (name_ o)
    (filter_ o) (odometry_ o) (localization_ o) (mapper_ o)
    (odometry_buffer_ o).
Definition set_b_use_odometry_integration_ (v : bool) (o : SpotFrontend) : SpotFrontend :=
  mkSpotFrontend
    (params o) (b_add_first_scan_to_key_ o) (counter_ o)
    (last_keyframe_pose_ o) (b_pcld_received_ o) (pcld_seq_prev_ o)
    (clouds o) v (odometry_number_of_calls_ o)
    (b_odometry_has_been_received_ o) (b_is_open_space_ o)
    (tf_buffer_authority_ o) (odometry_pose_previous_ o) (name_ o)
    (filter_ o) (odometry_ o) (localization_ o) (mapper_ o)
    (odometry_buffer_ o).
Definition set_b_odometry_has_been_received_ (v : bool) (o : SpotFrontend) : SpotFrontend :=
  mkSpotFrontend
    (params o) (b_add_first_scan_to_key_ o) (counter_ o)
    (last_keyframe_pose_ o) (b_pcld_received_ o) (pcld_seq_prev_ o)
    (clouds o) (b_use_odometry_integration_ o)
    (odometry_number_of_calls_ o) v (b_is_open_space_ o)
    (tf_buffer_authority_ o) (odometry_pose_previous_ o) (name_ o)
    (filter_ o) (odometry_ o) (localization_ o) (mapper_ o)
    (odometry_buffer_ o).
Definition set_b_is_open_space_ (v : bool) (o : SpotFrontend) : SpotFrontend :=
  mkSpotFrontend
    (params o) (b_add_first_scan_to_key_ o) (counter_ o)
    (last_keyframe_pose_ o) (b_pcld_received_ o) (pcld_seq_prev_ o)
    (clouds o) (b_use_odometry_integration_ o)
    (odometry_number_of_calls_ o) (b_odometry_has_been_received_ o) v
    (tf_buffer_authority_ o) (odometry_pose_previous_ o) (name_ o)
    (filter_ o) (odometry_ o) (localization_ o) (mapper_ o)
    (odometry_buffer_ o).
Definition set_odometry_pose_previous_ (v : tf.Transform) (o : SpotFrontend) : SpotFrontend :=
  mkSpotFrontend
    (params o) (b_add_first_scan_to_key_ o) (counter_ o)
    (last_keyframe_pose_ o) (b_pcld_received_ o) (pcld_seq_prev_ o)
    (clouds o) (b_use_odometry_integration_ o)
    (odometry_number_of_calls_ o) (b_odometry_has_been_received_ o)
    (b_is_open_space_ o) (tf_buffer_authority_ o) v (name_ o) (filter_ o)
    (odometry_ o) (localization_ o) (mapper_ o) (odometry_buffer_ o).
Definition set_name_ (v : string) (o : SpotFrontend) : SpotFrontend :=
  mkSpotFrontend
    (params o) (b_add_first_scan_to_key_ o) (counter_ o)
    (last_keyframe_pose_ o) (b_pcld_received_ o) (pcld_seq_prev_ o)
    (clouds o) (b_use_odometry_integration_ o)
    (odometry_number_of_calls_ o) (b_odometry_has_been_received_ o)
    (b_is_open_space_ o) (tf_buffer_authority_ o)
    (odometry_pose_previous_ o) v (filter_ o) (odometry_ o)
    (localization_ o) (mapper_ o) (odometry_buffer_ o).
Definition set_filter_ (v : PointCloudFilter) (o : SpotFrontend) : SpotFrontend :=
  mkSpotFrontend
    (params o) (b_add_first_scan_to_key_ o) (counter_ o)
    (last_keyframe_pose_ o) (b_pcld_received_ o) (pcld_seq_prev_ o)
    (clouds o) (b_use_odometry_integration_ o)
    (odometry_number_of_calls_ o) (b_odometry_has_been_received_ o)
    (b_is_open_space_ o) (tf_buffer_authority_ o)
    (odometry_pose_previous_ o) (name_ o) v (odometry_ o) (localization_ o)
    (mapper_ o) (odometry_buffer_ o).
Definition set_odometry_ (v : PointCloudOdometry) (o : SpotFrontend) : SpotFrontend :=
  mkSpotFrontend
    (params o) (b_add_first_scan_to_key_ o) (counter_ o)
    (last_keyframe_pose_ o) (b_pcld_received_ o) (pcld_seq_prev_ o)
    (clouds o) (b_use_odometry_integration_ o)
    (odometry_number_of_calls_ o) (b_odometry_has_been_received_ o)
    (b_is_open_space_ o) (tf_buffer_authority_ o)
    (odometry_pose_previous_ o) (name_ o) (filter_ o) v (localization_ o)
    (mapper_ o) (odometry_buffer_ o).
Definition set_localization_ (v : PointCloudLocalization) (o : SpotFrontend) : SpotFrontend :=
  mkSpotFrontend
    (params o) (b_add_first_scan_to_key_ o) (counter_ o)
    (last_keyframe_pose_ o) (b_pcld_received_ o) (pcld_seq_prev_ o)
    (clouds o) (b_use_odometry_integration_ o)
    (odometry_number_of_calls_ o) (b_odometry_has_been_received_ o)
    (b_is_open_space_ o) (tf_buffer_authority_ o)
    (odometry_pose_previous_ o) (name_ o) (filter_ o) (odometry_ o) v
    (mapper_ o) (odometry_buffer_ o).
Definition set_mapper_ (v : PointCloudMapper) (o : SpotFrontend) : SpotFrontend :=
  mkSpotFrontend
    (params o) (b_add_first_scan_to_key_ o) (counter_ o)
    (last_keyframe_pose_ o) (b_pcld_received_ o) (pcld_seq_prev_ o)
    (clouds o) (b_use_odometry_integration_ o)
    (odometry_number_of_calls_ o) (b_odometry_has_been_received_ o)
    (b_is_open_space_ o) (tf_buffer_authority_ o)
    (odometry_pose_previous_ o) (name_ o) (filter_ o) (odometry_ o)
    (localization_ o) v (odometry_buffer_ o).
Definition set_odometry_buffer_ (v : Buffer) (o : SpotFrontend) : SpotFrontend :=
  mkSpotFrontend
    (params o) (b_add_first_scan_to_key_ o) (counter_ o)
    (last_keyframe_pose_ o) (b_pcld_received_ o) (pcld_seq_prev_ o)
    (clouds o) (b_use_odometry_integration_ o)
    (odometry_number_of_calls_ o) (b_odometry_has_been_received_ o)
    (b_is_open_space_ o) (tf_buffer_authority_ o)
    (odometry_pose_previous_ o) (name_ o) (filter_ o) (odometry_ o)
    (localization_ o) (mapper_ o) v.

(** Writing through one of the shared pointers. *)
Definition set_cloud (p : CloudPtr) (c : PointCloud) (o : SpotFrontend)
  : SpotFrontend :=
  set_clouds (fun q => if CloudPtr_eqb q p then c else clouds o q) o.

Definition set_param (f : Parameters -> Parameters) (o : SpotFrontend)
  : SpotFrontend :=
  set_params (f (params o)) o.

(** The object together with the environment it runs in. *)
Record Sys : Type := mkSys { self : SpotFrontend; world : World }.
End Object.

(** ** Observable actions

    Every call the frontend makes on a collaborator, every message it
    publishes and every console line is recorded, in program order.  The
    record is what tells a map insertion from its absence. *)
Section Frontend.
Context {D : Double} {R : RosTypes} {E : Externals}.

Inductive Severity : Type := INFO | WARN | ERROR.

(** What a subscription hands its messages to: a member function, or, for
    the [message_filters::Subscriber] [lidar_sub_], the filters connected
    to it. *)
Inductive Handler : Type :=
| to_OdometryCallback
| to_LidarCallback
| to_FlatGroundAssumptionCallback
| to_connected_filters.

Inductive Event : Type :=
| Log (sev : Severity) (text : string)
| Call_Initialize (collaborator : string) (ok : bool)
| Call_setTransform (t : TransformStamped) (authority : string)
| Call_lookupTransform (target source : string) (t : Time)
| Call_EnableOdometryIntegration
| Call_SetOdometryDelta (delta : tf.Transform)
| Call_Filter (points : PointCloud) (is_open_space : bool)
| Call_SetLidar (points : PointCloud)
| Call_UpdateEstimate (ok : bool)
| Call_odometry_PublishAll
| Call_MotionUpdate (increment : Transform3)
| Call_TransformPointsToFixedFrame (points : PointCloud)
| Call_TransformPointsToSensorFrame (points : PointCloud)
| Call_MeasurementUpdate (query reference : PointCloud)
| Call_localization_PublishAll
| Call_PublishPoseNoUpdate
| Call_UpdateTimestamp (t : Time)
| Call_InsertPoints (points : PointCloud)
| Call_ApproxNearestNeighbors (points : PointCloud)
| Call_PublishMap
| Call_SetRollingMapBufferOn
| Call_SetFlatGroundAssumptionValue (collaborator : string) (value : bool)
| Subscribe (topic : string) (queue_size : Z) (handler : Handler)
| New_MessageFilter (target_frame : string) (queue_size : Z)
| Advertise (pub : Publisher)
| Publish_Float64 (pub : Publisher) (data : double)
| Publish_PointCloud (pub : Publisher) (cloud : PointCloud)
| Publish_DiagnosticArray (pub : Publisher) (array : DiagnosticArray).

Definition is_InsertPoints (e : Event) : bool :=
  match e with Call_InsertPoints _ => true | _ => false end.
Definition is_MotionUpdate (e : Event) : bool :=
  match e with Call_MotionUpdate _ => true | _ => false end.
Definition is_MeasurementUpdate (e : Event) : bool :=
  match e with Call_MeasurementUpdate _ _ => true | _ => false end.
Definition is_PublishMap (e : Event) : bool :=
  match e with Call_PublishMap => true | _ => false end.
Definition is_failed_estimate (e : Event) : bool :=
  match e with Call_UpdateEstimate false => true | _ => false end.
Definition is_Filter (e : Event) : bool :=
  match e with Call_Filter _ _ => true | _ => false end.
Definition is_SetRollingMapBufferOn (e : Event) : bool :=
  match e with Call_SetRollingMapBufferOn => true | _ => false end.
Definition is_scan_dropped (e : Event) : bool :=
  match e with
  | Log WARN text => String.eqb text "Lidar scan dropped"
  | _ => false
  end.
(** Calls on the filter or on the scan-to-scan estimator. *)
Definition is_estimator_call (e : Event) : bool :=
  match e with
  | Call_SetOdometryDelta _ | Call_Filter _ _ | Call_SetLidar _
  | Call_UpdateEstimate _ | Call_odometry_PublishAll => true
  | _ => false
  end.
(** Calls on the localizer or on the mapper. *)
Definition is_map_or_pose_call (e : Event) : bool :=
  match e with
  | Call_MotionUpdate _ | Call_TransformPointsToFixedFrame _
  | Call_TransformPointsToSensorFrame _ | Call_MeasurementUpdate _ _
  | Call_localization_PublishAll | Call_PublishPoseNoUpdate
  | Call_UpdateTimestamp _ | Call_InsertPoints _
  | Call_ApproxNearestNeighbors _ | Call_PublishMap
  | Call_SetRollingMapBufferOn => true
  | _ => false
  end.

Definition count (p : Event -> bool) (l : list Event) : nat :=
  List.length (List.filter p l).

(** ** Statements

    A statement run from a state completes normally with a value, by a
    [return] carrying the function's result, or with an exception in
    flight; it leaves a state and the actions it performed. *)
Inductive completion (Ret A : Type) : Type :=
| Normal (a : A)
| Returned (r : Ret)
| Thrown (e : exception).
Arguments Normal {Ret A} a.
Arguments Returned {Ret A} r.
Arguments Thrown {Ret A} e.

Record Result (Ret A : Type) : Type :=
  mkResult { outcome : completion Ret A; after : Sys; emitted : list Event }.
Arguments mkResult {Ret A} outcome after emitted.
Arguments outcome {Ret A} r.
Arguments after {Ret A} r.
Arguments emitted {Ret A} r.

Definition M (Ret A : Type) : Type := Sys -> Result Ret A.

Definition ret {Ret A} (a : A) : M Ret A :=
  fun s => mkResult (Normal a) s [].

Definition bind {Ret A B} (m : M Ret A) (k : A -> M Ret B) : M Ret B :=
  fun s =>
    match m s with
    | mkResult (Normal a) s1 l1 =>
        match k a s1 with
        | mkResult c s2 l2 => mkResult c s2 (l1 ++ l2)
        end
    | mkResult (Returned v) s1 l1 => mkResult (Returned v) s1 l1
    | mkResult (Thrown e) s1 l1 => mkResult (Thrown e) s1 l1
    end.

(** [return v;] *)
Definition return_ {Ret} (v : Ret) : M Ret unit :=
  fun s => mkResult (Returned v) s [].

Definition throw {Ret A} (e : exception) : M Ret A :=
  fun s => mkResult (Thrown e) s [].

(** Reading [*this] and the environment. *)
Definition this {Ret} : M Ret SpotFrontend :=
  fun s => mkResult (Normal (self s)) s [].
Definition env {Ret} : M Ret World :=
  fun s => mkResult (Normal (world s)) s [].

(** Assigning to members. *)
Definition assign {Ret} (f : SpotFrontend -> SpotFrontend) : M Ret unit :=
  fun s => mkResult (Normal tt) (mkSys (f (self s)) (world s)) [].

Definition emit {Ret} (e : Event) : M Ret unit :=
  fun s => mkResult (Normal tt) s [e].

(** [if (c) { body }] *)
Definition when {Ret} (c : bool) (body : M Ret unit) : M Ret unit :=
  if c then body else ret tt.

(** Calling a member function: its [return] becomes the value of the call
    expression, an exception keeps propagating. *)
Definition call {Ret T} (body : M T unit) : M Ret T :=
  fun s =>
    match body s with
    | mkResult (Returned v) s1 l1 => mkResult (Normal v) s1 l1
    | mkResult (Normal _) s1 l1 => mkResult (Thrown MissingReturn) s1 l1
    | mkResult (Thrown e) s1 l1 => mkResult (Thrown e) s1 l1
    end.

(** Calling a [void] member function: reaching the end of the body and
    [return;] are the same. *)
Definition call_void {Ret} (body : M unit unit) : M Ret unit :=
  fun s =>
    match body s with
    | mkResult (Returned _) s1 l1 | mkResult (Normal _) s1 l1 =>
        mkResult (Normal tt) s1 l1
    | mkResult (Thrown e) s1 l1 => mkResult (Thrown e) s1 l1
    end.
End Frontend.

Arguments Normal {Ret A} a.
Arguments Returned {Ret A} r.
Arguments Thrown {Ret A} e.
Arguments mkResult {D R E Ret A} outcome after emitted.
Arguments outcome {D R E Ret A} r.
Arguments after {D R E Ret A} r.
Arguments emitted {D R E Ret A} r.

Declare Scope stmt_scope.
Delimit Scope stmt_scope with stmt.
Notation "x <- c1 ;; c2" := (bind c1 (fun x => c2))
  (at level 61, c1 at next level, right associativity) : stmt_scope.
Notation "c1 ;; c2" := (bind c1 (fun _ => c2))
  (at level 61, right associativity) : stmt_scope.
Local Open Scope stmt_scope.

(** ** Calls on collaborators

    Each wrapper performs the call on the member object, stores the new
    object and the output buffer, and records the call. *)
Section Calls.
Context {D : Double} {R : RosTypes} {E : Externals}.
Context {Ret : Type}.

Definition log (sev : Severity) (text : string) : M Ret unit :=
  emit (Log sev text).

(** [ros::Time::now()] *)
Definition ros_now : M Ret Time :=
  fun s =>
    let r := now (world s) in
    mkResult (Normal (fst r)) (mkSys (self s) (snd r)) [].

(** [odometry_buffer_.lookupTransform(target, source, time)]; throws. *)
Definition buffer_lookupTransform (target source : string) (t : Time)
  : M Ret TransformStamped :=
  fun s =>
    match lookupTransform (odometry_buffer_ (self s)) target source t with
    | inl e => mkResult (Thrown e) s [Call_lookupTransform target source t]
    | inr ts => mkResult (Normal ts) s [Call_lookupTransform target source t]
    end.

Definition buffer_setTransform (t : TransformStamped) (authority : string)
           (is_static : bool) : M Ret unit :=
  o <- this ;;
  assign (set_odometry_buffer_
            (setTransform (odometry_buffer_ o) t authority is_static)) ;;
  emit (Call_setTransform t authority).

Definition filter_Filter (points : PointCloud) (out : CloudPtr)
           (is_open_space : bool) : M Ret unit :=
  o <- this ;;
  let r := Filter (filter_ o) points is_open_space in
  assign (fun o => set_cloud out (snd r) (set_filter_ (fst r) o)) ;;
  emit (Call_Filter points is_open_space).

Definition odometry_EnableOdometryIntegration : M Ret unit :=
  o <- this ;;
  assign (set_odometry_ (EnableOdometryIntegration (odometry_ o))) ;;
  emit Call_EnableOdometryIntegration.

Definition odometry_SetOdometryDelta (delta : tf.Transform) : M Ret unit :=
  o <- this ;;
  assign (set_odometry_ (SetOdometryDelta (odometry_ o) delta)) ;;
  emit (Call_SetOdometryDelta delta).

Definition odometry_SetLidar (points : PointCloud) : M Ret unit :=
  o <- this ;;
  assign (set_odometry_ (SetLidar (odometry_ o) points)) ;;
  emit (Call_SetLidar points).

Definition odometry_UpdateEstimate : M Ret bool :=
  o <- this ;;
  let r := UpdateEstimate (odometry_ o) in
  assign (set_odometry_ (fst r)) ;;
  emit (Call_UpdateEstimate (snd r)) ;;
  ret (snd r).

Definition odometry_PublishAll_ : M Ret unit :=
  o <- this ;;
  assign (set_odometry_ (odometry_PublishAll (odometry_ o))) ;;
  emit Call_odometry_PublishAll.

Definition localization_MotionUpdate (increment : Transform3) : M Ret unit :=
  o <- this ;;
  assign (set_localization_ (MotionUpdate (localization_ o) increment)) ;;
  emit (Call_MotionUpdate increment).

Definition localization_TransformPointsToFixedFrame
           (points : PointCloud) (out : CloudPtr) : M Ret unit :=
  o <- this ;;
  let r := TransformPointsToFixedFrame (localization_ o) points in
  assign (fun o => set_cloud out (snd r) (set_localization_ (fst r) o)) ;;
  emit (Call_TransformPointsToFixedFrame points).

Definition localization_TransformPointsToSensorFrame
           (points : PointCloud) (out : CloudPtr) : M Ret unit :=
  o <- this ;;
  let r := TransformPointsToSensorFrame (localization_ o) points in
  assign (fun o => set_cloud out (snd r) (set_localization_ (fst r) o)) ;;
  emit (Call_TransformPointsToSensorFrame points).

Definition localization_MeasurementUpdate
           (query reference : PointCloud) (out : CloudPtr) : M Ret unit :=
  o <- this ;;
  let r := MeasurementUpdate (localization_ o) query reference in
  assign (fun o => set_cloud out (snd r) (set_localization_ (fst r) o)) ;;
  emit (Call_MeasurementUpdate query reference).

Definition localization_PublishAll_ : M Ret unit :=
  o <- this ;;
  assign (set_localization_ (localization_PublishAll (localization_ o))) ;;
  emit Call_localization_PublishAll.

Definition localization_PublishPoseNoUpdate : M Ret unit :=
  o <- this ;;
  assign (set_localization_ (PublishPoseNoUpdate (localization_ o))) ;;
  emit Call_PublishPoseNoUpdate.

Definition localization_UpdateTimestamp (t : Time) : M Ret unit :=
  o <- this ;;
  assign (set_localization_ (UpdateTimestamp (localization_ o) t)) ;;
  emit (Call_UpdateTimestamp t).

(** [mapper_.InsertPoints(points, out.get())] with [out] a member buffer. *)
Definition mapper_InsertPoints (points : PointCloud) (out : CloudPtr)
  : M Ret unit :=
  o <- this ;;
  let r := InsertPoints (mapper_ o) points in
  assign (fun o => set_cloud out (snd r) (set_mapper_ (fst r) o)) ;;
  emit (Call_InsertPoints points).

(** [mapper_.InsertPoints(points, unused.get())] with [unused] a local. *)
Definition mapper_InsertPoints_local (points : PointCloud) : M Ret unit :=
  o <- this ;;
  let r := InsertPoints (mapper_ o) points in
  assign (set_mapper_ (fst r)) ;;
  emit (Call_InsertPoints points).

Definition mapper_ApproxNearestNeighbors (points : PointCloud)
           (out : CloudPtr) : M Ret unit :=
  o <- this ;;
  let r := ApproxNearestNeighbors (mapper_ o) points in
  assign (fun o => set_cloud out (snd r) (set_mapper_ (fst r) o)) ;;
  emit (Call_ApproxNearestNeighbors points).

Definition mapper_PublishMap_ : M Ret unit :=
  o <- this ;;
  assign (set_mapper_ (PublishMap (mapper_ o))) ;;
  emit Call_PublishMap.

Definition mapper_SetRollingMapBufferOn_ : M Ret unit :=
  o <- this ;;
  assign (set_mapper_ (SetRollingMapBufferOn (mapper_ o))) ;;
  emit Call_SetRollingMapBufferOn.

(** [collaborator.Initialize(n)] *)
Definition initialize {C : Type} (name : string)
           (init : World -> C -> C * bool)
           (get : SpotFrontend -> C)
           (set : C -> SpotFrontend -> SpotFrontend) : M Ret bool :=
  o <- this ;;
  w <- env ;;
  let r := init w (get o) in
  assign (set (fst r)) ;;
  emit (Call_Initialize name (snd r)) ;;
  ret (snd r).

(** [pu::Get(name, member)]: on success the member is overwritten. *)
Definition pu_Get {T : Type} (get : World -> string -> option T)
           (name : string) (set : T -> Parameters -> Parameters)
  : M Ret bool :=
  w <- env ;;
  match get w name with
  | Some v => assign (set_param (set v)) ;; ret true
  | None => ret false
  end.
End Calls.

(** ** Member functions of [SpotFrontend] *)
Section Members.
Context {D : Double} {R : RosTypes} {E : Externals}.

(** [SpotFrontend::SpotFrontend()].  [raw] is the storage before the
    initialiser list runs: the members the list does not name keep the
    value they have there. *)
Definition SpotFrontend_new (raw : SpotFrontend) : SpotFrontend :=
  mkSpotFrontend
    (set_publish_diagnostics_ false
       (set_b_run_rolling_map_buffer_ false (params raw)))
    true 0 (last_keyframe_pose_ raw)
    false (pcld_seq_prev_ raw)
    (fun _ => PointCloud_new)
    false 0 false false
    "transform_odometry" (odometry_pose_previous_ raw)
    (name_ raw)
    (filter_ raw) (odometry_ raw) (localization_ raw) (mapper_ raw)
    (odometry_buffer_ raw).

(** [if (!e) return false;] *)
Definition require (e : M bool bool) : M bool unit :=
  ok <- e ;; when (negb ok) (return_ false).

(** [if (!e) { ROS_ERROR(text); return false; }] *)
Definition require_or (e : M bool bool) (text : string) : M bool unit :=
  ok <- e ;; when (negb ok) (log ERROR text ;; return_ false).

(** lines 70-115 *)
Definition LoadParameters : M bool unit :=
  log INFO "SpotFrontend - LoadParameters" ;;
  require (pu_Get Get_bool "b_verbose" set_b_verbose_) ;;
  require (pu_Get Get_double "translation_threshold_kf"
                  set_translation_threshold_kf_) ;;
  require (pu_Get Get_double "rotation_threshold_kf"
                  set_rotation_threshold_kf_) ;;
  require (pu_Get Get_int "number_of_points_open_space"
                  set_number_of_points_open_space_) ;;
  require (pu_Get Get_int "map_publishment/meters"
                  set_map_publishment_meters_) ;;
  require (pu_Get Get_bool "map_publishment/b_publish_map"
                  set_b_publish_map_) ;;
  require (pu_Get Get_string "frame_id/fixed" set_fixed_frame_id_) ;;
  require (pu_Get Get_string "frame_id/base" set_base_frame_id_) ;;
  require (pu_Get Get_string "frame_id/bd_odometry" set_bd_odom_frame_id_) ;;
  require (pu_Get Get_int "queues/lidar_queue_size" set_lidar_queue_size_) ;;
  require (pu_Get Get_int "queues/odom_queue_size" set_odom_queue_size_) ;;
  require (pu_Get Get_int "buffers/odometry_buffer_size_limit"
                  set_odometry_buffer_size_limit_) ;;
  require (pu_Get Get_int "data_integration/mode"
                  set_data_integration_mode_) ;;
  require (pu_Get Get_int "data_integration/max_number_of_calls"
                  set_max_number_of_calls_) ;;
  require (pu_Get Get_bool "b_enable_computation_time_profiling"
                  set_b_enable_computation_time_profiling_) ;;
  require (pu_Get Get_bool "b_run_with_gt_point_cloud"
                  set_b_run_with_gt_point_cloud_) ;;
  require (pu_Get Get_string "gt_point_cloud_filename"
                  set_gt_point_cloud_filename_) ;;
  _ <- pu_Get Get_bool "publish_diagnostics" set_publish_diagnostics_ ;;
  return_ true ;;
  (* the statements below follow the [return true;] of line 107 *)
  require (pu_Get Get_bool "b_run_rolling_map_buffer"
                  set_b_run_rolling_map_buffer_) ;;
  o <- this ;;
  when (b_run_rolling_map_buffer_ (params o)) mapper_SetRollingMapBufferOn_.

(** lines 117-134 *)
Definition SetDataIntegrationMode : M bool unit :=
  log INFO "SpotFrontend - SetDataIntegrationMode" ;;
  o <- this ;;
  (if data_integration_mode_ (params o) =? 0 then
     log INFO "No integration requested"
   else if data_integration_mode_ (params o) =? 3 then
     log INFO "Odometry integration requested" ;;
     assign (set_b_use_odometry_integration_ true) ;;
     odometry_EnableOdometryIntegration
   else
     log ERROR "Default case to be handled" ;;
     return_ false) ;;
  return_ true.

(** lines 169-178 *)
Definition CreatePublishers : M bool unit :=
  log INFO "SpotFrontend - CreatePublishers" ;;
  emit (Advertise base_frame_pcld_pub_) ;;
  emit (Advertise lidar_callback_duration_pub_) ;;
  emit (Advertise scan_to_scan_duration_pub_) ;;
  emit (Advertise scan_to_submap_duration_pub_) ;;
  emit (Advertise diagnostics_pub_) ;;
  return_ true.

(** lines 145-149 *)
Definition RegisterLogCallbacks : M bool unit :=
  log INFO "SpotFrontend - RegisterLogCallbacks" ;;
  log INFO "%s: Registering log callbacks." ;;
  ok <- call CreatePublishers ;;
  return_ ok.

(** lines 151-167 *)
Definition RegisterOnlineCallbacks : M bool unit :=
  log INFO "SpotFrontend - RegisterOnlineCallbacks" ;;
  log INFO "%s: Registering online callbacks." ;;
  o <- this ;;
  (if b_use_odometry_integration_ o then
     emit (Subscribe "ODOMETRY_TOPIC" (odom_queue_size_ (params o))
                     to_OdometryCallback) ;;
     emit (Subscribe "LIDAR_TOPIC" (lidar_queue_size_ (params o))
                     to_connected_filters) ;;
     (* lidar_odometry_filter_, on lidar_sub_ and odometry_buffer_, with
        LidarCallback registered on it *)
     emit (New_MessageFilter (bd_odom_frame_id_ (params o)) 10)
   else
     log WARN "Running pure LO in SpotFrontend as no data integration has been requested" ;;
     emit (Subscribe "LIDAR_TOPIC" (lidar_queue_size_ (params o))
                     to_LidarCallback)) ;;
  emit (Subscribe "SPOT_FGA_TOPIC" 1 to_FlatGroundAssumptionCallback) ;;
  ok <- call CreatePublishers ;;
  return_ ok.

(** lines 136-143 *)
Definition RegisterCallbacks (from_log : bool) : M bool unit :=
  log INFO "SpotFrontend - RegisterCallbacks" ;;
  if from_log then
    ok <- call RegisterLogCallbacks ;; return_ ok
  else
    ok <- call RegisterOnlineCallbacks ;; return_ ok.

(** lines 376-390 *)
Definition InitWithGTPointCloud (filename : string) : M unit unit :=
  log INFO "Generating point cloud ground truth using point cloud from " ;;
  w <- env ;;
  let gt_point_cloud := read_pcd w filename in
  mapper_InsertPoints_local gt_point_cloud ;;
  log INFO "Completed addition of GT point cloud to map".

(** lines 33-68 *)
Definition Initialize (from_log : bool) : M bool unit :=
  log INFO "SpotFrontend - Initialize" ;;
  w <- env ;;
  assign (set_name_ (names_append (getNamespace w) "spot_frontend")) ;;
  require_or (initialize "filter_" filter_Initialize filter_ set_filter_)
             "%s: Failed to initialize point cloud filter." ;;
  require_or (initialize "odometry_" odometry_Initialize odometry_
                         set_odometry_)
             "%s: Failed to initialize point cloud odometry." ;;
  require_or (initialize "localization_" localization_Initialize
                         localization_ set_localization_)
             "%s: Failed to initialize localization." ;;
  require_or (initialize "mapper_" mapper_Initialize mapper_ set_mapper_)
             "%s: Failed to initialize mapper." ;;
  require_or (call LoadParameters) "%s: Failed to load parameters." ;;
  require_or (call SetDataIntegrationMode)
             "Failed to set data integration mode" ;;
  require_or (call (RegisterCallbacks from_log))
             "%s: Failed to register callbacks." ;;
  o <- this ;;
  when (b_run_with_gt_point_cloud_ (params o))
       (call_void (InitWithGTPointCloud (gt_point_cloud_filename_ (params o)))) ;;
  return_ true.

(** lines 180-192 *)
Definition OdometryCallback (odometry_msg : Odometry) : M unit unit :=
  let odometry :=
      mkTransformStamped
        (mkHeader (seq (odom_header odometry_msg))
                  (stamp (odom_header odometry_msg))
                  (frame_id (odom_header odometry_msg)))
        (odom_child_frame_id odometry_msg)
        (mkTransformMsg
           (tf.mkVector3 (tf.x (pose_position odometry_msg))
                         (tf.y (pose_position odometry_msg))
                         (tf.z (pose_position odometry_msg)))
           (pose_orientation odometry_msg)) in
  o <- this ;;
  buffer_setTransform odometry (tf_buffer_authority_ o) false.

(** lines 370-374 *)
Definition FlatGroundAssumptionCallback (data : bool) : M unit unit :=
  log INFO "SpotFrontend - FlatGroundAssumptionCallback - Received: " ;;
  o <- this ;;
  assign (set_odometry_
            (odometry_SetFlatGroundAssumptionValue (odometry_ o) data)) ;;
  emit (Call_SetFlatGroundAssumptionValue "odometry_" data) ;;
  o <- this ;;
  assign (set_localization_
            (localization_SetFlatGroundAssumptionValue (localization_ o) data)) ;;
  emit (Call_SetFlatGroundAssumptionValue "localization_" data).

(** lines 342-344 *)
Definition GetOdometryDelta (o : SpotFrontend) (odometry_pose : tf.Transform)
  : tf.Transform :=
  tf.inverseTimes (odometry_pose_previous_ o) odometry_pose.

Record Pose3 : Type :=
  mkPose3 { pose_rotation : Rot3; pose_translation : gtsam_Vector3 }.

(** lines 352-368: the value built, and the function with its console line. *)
Definition ToGtsam_value (pose : Transform3) : Pose3 :=
  let t := mkGtsamVector3 (translation pose 0) (translation pose 1)
                          (translation pose 2) in
  let r := Rot3_of (rotation pose 0 0) (rotation pose 0 1) (rotation pose 0 2)
                   (rotation pose 1 0) (rotation pose 1 1) (rotation pose 1 2)
                   (rotation pose 2 0) (rotation pose 2 1) (rotation pose 2 2) in
  mkPose3 r t.

Definition ToGtsam {Ret} (pose : Transform3) : M Ret Pose3 :=
  o <- this ;;
  when (b_verbose_ (params o)) (log INFO "SpotFrontend - ToGtsam") ;;
  ret (ToGtsam_value pose).
End Members.

(** ** [SpotFrontend::LidarCallback], lines 194-340

    The body is cut into its consecutive blocks; [LidarCallback] at the end
    chains them in the order of the source.  Locals that live across blocks
    ([lidar_callback_start], [stamp], the two diagnostics records) are passed
    along. *)
Section Lidar.
Context {D : Double} {R : RosTypes} {E : Externals}.

(** [if (b_enable_computation_time_profiling_) { t = ros::Time::now(); }]
    for a default-constructed local [t]. *)
Definition profiling_now : M unit Time :=
  o <- this ;;
  if b_enable_computation_time_profiling_ (params o) then ros_now
  else ret Time_default.

(** The profiling blocks that publish the time elapsed since [start]. *)
Definition publish_duration (pub : Publisher) (start : Time) : M unit unit :=
  o <- this ;;
  when (b_enable_computation_time_profiling_ (params o))
       (finish <- ros_now ;;
        emit (Publish_Float64 pub (duration_data finish start))).

(** lines 204-213.  [msg->header.seq] is unsigned, so the comparison is
    made in 32-bit unsigned arithmetic. *)
Definition sequence_guard (msg : PointCloud) : M unit unit :=
  o <- this ;;
  if negb (b_pcld_received_ o) then
    assign (set_pcld_seq_prev_ (header_seq msg)) ;;
    assign (set_b_pcld_received_ true)
  else
    when (negb (header_seq msg =? uint32 (pcld_seq_prev_ o + 1)))
         (log WARN "Lidar scan dropped") ;;
    assign (set_pcld_seq_prev_ (header_seq msg)).

(** lines 215-217 *)
Definition classify_density (msg : PointCloud) : M unit unit :=
  o <- this ;;
  let number_of_points := width msg in
  if number_of_points >? uint32 (number_of_points_open_space_ (params o))
  then assign (set_b_is_open_space_ true)
  else assign (set_b_is_open_space_ false).

(** lines 222-240 *)
Definition odometry_integration (stamp : Time) : M unit unit :=
  o <- this ;;
  when (b_use_odometry_integration_ o)
    (t <- buffer_lookupTransform (bd_odom_frame_id_ (params o))
                                 (base_frame_id_ (params o)) stamp ;;
     let tf_translation := translation_msg (transform t) in
     let tf_quaternion := rotation_msg (transform t) in
     let tf_transform :=
         tf.mkTransform (tf.setRotation tf_quaternion) tf_translation in
     o <- this ;;
     when (negb (b_odometry_has_been_received_ o))
       (log INFO "Receiving odometry for the first time" ;;
        assign (set_odometry_pose_previous_ tf_transform) ;;
        assign (set_b_odometry_has_been_received_ true) ;;
        return_ tt) ;;
     o <- this ;;
     odometry_SetOdometryDelta (GetOdometryDelta o tf_transform) ;;
     assign (set_odometry_pose_previous_ tf_transform)).

(** lines 242-262; the value is the local [diagnostics_odometry]. *)
Definition scan_to_scan (msg : PointCloud) : M unit DiagnosticStatus :=
  o <- this ;;
  filter_Filter msg msg_filtered_ (b_is_open_space_ o) ;;
  o <- this ;;
  odometry_SetLidar (clouds o msg_filtered_) ;;
  scan_to_scan_start <- profiling_now ;;
  ok <- odometry_UpdateEstimate ;;
  when (negb ok) (assign (set_b_add_first_scan_to_key_ true)) ;;
  o <- this ;;
  let diagnostics_odometry := odometry_GetDiagnostics (odometry_ o) in
  when (level diagnostics_odometry =? 0) odometry_PublishAll_ ;;
  publish_duration scan_to_scan_duration_pub_ scan_to_scan_start ;;
  ret diagnostics_odometry.

(** lines 264-272 *)
Definition bootstrap (msg : PointCloud) (stamp : Time) : M unit unit :=
  o <- this ;;
  when (b_add_first_scan_to_key_ o
        && negb (b_run_with_gt_point_cloud_ (params o)))
    (localization_TransformPointsToFixedFrame msg msg_transformed_ ;;
     o <- this ;;
     mapper_InsertPoints (clouds o msg_transformed_) mapper_unused_fixed_ ;;
     localization_UpdateTimestamp stamp ;;
     localization_PublishPoseNoUpdate ;;
     assign (set_b_add_first_scan_to_key_ false) ;;
     o <- this ;;
     assign (set_last_keyframe_pose_ (GetIntegratedEstimate (localization_ o))) ;;
     return_ tt).

(** lines 274-294; the value is the local [diagnostics_localization]. *)
Definition scan_to_submap (msg : PointCloud) : M unit DiagnosticStatus :=
  scan_to_submap_start <- profiling_now ;;
  o <- this ;;
  localization_MotionUpdate (GetIncrementalEstimate (odometry_ o)) ;;
  localization_TransformPointsToFixedFrame msg msg_transformed_ ;;
  o <- this ;;
  mapper_ApproxNearestNeighbors (clouds o msg_transformed_) msg_neighbors_ ;;
  o <- this ;;
  localization_TransformPointsToSensorFrame (clouds o msg_neighbors_)
                                            msg_neighbors_ ;;
  o <- this ;;
  localization_MeasurementUpdate (clouds o msg_filtered_)
                                 (clouds o msg_neighbors_) msg_base_ ;;
  o <- this ;;
  let diagnostics_localization :=
      localization_GetDiagnostics (localization_ o) in
  when (level diagnostics_localization =? 0) localization_PublishAll_ ;;
  publish_duration scan_to_submap_duration_pub_ scan_to_submap_start ;;
  ret diagnostics_localization.

(** The condition of lines 299-300. *)
Definition exceeds_threshold (p : Parameters) (delta : Pose3) : bool :=
  dgt (norm (pose_translation delta)) (translation_threshold_kf_ p)
  || dgt (fabs (dmul (d_of_Z 2) (acos (toQuaternion_w (pose_rotation delta)))))
         (rotation_threshold_kf_ p).

(** lines 301-312: the body of the keyframe branch. *)
Definition insert_keyframe (msg : PointCloud) (current_pose : Transform3)
  : M unit unit :=
  o <- this ;;
  when (b_verbose_ (params o)) (log INFO "Adding to map with translation ") ;;
  localization_MotionUpdate Transform3_Identity ;;
  localization_TransformPointsToFixedFrame msg msg_fixed_ ;;
  o <- this ;;
  mapper_InsertPoints (clouds o msg_fixed_) mapper_unused_out_ ;;
  o <- this ;;
  when (b_publish_map_ (params o))
    (assign (set_counter_ (int32 (counter_ o + 1))) ;;
     o <- this ;;
     when (counter_ o =? map_publishment_meters_ (params o))
       (mapper_PublishMap_ ;;
        assign (set_counter_ 0))) ;;
  assign (set_last_keyframe_pose_ current_pose).

(** lines 296-313 *)
Definition keyframe_decision (msg : PointCloud) : M unit unit :=
  o <- this ;;
  let current_pose := GetIntegratedEstimate (localization_ o) in
  delta <- ToGtsam (PoseDelta (last_keyframe_pose_ o) current_pose) ;;
  o <- this ;;
  when (exceeds_threshold (params o) delta)
       (insert_keyframe msg current_pose).

(** lines 315-339 *)
Definition publish_outputs (msg : PointCloud) (lidar_callback_start : Time)
           (diagnostics_odometry diagnostics_localization : DiagnosticStatus)
  : M unit unit :=
  w <- env ;;
  o <- this ;;
  when (negb (getNumSubscribers w base_frame_pcld_pub_ =? 0))
       (emit (Publish_PointCloud base_frame_pcld_pub_
                (set_header_frame_id (base_frame_id_ (params o)) msg))) ;;
  publish_duration lidar_callback_duration_pub_ lidar_callback_start ;;
  o <- this ;;
  when (publish_diagnostics_ (params o))
       (t <- ros_now ;;
        emit (Publish_DiagnosticArray diagnostics_pub_
                (mkDiagnosticArray
                   (mkHeader (uint32 (0 + 1)) t (name_ o))
                   [diagnostics_odometry; diagnostics_localization]))).

Definition LidarCallback (msg : PointCloud) : M unit unit :=
  lidar_callback_start <- profiling_now ;;
  sequence_guard msg ;;
  classify_density msg ;;
  let stamp := fromPCL (header_stamp msg) in
  odometry_integration stamp ;;
  diagnostics_odometry <- scan_to_scan msg ;;
  bootstrap msg stamp ;;
  diagnostics_localization <- scan_to_submap msg ;;
  keyframe_decision msg ;;
  publish_outputs msg lidar_callback_start diagnostics_odometry
                  diagnostics_localization.

(** lines 196-240 on their own: [LidarCallback] up to the estimator block.
    It completes normally exactly when the scan is not stopped in the
    external-odometry block. *)
Definition until_estimator (msg : PointCloud) : M unit Time :=
  start <- profiling_now ;;
  sequence_guard msg ;;
  classify_density msg ;;
  let stamp := fromPCL (header_stamp msg) in
  odometry_integration stamp ;;
  ret start.

(** The locals alive when control reaches line 296. *)
Record Locals : Type :=
  mkLocals { lidar_callback_start : Time;
             diagnostics_odometry : DiagnosticStatus;
             diagnostics_localization : DiagnosticStatus }.

(** lines 196-294 on their own: [LidarCallback] up to the keyframe
    decision.  It completes normally exactly when the scan reaches the
    decision, which is what "processed in the steady state" means. *)
Definition before_keyframe_decision (msg : PointCloud) : M unit Locals :=
  start <- profiling_now ;;
  sequence_guard msg ;;
  classify_density msg ;;
  let stamp := fromPCL (header_stamp msg) in
  odometry_integration stamp ;;
  d_odometry <- scan_to_scan msg ;;
  bootstrap msg stamp ;;
  d_localization <- scan_to_submap msg ;;
  ret (mkLocals start d_odometry d_localization).

(** ** Runs

    The messages the ROS runtime takes up for the subscriptions of
    [RegisterOnlineCallbacks], in the order it takes them up, and what the
    subscriptions do with them.  Nothing in the translation unit handles
    exceptions, so one that leaves a callback leaves the run. *)
Inductive Input : Type :=
| scan (msg : PointCloud)
| odometry_sample (msg : Odometry)
| flat_ground (data : bool).

(** [tf2::BufferCore::canTransform]: whether [lookupTransform] with the
    same arguments gives a transform. *)
Definition canTransform (b : Buffer) (target source : string) (t : Time)
  : bool :=
  match lookupTransform b target source t with
  | inr _ => true
  | inl _ => false
  end.

(** A scan that arrives at [lidar_odometry_filter_] (lines 157-159): the
    [tf2_ros::MessageFilter] hands it to [LidarCallback] when
    [odometry_buffer_] can transform the scan's frame to the target frame
    [bd_odom_frame_id_] at the scan's stamp.  A scan it cannot transform
    waits in the filter or is dropped from it: no callback runs.  The
    filter tries a waiting scan again when the buffer has changed; every
    such attempt is one more [scan] input of the run. *)
Definition through_filter (msg : PointCloud) : M unit unit :=
  o <- this ;;
  when (canTransform (odometry_buffer_ o) (bd_odom_frame_id_ (params o))
                     (header_frame_id msg) (fromPCL (header_stamp msg)))
       (call_void (LidarCallback msg)).

(** The lidar topic is connected to [LidarCallback] directly when odometry
    integration is off (line 163) and through the filter when it is on. *)
Definition deliver (i : Input) : M unit unit :=
  match i with
  | scan msg =>
      o <- this ;;
      if b_use_odometry_integration_ o then through_filter msg
      else call_void (LidarCallback msg)
  | odometry_sample msg => call_void (OdometryCallback msg)
  | flat_ground data => call_void (FlatGroundAssumptionCallback data)
  end.

(** A scan on the lidar topic reaches [LidarCallback] unless odometry
    integration is on and the filter cannot transform it. *)
Definition reaches_callback (msg : PointCloud) (s : Sys) : bool :=
  negb (b_use_odometry_integration_ (self s))
  || canTransform (odometry_buffer_ (self s))
                  (bd_odom_frame_id_ (params (self s)))
                  (header_frame_id msg) (fromPCL (header_stamp msg)).

Fixpoint spin (inputs : list Input) : M unit unit :=
  match inputs with
  | [] => ret tt
  | i :: rest => deliver i ;; spin rest
  end.

(** A callback inserted a keyframe when it made a map insertion in the
    same scan as a measurement update; the bootstrap inserts without one. *)
Definition inserted_keyframe (events : list Event) : bool :=
  existsb is_InsertPoints events && existsb is_MeasurementUpdate events.

(** Number of delivered callbacks of a run that inserted a keyframe. *)
Fixpoint keyframes_inserted (inputs : list Input) (s : Sys) : nat :=
  match inputs with
  | [] => O
  | i :: rest =>
      let r := deliver i s in
      ((if inserted_keyframe (emitted r) then 1 else 0)
       + match outcome r with
         | Normal _ => keyframes_inserted rest (after r)
         | _ => 0
         end)%nat
  end.

(** The rolling-map-buffer flag is off. *)
Definition rolling_off (o : SpotFrontend) : Prop :=
  b_run_rolling_map_buffer_ (params o) = false.

(** The members the spec calls KeyframeState. *)
Definition KeyframeState (o : SpotFrontend) : Transform3 * bool * Z :=
  (last_keyframe_pose_ o, b_add_first_scan_to_key_ o, counter_ o).
End Lidar.

(** ** Judgements on statements *)
Section Rules.
Context {D : Double} {R : RosTypes} {E : Externals}.

(** [m] keeps the property [I] of the object and performs no action
    selected by [p], however it completes. *)
Definition keeps {Ret A} (I : SpotFrontend -> Prop) (p : Event -> bool)
           (m : M Ret A) : Prop :=
  forall s, I (self s) ->
    I (self (after (m s))) /\ List.filter p (emitted (m s)) = [].

(** The same, but only for the runs of [m] that complete normally. *)
Definition keeps_if_normal {Ret A} (I : SpotFrontend -> Prop)
           (p : Event -> bool) (m : M Ret A) : Prop :=
  forall s a, I (self s) -> outcome (m s) = Normal a ->
    I (self (after (m s))) /\ List.filter p (emitted (m s)) = [].

Definition always_normal {Ret A} (m : M Ret A) : Prop :=
  forall s, exists a, outcome (m s) = Normal a.

Definition never_normal {Ret A} (m : M Ret A) : Prop :=
  forall s a, outcome (m s) <> Normal a.


(** Unless [m] completes normally it performs no action selected by [p]. *)
Definition silent_unless_normal {Ret A} (p : Event -> bool) (m : M Ret A)
  : Prop :=
  forall s, (exists a, outcome (m s) = Normal a)
            \/ List.filter p (emitted (m s)) = [].
End Rules.

(** ** What initialisation reads and leaves *)
Section Setup.
Context {D : Double} {R : RosTypes} {E : Externals}.

Definition present {T : Type} (v : option T) : bool :=
  match v with Some _ => true | None => false end.

(** Every key [LoadParameters] insists on is on the parameter server. *)
Definition required_parameters_present (w : World) : bool :=
  present (Get_bool w "b_verbose")
  && present (Get_double w "translation_threshold_kf")
  && present (Get_double w "rotation_threshold_kf")
  && present (Get_int w "number_of_points_open_space")
  && present (Get_int w "map_publishment/meters")
  && present (Get_bool w "map_publishment/b_publish_map")
  && present (Get_string w "frame_id/fixed")
  && present (Get_string w "frame_id/base")
  && present (Get_string w "frame_id/bd_odometry")
  && present (Get_int w "queues/lidar_queue_size")
  && present (Get_int w "queues/odom_queue_size")
  && present (Get_int w "buffers/odometry_buffer_size_limit")
  && present (Get_int w "data_integration/mode")
  && present (Get_int w "data_integration/max_number_of_calls")
  && present (Get_bool w "b_enable_computation_time_profiling")
  && present (Get_bool w "b_run_with_gt_point_cloud")
  && present (Get_string w "gt_point_cloud_filename").

(** The members [p'] hold what the server [w] has under their keys; the
    optional key falls back on the member's value in [p]. *)
Definition loaded_from (w : World) (p p' : Parameters) : Prop :=
  Get_bool w "b_verbose" = Some (b_verbose_ p')
  /\ Get_double w "translation_threshold_kf"
     = Some (translation_threshold_kf_ p')
  /\ Get_double w "rotation_threshold_kf" = Some (rotation_threshold_kf_ p')
  /\ Get_int w "number_of_points_open_space"
     = Some (number_of_points_open_space_ p')
  /\ Get_int w "map_publishment/meters" = Some (map_publishment_meters_ p')
  /\ Get_bool w "map_publishment/b_publish_map" = Some (b_publish_map_ p')
  /\ Get_string w "frame_id/fixed" = Some (fixed_frame_id_ p')
  /\ Get_string w "frame_id/base" = Some (base_frame_id_ p')
  /\ Get_string w "frame_id/bd_odometry" = Some (bd_odom_frame_id_ p')
  /\ Get_int w "queues/lidar_queue_size" = Some (lidar_queue_size_ p')
  /\ Get_int w "queues/odom_queue_size" = Some (odom_queue_size_ p')
  /\ Get_int w "buffers/odometry_buffer_size_limit"
     = Some (odometry_buffer_size_limit_ p')
  /\ Get_int w "data_integration/mode" = Some (data_integration_mode_ p')
  /\ Get_int w "data_integration/max_number_of_calls"
     = Some (max_number_of_calls_ p')
  /\ Get_bool w "b_enable_computation_time_profiling"
     = Some (b_enable_computation_time_profiling_ p')
  /\ Get_bool w "b_run_with_gt_point_cloud"
     = Some (b_run_with_gt_point_cloud_ p')
  /\ Get_string w "gt_point_cloud_filename"
     = Some (gt_point_cloud_filename_ p')
  /\ publish_diagnostics_ p'
     = match Get_bool w "publish_diagnostics" with
       | Some v => v
       | None => publish_diagnostics_ p
       end.
End Setup.
Section SetupObservers.
Context {D : Double} {R : RosTypes} {E : Externals}.

(** The mode on the server is one [SetDataIntegrationMode] handles. *)
Definition integration_mode_supported (w : World) : bool :=
  match Get_int w "data_integration/mode" with
  | Some mode => (mode =? 0) || (mode =? 3)
  | None => false
  end.

Definition is_Initialize_call (e : Event) : bool :=
  match e with Call_Initialize _ _ => true | _ => false end.
(** A subscription, or a filter put behind one. *)
Definition is_Subscribe (e : Event) : bool :=
  match e with
  | Subscribe _ _ _ | New_MessageFilter _ _ => true
  | _ => false
  end.
Definition is_Advertise (e : Event) : bool :=
  match e with Advertise _ => true | _ => false end.
Definition is_EnableOdometryIntegration (e : Event) : bool :=
  match e with Call_EnableOdometryIntegration => true | _ => false end.
Definition is_error (e : Event) : bool :=
  match e with Log ERROR _ => true | _ => false end.

(** What a successful [RegisterCallbacks] subscribes to. *)
Definition subscriptions (from_log integration : bool) (p : Parameters)
  : list Event :=
  if from_log then []
  else if integration then
    [Subscribe "ODOMETRY_TOPIC" (odom_queue_size_ p) to_OdometryCallback;
     Subscribe "LIDAR_TOPIC" (lidar_queue_size_ p) to_connected_filters;
     New_MessageFilter (bd_odom_frame_id_ p) 10;
     Subscribe "SPOT_FGA_TOPIC" 1 to_FlatGroundAssumptionCallback]
  else
    [Subscribe "LIDAR_TOPIC" (lidar_queue_size_ p) to_LidarCallback;
     Subscribe "SPOT_FGA_TOPIC" 1 to_FlatGroundAssumptionCallback].

Definition publishers : list Event :=
  [Advertise base_frame_pcld_pub_;
   Advertise lidar_callback_duration_pub_;
   Advertise scan_to_scan_duration_pub_;
   Advertise scan_to_submap_duration_pub_;
   Advertise diagnostics_pub_].
End SetupObservers.
Section InitializeObservers.
Context {D : Double} {R : RosTypes} {E : Externals}.

(** Everything [Initialize] checks, on the state it is called in. *)
Definition initialization_succeeds (s : Sys) : bool :=
  snd (filter_Initialize (world s) (filter_ (self s)))
  && snd (odometry_Initialize (world s) (odometry_ (self s)))
  && snd (localization_Initialize (world s) (localization_ (self s)))
  && snd (mapper_Initialize (world s) (mapper_ (self s)))
  && required_parameters_present (world s)
  && integration_mode_supported (world s).

(** The collaborators [Initialize] gets to, with their results. *)
Definition initialized_collaborators (s : Sys) : list Event :=
  let f := snd (filter_Initialize (world s) (filter_ (self s))) in
  let o := snd (odometry_Initialize (world s) (odometry_ (self s))) in
  let l := snd (localization_Initialize (world s) (localization_ (self s))) in
  let m := snd (mapper_Initialize (world s) (mapper_ (self s))) in
  Call_Initialize "filter_" f ::
  (if f then
     Call_Initialize "odometry_" o ::
     (if o then
        Call_Initialize "localization_" l ::
        (if l then [Call_Initialize "mapper_" m] else [])
      else [])
   else []).
End InitializeObservers.

Section Prepend.
Context {D : Double} {R : RosTypes} {E : Externals}.

(** A result with earlier actions put in front of its own. *)
Definition prepend {Ret A} (l : list Event) (r : Result Ret A)
  : Result Ret A :=
  mkResult (outcome r) (after r) (l ++ emitted r).
End Prepend.
(** ** What the callbacks publish and forward *)
Section CallbackObservers.
Context {D : Double} {R : RosTypes} {E : Externals}.

Definition is_setTransform (e : Event) : bool :=
  match e with Call_setTransform _ _ => true | _ => false end.
Definition is_lookupTransform (e : Event) : bool :=
  match e with Call_lookupTransform _ _ _ => true | _ => false end.
Definition is_SetOdometryDelta (e : Event) : bool :=
  match e with Call_SetOdometryDelta _ => true | _ => false end.
Definition is_PublishPoseNoUpdate (e : Event) : bool :=
  match e with Call_PublishPoseNoUpdate => true | _ => false end.
Definition is_Publish_Float64 (e : Event) : bool :=
  match e with Publish_Float64 _ _ => true | _ => false end.
Definition is_Publish_PointCloud (e : Event) : bool :=
  match e with Publish_PointCloud _ _ => true | _ => false end.
Definition is_Publish_DiagnosticArray (e : Event) : bool :=
  match e with Publish_DiagnosticArray _ _ => true | _ => false end.

(** What [LidarCallback] publishes after the keyframe decision (lines
    315-339): the scan in the base frame, the duration of the callback and
    the diagnostics. *)
Definition is_final_output (e : Event) : bool :=
  match e with
  | Publish_PointCloud _ _ | Publish_DiagnosticArray _ _
  | Publish_Float64 lidar_callback_duration_pub_ _ => true
  | _ => false
  end.

End CallbackObservers.
Section PipelineObservers.
Context {D : Double} {R : RosTypes} {E : Externals}.

(** The calls of the scan-to-scan block (lines 242-254). *)
Definition is_scan_to_scan_call (e : Event) : bool :=
  match e with
  | Call_Filter _ _ | Call_SetLidar _ | Call_UpdateEstimate _
  | Call_odometry_PublishAll => true
  | _ => false
  end.
(** A [Filter] call with another flag than [v]. *)
Definition filters_otherwise (v : bool) (e : Event) : bool :=
  match e with
  | Call_Filter _ flag => negb (Bool.eqb flag v)
  | _ => false
  end.
End PipelineObservers.

(** * Test doubles

    One implementation of the interfaces, small enough to run: integer
    scalars, translation-only poses, a localizer that integrates the
    increments it is given, an estimator that reports the forward step
    carried by the scan and fails on its first call and on an empty scan, a
    transform buffer that answers only for the frames its samples connect
    and only inside their time span.
    It instantiates the theorems at concrete runs. *)
Module Sim.

#[global] Instance scalars : Double := {|
  double := Z;
  d_of_Z := fun z => z;
  dadd := Z.add;
  dsub := Z.sub;
  dmul := Z.mul;
  ddiv := Z.div;
  dopp := Z.opp;
  dgt := Z.gtb;
  fabs := Z.abs;
  acos := fun w => 1 - w
|}.

Record Cloud : Type := mkCloud {
  c_seq : Z;
  c_stamp : Z;
  c_width : Z;
  c_frame : string;
  c_step : Z      (* forward motion since the previous scan *)
}.

#[global] Instance ros_types : RosTypes := {|
  Time := Z;
  Time_default := 0;
  PointCloud := Cloud;
  PointCloud_new := mkCloud 0 0 0 "" 0;
  header_seq := c_seq;
  header_stamp := c_stamp;
  width := c_width;
  header_frame_id := c_frame;
  set_header_frame_id :=
    fun f c => mkCloud (c_seq c) (c_stamp c) (c_width c) f (c_step c);
  fromPCL := fun z => z;
  DiagnosticStatus := Z;
  level := fun d => d
|}.

Inductive Value : Type :=
| VBool (b : bool)
| VInt (z : Z)
| VDouble (d : Z)
| VString (s : string).

Record Runtime : Type := mkRuntime {
  clock : Z;
  subscribers : Z;
  parameters : list (string * Value)
}.

Fixpoint lookup (name : string) (table : list (string * Value))
  : option Value :=
  match table with
  | [] => None
  | (k, v) :: rest => if String.eqb k name then Some v else lookup name rest
  end.

Definition Pose : Type := (Z * Z * Z)%type.

Definition pose_add (a b : Pose) : Pose :=
  let '(ax, ay, az) := a in
  let '(bx, by_, bz) := b in
  (ax + bx, ay + by_, az + bz).

Definition pose_sub (b a : Pose) : Pose :=
  let '(ax, ay, az) := a in
  let '(bx, by_, bz) := b in
  (bx - ax, by_ - ay, bz - az).

Record Estimator : Type := mkEstimator {
  initialized : bool;
  query : Cloud;
  prior : option tf.Transform
}.

Record Localizer : Type := mkLocalizer { integrated : Pose; time : Z }.

Record Map_ : Type := mkMap {
  inserted : list Cloud;
  published : Z;
  rolling : bool
}.

(** The newest sample not after [t], when [t] lies within the samples. *)
Definition buffer_lookup (samples : list TransformStamped) (t : Z)
  : exception + TransformStamped :=
  match List.filter (fun e => stamp (ts_header e) <=? t) samples,
        List.filter (fun e => t <=? stamp (ts_header e)) samples with
  | e :: _, _ :: _ => inr e
  | _, _ => inl ExtrapolationException
  end.

(** A sample that gives the pose of [source] in [target]. *)
Definition connects (target source : string) (e : TransformStamped) : bool :=
  String.eqb (frame_id (ts_header e)) target
  && String.eqb (child_frame_id e) source.

(** The lookup among the samples that connect the two frames; without any,
    the frames are not known to the buffer. *)
Definition frames_lookup (samples : list TransformStamped)
           (target source : string) (t : Z) : exception + TransformStamped :=
  match List.filter (connects target source) samples with
  | [] => inl LookupException
  | connected => buffer_lookup connected t
  end.

#[global] Instance externals : Externals := {|
  Transform3 := Pose;
  translation := fun p i =>
    let '(x, y, z) := p in if i =? 0 then x else if i =? 1 then y else z;
  rotation := fun _ i j => if i =? j then 1 else 0;
  Transform3_Identity := (0, 0, 0);
  PoseDelta := fun a b => pose_sub b a;
  Rot3 := Z;
  Rot3_of := fun r00 _ _ _ r11 _ _ _ r22 => r00 + r11 + r22;
  toQuaternion_w := fun trace => trace - 2;
  norm := fun v => Z.sqrt (v0 v * v0 v + v1 v * v1 v + v2 v * v2 v);
  World := Runtime;
  now := fun w =>
    (clock w, mkRuntime (clock w + 1) (subscribers w) (parameters w));
  duration_data := fun finish start => finish - start;
  getNumSubscribers := fun w _ => subscribers w;
  getNamespace := fun _ => "/spot";
  names_append := fun a b => (a ++ "/" ++ b)%string;
  Get_bool := fun w name =>
    match lookup name (parameters w) with Some (VBool b) => Some b | _ => None end;
  Get_int := fun w name =>
    match lookup name (parameters w) with Some (VInt z) => Some z | _ => None end;
  Get_double := fun w name =>
    match lookup name (parameters w) with Some (VDouble d) => Some d | _ => None end;
  Get_string := fun w name =>
    match lookup name (parameters w) with Some (VString s) => Some s | _ => None end;
  read_pcd := fun _ _ => mkCloud 0 0 0 "" 0;
  Buffer := list TransformStamped;
  setTransform := fun b t _ _ => t :: b;
  lookupTransform := frames_lookup;
  PointCloudFilter := unit;
  filter_Initialize := fun _ f => (f, true);
  Filter := fun f points _ => (f, points);
  PointCloudOdometry := Estimator;
  odometry_Initialize := fun _ o => (o, true);
  EnableOdometryIntegration := fun o => o;
  SetOdometryDelta := fun o d => mkEstimator (initialized o) (query o) (Some d);
  SetLidar := fun o points => mkEstimator (initialized o) points (prior o);
  UpdateEstimate := fun o =>
    if initialized o then (o, 0 <? c_width (query o))
    else (mkEstimator true (query o) (prior o), false);
  odometry_GetDiagnostics := fun _ => 0;
  odometry_PublishAll := fun o => o;
  GetIncrementalEstimate := fun o => (c_step (query o), 0, 0);
  odometry_SetFlatGroundAssumptionValue := fun o _ => o;
  PointCloudLocalization := Localizer;
  localization_Initialize := fun _ l => (l, true);
  MotionUpdate := fun l increment =>
    mkLocalizer (pose_add (integrated l) increment) (time l);
  TransformPointsToFixedFrame := fun l points => (l, points);
  TransformPointsToSensorFrame := fun l points => (l, points);
  MeasurementUpdate := fun l query_ _ => (l, query_);
  localization_GetDiagnostics := fun _ => 0;
  localization_PublishAll := fun l => l;
  PublishPoseNoUpdate := fun l => l;
  UpdateTimestamp := fun l t => mkLocalizer (integrated l) t;
  GetIntegratedEstimate := integrated;
  localization_SetFlatGroundAssumptionValue := fun l _ => l;
  PointCloudMapper := Map_;
  mapper_Initialize := fun _ m => (m, true);
  InsertPoints := fun m points =>
    (mkMap (points :: inserted m) (published m) (rolling m), points);
  ApproxNearestNeighbors := fun m points => (m, points);
  PublishMap := fun m => mkMap (inserted m) (published m + 1) (rolling m);
  SetRollingMapBufferOn := fun m => mkMap (inserted m) (published m) true
|}.

(** The parameter server: keyframe thresholds 500 and 200, a map
    publication every 3 keyframes. *)
Definition parameter_table (mode : Z) (ground_truth publish_map : bool)
  : list (string * Value) :=
  [("b_verbose", VBool false);
   ("translation_threshold_kf", VDouble 500);
   ("rotation_threshold_kf", VDouble 200);
   ("number_of_points_open_space", VInt 1000);
   ("map_publishment/meters", VInt 3);
   ("map_publishment/b_publish_map", VBool publish_map);
   ("frame_id/fixed", VString "world");
   ("frame_id/base", VString "base_link");
   ("frame_id/bd_odometry", VString "odom");
   ("queues/lidar_queue_size", VInt 10);
   ("queues/odom_queue_size", VInt 100);
   ("buffers/odometry_buffer_size_limit", VInt 1000);
   ("data_integration/mode", VInt mode);
   ("data_integration/max_number_of_calls", VInt 5);
   ("b_enable_computation_time_profiling", VBool false);
   ("b_run_with_gt_point_cloud", VBool ground_truth);
   ("gt_point_cloud_filename", VString "gt.pcd");
   ("b_run_rolling_map_buffer", VBool true)].

(** Storage before construction. *)
Definition raw : SpotFrontend :=
  mkSpotFrontend
    (mkParameters false 0 0 0 0 false "" "" "" 0 0 0 0 0 false false ""
                  false false)
    false 0 (0, 0, 0) false 0 (fun _ => mkCloud 0 0 0 "" 0)
    false 0 false false "" tf.Transform_getIdentity ""
    tt (mkEstimator false (mkCloud 0 0 0 "" 0) None)
    (mkLocalizer (0, 0, 0) 0) (mkMap [] 0 false) [].

(** Constructed and initialised. *)
Definition started (mode : Z) (ground_truth publish_map : bool) : Sys :=
  after (call (Ret:=unit) (Initialize false)
              (mkSys (SpotFrontend_new raw)
                     (mkRuntime 0 0 (parameter_table mode ground_truth
                                                     publish_map)))).

(** Scan number [n], captured at time [100 n], after a forward step. *)
Definition scan_ (n step : Z) : Cloud := mkCloud n (100 * n) 64 "lidar" step.

(** The same, with the points given in the base frame. *)
Definition base_scan (n step : Z) : Cloud :=
  mkCloud n (100 * n) 64 "base_link" step.

(** A scan without points. *)
Definition empty_scan (n : Z) : Cloud := mkCloud n (100 * n) 0 "lidar" 0.

(** An odometry sample at time [t] with the robot at [x], not rotated. *)
Definition odometry_at (t x : Z) : Odometry :=
  mkOdometry (mkHeader 0 t "odom") "base_link"
             (tf.mkVector3 x 0 0) (tf.mkQuaternion 0 0 0 1).

(** What [OdometryCallback] stores for that sample. *)
Definition sample_at (t x : Z) : TransformStamped :=
  mkTransformStamped (mkHeader 0 t "odom") "base_link"
                     (mkTransformMsg (tf.mkVector3 x 0 0)
                                     (tf.mkQuaternion 0 0 0 1)).

(** A quarter turn about the vertical axis, away from the origin. *)
Definition quarter_turn : tf.Transform :=
  tf.mkTransform
    (tf.mkMatrix3x3 (tf.mkVector3 0 (-1) 0)
                    (tf.mkVector3 1 0 0)
                    (tf.mkVector3 0 0 1))
    (tf.mkVector3 1 2 3).
End Sim.

(** * IEEE binary64

    The arithmetic the compiled code runs in: [double] as Rocq's primitive
    binary64 floats, round to nearest even. *)
Module IEEE.
Section Binary64.
(** [acos] comes from libm, not from the arithmetic unit. *)
Variable libm_acos : float -> float.

(** Integer literals the code writes as doubles. *)
Definition of_Z (z : Z) : float :=
  match z with
  | Z0 => PrimFloat.zero
  | Zpos _ => PrimFloat.of_uint63 (Uint63.of_Z z)
  | Zneg p => PrimFloat.opp (PrimFloat.of_uint63 (Uint63.of_Z (Zpos p)))
  end.

Definition binary64 : Double := {|
  double := float;
  d_of_Z := of_Z;
  dadd := PrimFloat.add;
  dsub := PrimFloat.sub;
  dmul := PrimFloat.mul;
  ddiv := PrimFloat.div;
  dopp := PrimFloat.opp;
  dgt := fun a b => PrimFloat.ltb b a;
  fabs := PrimFloat.abs;
  acos := libm_acos
|}.

(** Neither infinite nor NaN. *)
Definition finite (x : float) : bool :=
  match Prim2SF x with
  | S754_zero _ | S754_finite _ _ _ => true
  | _ => false
  end.

(** Plus or minus zero. *)
Definition is_zero (x : float) : bool :=
  match Prim2SF x with
  | S754_zero _ => true
  | _ => false
  end.

Definition finite_vector (v : @tf.Vector3 binary64) : bool :=
  finite (tf.x v) && finite (tf.y v) && finite (tf.z v).

Definition finite_pose (p : @tf.Transform binary64) : bool :=
  finite_vector (tf.row0 (tf.m_basis p))
  && finite_vector (tf.row1 (tf.m_basis p))
  && finite_vector (tf.row2 (tf.m_basis p))
  && finite_vector (tf.m_origin p).

(** Equality of doubles ([operator==]: zeros of either sign are equal),
    component by component. *)
Definition vector_eqb (a b : @tf.Vector3 binary64) : bool :=
  PrimFloat.eqb (tf.x a) (tf.x b) && PrimFloat.eqb (tf.y a) (tf.y b)
  && PrimFloat.eqb (tf.z a) (tf.z b).

(** A vector whose components all equal zero. *)
Definition null_vector (v : @tf.Vector3 binary64) : bool :=
  PrimFloat.eqb (tf.x v) PrimFloat.zero
  && PrimFloat.eqb (tf.y v) PrimFloat.zero
  && PrimFloat.eqb (tf.z v) PrimFloat.zero.

Definition transform_eqb (a b : @tf.Transform binary64) : bool :=
  vector_eqb (tf.row0 (tf.m_basis a)) (tf.row0 (tf.m_basis b))
  && vector_eqb (tf.row1 (tf.m_basis a)) (tf.row1 (tf.m_basis b))
  && vector_eqb (tf.row2 (tf.m_basis a)) (tf.row2 (tf.m_basis b))
  && vector_eqb (tf.m_origin a) (tf.m_origin b).

(** Two poses with the rotation [setRotation] gives for the quaternion
    (0.36, 0.48, 0, 0.8), as [LidarCallback] builds them from a lookup.
    The squared length of the quaternion, computed in binary64, is 1. *)
Definition tilt : @tf.Quaternion binary64 :=
  @tf.mkQuaternion binary64
    0x1.70a3d70a3d70ap-2%float 0x1.eb851eb851eb8p-2%float
    0%float 0x1.999999999999ap-1%float.

Definition length2 (q : @tf.Quaternion binary64) : float :=
  (tf.qx q * tf.qx q + tf.qy q * tf.qy q + tf.qz q * tf.qz q
   + tf.qw q * tf.qw q)%float.

Definition tilted_here : @tf.Transform binary64 :=
  @tf.mkTransform binary64 (@tf.setRotation binary64 tilt)
    (@tf.mkVector3 binary64 1.5%float (-2.25)%float 0.5%float).

Definition tilted_there : @tf.Transform binary64 :=
  @tf.mkTransform binary64 (@tf.setRotation binary64 tilt)
    (@tf.mkVector3 binary64 0.75%float 3%float 0.125%float).
End Binary64.
End IEEE.

(** * An object without collaborators *)
Module Bare.
(** Collaborators that do nothing, to hold an object in any arithmetic. *)
Definition externals (D : Double) : @Externals D Sim.ros_types := {|
  Transform3 := unit;
  translation := fun _ _ => d_of_Z 0;
  rotation := fun _ _ _ => d_of_Z 0;
  Transform3_Identity := tt;
  PoseDelta := fun _ _ => tt;
  Rot3 := unit;
  Rot3_of := fun _ _ _ _ _ _ _ _ _ => tt;
  toQuaternion_w := fun _ => d_of_Z 1;
  norm := fun _ => d_of_Z 0;
  World := unit;
  now := fun w => (0, w);
  duration_data := fun _ _ => d_of_Z 0;
  getNumSubscribers := fun _ _ => 0;
  getNamespace := fun _ => EmptyString;
  names_append := fun a b => String.append a b;
  Get_bool := fun _ _ => None;
  Get_int := fun _ _ => None;
  Get_double := fun _ _ => None;
  Get_string := fun _ _ => None;
  read_pcd := fun _ _ => PointCloud_new;
  Buffer := unit;
  setTransform := fun b _ _ _ => b;
  lookupTransform := fun _ _ _ _ => inl LookupException;
  PointCloudFilter := unit;
  filter_Initialize := fun _ f => (f, true);
  Filter := fun f points _ => (f, points);
  PointCloudOdometry := unit;
  odometry_Initialize := fun _ o => (o, true);
  EnableOdometryIntegration := fun o => o;
  SetOdometryDelta := fun o _ => o;
  SetLidar := fun o _ => o;
  UpdateEstimate := fun o => (o, true);
  odometry_GetDiagnostics := fun _ => 0;
  odometry_PublishAll := fun o => o;
  GetIncrementalEstimate := fun _ => tt;
  odometry_SetFlatGroundAssumptionValue := fun o _ => o;
  PointCloudLocalization := unit;
  localization_Initialize := fun _ l => (l, true);
  MotionUpdate := fun l _ => l;
  TransformPointsToFixedFrame := fun l points => (l, points);
  TransformPointsToSensorFrame := fun l points => (l, points);
  MeasurementUpdate := fun l q _ => (l, q);
  localization_GetDiagnostics := fun _ => 0;
  localization_PublishAll := fun l => l;
  PublishPoseNoUpdate := fun l => l;
  UpdateTimestamp := fun l _ => l;
  GetIntegratedEstimate := fun _ => tt;
  localization_SetFlatGroundAssumptionValue := fun l _ => l;
  PointCloudMapper := unit;
  mapper_Initialize := fun _ m => (m, true);
  InsertPoints := fun m points => (m, points);
  ApproxNearestNeighbors := fun m points => (m, points);
  PublishMap := fun m => m;
  SetRollingMapBufferOn := fun m => m
|}.

(** An object whose previous odometry pose is [previous]. *)
Definition holding {D : Double} (previous : tf.Transform)
  : @SpotFrontend D Sim.ros_types (externals D) :=
  @mkSpotFrontend D Sim.ros_types (externals D)
    (@mkParameters D false (d_of_Z 0) (d_of_Z 0) 0 0 false EmptyString
                   EmptyString EmptyString 0 0 0 0 0 false false EmptyString
                   false false)
    false 0 tt false 0 (fun _ => PointCloud_new) false 0 false false
    EmptyString previous EmptyString tt tt tt tt tt.
End Bare.

(** * Properties *)

(** ** Rules for the statement forms *)
Section RuleLemmas.
Context {D : Double} {R : RosTypes} {E : Externals}.

Lemma bind_Normal {Ret A B} (m : M Ret A) (k : A -> M Ret B) s a :
  outcome (m s) = Normal a ->
  bind m k s =
  mkResult (outcome (k a (after (m s)))) (after (k a (after (m s))))
           (emitted (m s) ++ emitted (k a (after (m s)))).
Proof.
  unfold bind. destruct (m s) as [c s1 l1]. simpl. intros ->.
  destruct (k a s1). reflexivity.
Qed.

Lemma bind_Returned {Ret A B} (m : M Ret A) (k : A -> M Ret B) s v :
  outcome (m s) = Returned v ->
  bind m k s = mkResult (Returned v) (after (m s)) (emitted (m s)).
Proof.
  unfold bind. destruct (m s) as [c s1 l1]. simpl. intros ->. reflexivity.
Qed.

Lemma bind_Thrown {Ret A B} (m : M Ret A) (k : A -> M Ret B) s e :
  outcome (m s) = Thrown e ->
  bind m k s = mkResult (Thrown e) (after (m s)) (emitted (m s)).
Proof.
  unfold bind. destruct (m s) as [c s1 l1]. simpl. intros ->. reflexivity.
Qed.

(** A statement whose result is known, followed by another. *)
Lemma bind_run {Ret A B} (m : M Ret A) (k : A -> M Ret B) s a s1 l1 :
  m s = mkResult (Normal a) s1 l1 ->
  bind m k s =
  mkResult (outcome (k a s1)) (after (k a s1)) (l1 ++ emitted (k a s1)).
Proof. intros H. unfold bind. rewrite H. destruct (k a s1). reflexivity. Qed.

Lemma filter_app_nil (p : Event -> bool) (l1 l2 : list Event) :
  List.filter p l1 = [] -> List.filter p l2 = [] ->
  List.filter p (l1 ++ l2) = [].
Proof. intros H1 H2. rewrite List.filter_app, H1, H2. reflexivity. Qed.

Lemma count_app (p : Event -> bool) (l1 l2 : list Event) :
  count p (l1 ++ l2) = (count p l1 + count p l2)%nat.
Proof. unfold count. rewrite List.filter_app. apply List.length_app. Qed.

Lemma count_silent (p : Event -> bool) (l : list Event) :
  List.filter p l = [] -> count p l = O.
Proof. unfold count. intros ->. reflexivity. Qed.

Lemma existsb_silent (p : Event -> bool) (l : list Event) :
  List.filter p l = [] -> existsb p l = false.
Proof.
  induction l as [|e l IH]; simpl; [reflexivity|].
  destruct (p e); [discriminate|]. exact IH.
Qed.

Section Keeps.
Context {Ret : Type} (I : SpotFrontend -> Prop) (p : Event -> bool).

Lemma keeps_ret {A} (a : A) : keeps I p (ret (Ret:=Ret) a).
Proof. intros s H. split; [exact H|reflexivity]. Qed.

Lemma keeps_return (v : Ret) : keeps I p (return_ v).
Proof. intros s H. split; [exact H|reflexivity]. Qed.

Lemma keeps_this : keeps I p (this (Ret:=Ret)).
Proof. intros s H. split; [exact H|reflexivity]. Qed.

Lemma keeps_env : keeps I p (env (Ret:=Ret)).
Proof. intros s H. split; [exact H|reflexivity]. Qed.

Lemma keeps_ros_now : keeps I p (ros_now (Ret:=Ret)).
Proof. intros s H. split; [exact H|reflexivity]. Qed.

Lemma keeps_assign (f : SpotFrontend -> SpotFrontend) :
  (forall o, I o -> I (f o)) -> keeps I p (assign (Ret:=Ret) f).
Proof. intros Hf s H. split; [apply Hf; exact H|reflexivity]. Qed.

Lemma keeps_emit (e : Event) : p e = false -> keeps I p (emit (Ret:=Ret) e).
Proof. intros He s H. split; [exact H|]. simpl. rewrite He. reflexivity. Qed.

Lemma keeps_lookupTransform target source t :
  p (Call_lookupTransform target source t) = false ->
  keeps I p (buffer_lookupTransform (Ret:=Ret) target source t).
Proof.
  intros He s H. unfold buffer_lookupTransform.
  destruct (lookupTransform _ _ _ _); simpl; rewrite He; auto.
Qed.

Lemma keeps_bind {A B} (m : M Ret A) (k : A -> M Ret B) :
  keeps I p m -> (forall a, keeps I p (k a)) -> keeps I p (bind m k).
Proof.
  intros Hm Hk s H. destruct (Hm s H) as [H1 H2]. unfold bind.
  destruct (m s) as [[a|v|e] s1 l1]; simpl in *; auto.
  destruct (Hk a s1 H1) as [H3 H4].
  destruct (k a s1) as [c s2 l2]; simpl in *. split; [exact H3|].
  apply filter_app_nil; assumption.
Qed.

(** Statements that follow a [return] are not run. *)
Lemma keeps_after_return {B} (v : Ret) (k : unit -> M Ret B) :
  keeps I p (bind (return_ v) k).
Proof. intros s H. split; [exact H|reflexivity]. Qed.

Lemma keeps_when (c : bool) (body : M Ret unit) :
  keeps I p body -> keeps I p (when c body).
Proof. intros H. destruct c; simpl; [exact H|apply keeps_ret]. Qed.

Lemma keeps_call {T} (body : M T unit) :
  keeps I p body -> keeps I p (call (Ret:=Ret) body).
Proof.
  intros Hb s H. destruct (Hb s H) as [H1 H2]. unfold call.
  destruct (body s) as [[a|v|e] s1 l1]; simpl in *; auto.
Qed.

Lemma keeps_call_void (body : M unit unit) :
  keeps I p body -> keeps I p (call_void (Ret:=Ret) body).
Proof.
  intros Hb s H. destruct (Hb s H) as [H1 H2]. unfold call_void.
  destruct (body s) as [[a|v|e] s1 l1]; simpl in *; auto.
Qed.

Lemma keeps_weaken {A} (m : M Ret A) :
  keeps I p m -> keeps_if_normal I p m.
Proof. intros H s a HI _. apply H. exact HI. Qed.

Lemma never_normal_keeps {A} (m : M Ret A) :
  never_normal m -> keeps_if_normal I p m.
Proof. intros H s a _ Ha. destruct (H s a Ha). Qed.

Lemma keeps_if_normal_bind {A B} (m : M Ret A) (k : A -> M Ret B) :
  keeps_if_normal I p m -> (forall a, keeps_if_normal I p (k a)) ->
  keeps_if_normal I p (bind m k).
Proof.
  intros Hm Hk s b H. specialize (Hm s). unfold bind.
  destruct (m s) as [[a|v|e] s1 l1]; simpl in *; try discriminate.
  destruct (Hm a H eq_refl) as [H1 H2]. specialize (Hk a s1 b H1).
  destruct (k a s1) as [c s2 l2]; simpl in *. intros Hb.
  destruct (Hk Hb) as [H3 H4]. split; [exact H3|].
  apply filter_app_nil; assumption.
Qed.

Lemma keeps_if_normal_when (c : bool) (body : M Ret unit) :
  keeps_if_normal I p body -> keeps_if_normal I p (when c body).
Proof.
  intros H. destruct c; simpl; [exact H|].
  apply keeps_weaken, keeps_ret.
Qed.
End Keeps.

Lemma never_normal_return {Ret} (v : Ret) : never_normal (return_ v).
Proof. intros s a. discriminate. Qed.

Lemma never_normal_bind {Ret A B} (m : M Ret A) (k : A -> M Ret B) :
  (forall a, never_normal (k a)) -> never_normal (bind m k).
Proof.
  intros Hk s b. unfold bind.
  destruct (m s) as [[a|v|e] s1 l1]; simpl; try discriminate.
  specialize (Hk a s1 b). destruct (k a s1); simpl in *. exact Hk.
Qed.

Lemma always_normal_ret {Ret A} (a : A) : always_normal (ret (Ret:=Ret) a).
Proof. intros s. exists a. reflexivity. Qed.

Lemma always_normal_bind {Ret A B} (m : M Ret A) (k : A -> M Ret B) :
  always_normal m -> (forall a, always_normal (k a)) ->
  always_normal (bind m k).
Proof.
  intros Hm Hk s. destruct (Hm s) as [a Ha].
  rewrite (bind_Normal _ _ _ _ Ha). simpl. apply Hk.
Qed.

Lemma always_normal_when {Ret} (c : bool) (body : M Ret unit) :
  always_normal body -> always_normal (when c body).
Proof. intros H. destruct c; simpl; [exact H|apply always_normal_ret]. Qed.

Lemma silent_unless_normal_always {Ret A} p (m : M Ret A) :
  always_normal m -> silent_unless_normal p m.
Proof. intros H s. left. apply H. Qed.

Lemma silent_unless_normal_bind {Ret A B} p (m : M Ret A) (k : A -> M Ret B) :
  keeps (fun _ => True) p m -> (forall a, silent_unless_normal p (k a)) ->
  silent_unless_normal p (bind m k).
Proof.
  intros Hm Hk s. destruct (Hm s Logic.I) as [_ Hs]. unfold bind.
  destruct (m s) as [[a|v|e] s1 l1]; simpl in *; auto.
  specialize (Hk a s1). destruct (k a s1) as [c s2 l2]; simpl in *.
  destruct Hk as [[b Hb]|Hq].
  - left. exists b. exact Hb.
  - right. apply filter_app_nil; assumption.
Qed.
End RuleLemmas.

(** Syntax-directed application of the rules. *)
Ltac head_of t :=
  lazymatch t with
  | ?f _ => head_of f
  | _ => t
  end.

Ltac keeps_step :=
  lazymatch goal with
  | |- keeps _ _ (bind (return_ _) _) => apply keeps_after_return
  | |- keeps _ _ (bind _ _) => apply keeps_bind; [|intro]
  | |- keeps _ _ (ret _) => apply keeps_ret
  | |- keeps _ _ (return_ _) => apply keeps_return
  | |- keeps _ _ this => apply keeps_this
  | |- keeps _ _ env => apply keeps_env
  | |- keeps _ _ ros_now => apply keeps_ros_now
  | |- keeps _ _ (assign _) => apply keeps_assign; intros ? HI; exact HI
  | |- keeps _ _ (emit _) =>
      apply keeps_emit; first [reflexivity | solve [auto]]
  | |- keeps _ _ (log _ _) =>
      apply keeps_emit; first [reflexivity | solve [auto]]
  | |- keeps _ _ (when _ _) => apply keeps_when
  | |- keeps _ _ (call _) => apply keeps_call
  | |- keeps _ _ (call_void _) => apply keeps_call_void
  | |- keeps _ _ (buffer_lookupTransform _ _ _) =>
      apply keeps_lookupTransform; reflexivity
  | |- keeps _ _ (if ?c then _ else _) => destruct c
  | |- keeps _ _ (match ?x with _ => _ end) => destruct x
  | |- keeps _ _ (let _ := _ in _) => cbv zeta
  | |- keeps _ _ ?m => let h := head_of m in unfold h
  end.

Ltac keeps_auto := repeat keeps_step.

Ltac normal_step :=
  lazymatch goal with
  | |- always_normal (bind _ _) => apply always_normal_bind; [|intro]
  | |- always_normal (ret _) => apply always_normal_ret
  | |- always_normal (when _ _) => apply always_normal_when
  | |- always_normal (if ?c then _ else _) => destruct c
  | |- always_normal (let _ := _ in _) => cbv zeta
  | |- always_normal this => intros ?; eexists; reflexivity
  | |- always_normal env => intros ?; eexists; reflexivity
  | |- always_normal ros_now => intros ?; eexists; reflexivity
  | |- always_normal (assign _) => intros ?; eexists; reflexivity
  | |- always_normal (emit _) => intros ?; eexists; reflexivity
  | |- always_normal (log _ _) => intros ?; eexists; reflexivity
  | |- always_normal ?m => let h := head_of m in unfold h
  end.

Ltac normal_auto := repeat normal_step.

(** Unfolding the statement forms and the collaborator calls, to run a
    block on a symbolic state. *)
Ltac run_block :=
  unfold publish_duration, profiling_now, filter_Filter,
    odometry_SetOdometryDelta, odometry_SetLidar, odometry_UpdateEstimate,
    odometry_PublishAll_, localization_MotionUpdate,
    localization_TransformPointsToFixedFrame,
    localization_TransformPointsToSensorFrame, localization_MeasurementUpdate,
    localization_PublishAll_, localization_PublishPoseNoUpdate,
    localization_UpdateTimestamp, mapper_InsertPoints,
    mapper_ApproxNearestNeighbors, mapper_PublishMap_,
    buffer_lookupTransform, ros_now, log, bind, this, env, when, assign,
    emit, ret, return_;
  simpl.

(** ** The blocks of [LidarCallback], one by one *)
Section Blocks.
Context {D : Double} {R : RosTypes} {E : Externals}.

Lemma profiling_now_run s :
  exists t w, profiling_now s = mkResult (Normal t) (mkSys (self s) w) [].
Proof.
  run_block.
  destruct (b_enable_computation_time_profiling_ (params (self s))); simpl.
  - eexists. eexists. reflexivity.
  - exists Time_default, (world s). destruct s. reflexivity.
Qed.

Lemma publish_duration_run pub start s :
  exists w l,
    publish_duration pub start s = mkResult (Normal tt) (mkSys (self s) w) l
    /\ (l = [] \/ exists x, l = [Publish_Float64 pub x]).
Proof.
  run_block.
  destruct (b_enable_computation_time_profiling_ (params (self s))); simpl.
  - eexists. eexists. split; [reflexivity|]. right. eexists. reflexivity.
  - exists (world s), []. destruct s. split; [reflexivity|]. left. reflexivity.
Qed.

(** What the guard leaves in the object: the current sequence number. *)
Lemma sequence_guard_run msg s :
  sequence_guard msg s =
  mkResult (Normal tt)
    (mkSys (set_b_pcld_received_ true
              (set_pcld_seq_prev_ (header_seq msg) (self s))) (world s))
    (if b_pcld_received_ (self s)
        && negb (header_seq msg =? uint32 (pcld_seq_prev_ (self s) + 1))
     then [Log WARN "Lidar scan dropped"] else []).
Proof.
  unfold sequence_guard. run_block.
  destruct (b_pcld_received_ (self s)) eqn:Hr; simpl.
  - destruct (header_seq msg =? uint32 (pcld_seq_prev_ (self s) + 1)); simpl;
      unfold set_b_pcld_received_, set_pcld_seq_prev_; simpl;
      rewrite Hr; reflexivity.
  - reflexivity.
Qed.

Lemma classify_density_run msg s :
  classify_density msg s =
  mkResult (Normal tt)
    (mkSys (set_b_is_open_space_
              (width msg >? uint32 (number_of_points_open_space_ (params (self s))))
              (self s)) (world s))
    [].
Proof.
  unfold classify_density. run_block.
  destruct (width msg >? _); reflexivity.
Qed.

Lemma odometry_integration_off stamp s :
  b_use_odometry_integration_ (self s) = false ->
  odometry_integration stamp s = mkResult (Normal tt) s [].
Proof.
  intros H. unfold odometry_integration. run_block. rewrite H. reflexivity.
Qed.

Lemma odometry_integration_throws stamp s e :
  b_use_odometry_integration_ (self s) = true ->
  lookupTransform (odometry_buffer_ (self s))
                  (bd_odom_frame_id_ (params (self s)))
                  (base_frame_id_ (params (self s))) stamp = inl e ->
  odometry_integration stamp s =
  mkResult (Thrown e) s
    [Call_lookupTransform (bd_odom_frame_id_ (params (self s)))
                          (base_frame_id_ (params (self s))) stamp].
Proof.
  intros H1 H2. unfold odometry_integration. run_block.
  rewrite H1. simpl. rewrite H2. reflexivity.
Qed.

Lemma odometry_integration_first stamp s t :
  b_use_odometry_integration_ (self s) = true ->
  lookupTransform (odometry_buffer_ (self s))
                  (bd_odom_frame_id_ (params (self s)))
                  (base_frame_id_ (params (self s))) stamp = inr t ->
  b_odometry_has_been_received_ (self s) = false ->
  odometry_integration stamp s =
  mkResult (Returned tt)
    (mkSys (set_b_odometry_has_been_received_ true
              (set_odometry_pose_previous_
                 (tf.mkTransform (tf.setRotation (rotation_msg (transform t)))
                                 (translation_msg (transform t)))
                 (self s)))
           (world s))
    [Call_lookupTransform (bd_odom_frame_id_ (params (self s)))
                          (base_frame_id_ (params (self s))) stamp;
     Log INFO "Receiving odometry for the first time"].
Proof.
  intros H1 H2 H3. unfold odometry_integration. run_block.
  rewrite H1. simpl. rewrite H2. simpl. rewrite H3. reflexivity.
Qed.

Lemma odometry_integration_next stamp s t :
  b_use_odometry_integration_ (self s) = true ->
  lookupTransform (odometry_buffer_ (self s))
                  (bd_odom_frame_id_ (params (self s)))
                  (base_frame_id_ (params (self s))) stamp = inr t ->
  b_odometry_has_been_received_ (self s) = true ->
  let pose := tf.mkTransform (tf.setRotation (rotation_msg (transform t)))
                             (translation_msg (transform t)) in
  odometry_integration stamp s =
  mkResult (Normal tt)
    (mkSys (set_odometry_pose_previous_ pose
              (set_odometry_
                 (SetOdometryDelta (odometry_ (self s))
                                   (GetOdometryDelta (self s) pose))
                 (self s)))
           (world s))
    [Call_lookupTransform (bd_odom_frame_id_ (params (self s)))
                          (base_frame_id_ (params (self s))) stamp;
     Call_SetOdometryDelta (GetOdometryDelta (self s) pose)].
Proof.
  intros H1 H2 H3 pose. unfold odometry_integration. run_block.
  rewrite H1. simpl. rewrite H2. simpl. rewrite H3. reflexivity.
Qed.

(** The estimator block: what it calls, in order, and what it leaves. *)
Lemma scan_to_scan_run msg s :
  let o := self s in
  let filtered := Filter (filter_ o) msg (b_is_open_space_ o) in
  let estimate := UpdateEstimate (SetLidar (odometry_ o) (snd filtered)) in
  let d := odometry_GetDiagnostics (fst estimate) in
  let o1 := set_odometry_ (fst estimate)
              (set_cloud msg_filtered_ (snd filtered)
                 (set_filter_ (fst filtered) o)) in
  let o2 := if snd estimate then o1
            else set_b_add_first_scan_to_key_ true o1 in
  let o3 := if level d =? 0
            then set_odometry_ (odometry_PublishAll (fst estimate)) o2
            else o2 in
  exists w l,
    scan_to_scan msg s =
    mkResult (Normal d) (mkSys o3 w)
      ([Call_Filter msg (b_is_open_space_ o); Call_SetLidar (snd filtered);
        Call_UpdateEstimate (snd estimate)]
       ++ (if level d =? 0 then [Call_odometry_PublishAll] else [])
       ++ l)
    /\ (l = [] \/ exists x, l = [Publish_Float64 scan_to_scan_duration_pub_ x]).
Proof.
  intros o filtered estimate d o1 o2 o3.
  subst o3 o2 o1 d estimate filtered o.
  destruct (b_enable_computation_time_profiling_ (params (self s))) eqn:Hp;
    destruct (snd (UpdateEstimate _)) eqn:Hok;
    destruct (level _ =? 0) eqn:Hl;
    unfold scan_to_scan; run_block;
    repeat (rewrite ?Hp, ?Hok, ?Hl; simpl);
    eexists; eexists; (split; [reflexivity|]);
    solve [left; reflexivity | right; eexists; reflexivity].
Qed.

(** The bootstrap block, when its condition holds. *)
Lemma bootstrap_taken msg stamp s :
  b_add_first_scan_to_key_ (self s) = true ->
  b_run_with_gt_point_cloud_ (params (self s)) = false ->
  let fixed := TransformPointsToFixedFrame (localization_ (self s)) msg in
  let inserted := InsertPoints (mapper_ (self s)) (snd fixed) in
  let localization' :=
      PublishPoseNoUpdate (UpdateTimestamp (fst fixed) stamp) in
  bootstrap msg stamp s =
  mkResult (Returned tt)
    (mkSys (set_last_keyframe_pose_ (GetIntegratedEstimate localization')
              (set_b_add_first_scan_to_key_ false
                 (set_localization_ localization'
                    (set_cloud mapper_unused_fixed_ (snd inserted)
                       (set_mapper_ (fst inserted)
                          (set_cloud msg_transformed_ (snd fixed)
                             (self s)))))))
           (world s))
    [Call_TransformPointsToFixedFrame msg;
     Call_InsertPoints (snd fixed);
     Call_UpdateTimestamp stamp;
     Call_PublishPoseNoUpdate].
Proof.
  intros H1 H2. unfold bootstrap. run_block. rewrite H1, H2. reflexivity.
Qed.

Lemma bootstrap_skipped msg stamp s :
  b_add_first_scan_to_key_ (self s)
  && negb (b_run_with_gt_point_cloud_ (params (self s))) = false ->
  bootstrap msg stamp s = mkResult (Normal tt) s [].
Proof.
  intros H. unfold bootstrap. run_block. rewrite H. reflexivity.
Qed.

(** The scan-to-submap block: motion update, then measurement update. *)
Lemma scan_to_submap_run msg s :
  let o := self s in
  let moved := MotionUpdate (localization_ o)
                            (GetIncrementalEstimate (odometry_ o)) in
  let fixed := TransformPointsToFixedFrame moved msg in
  let near := ApproxNearestNeighbors (mapper_ o) (snd fixed) in
  let sensor := TransformPointsToSensorFrame (fst fixed) (snd near) in
  let measured :=
      MeasurementUpdate (fst sensor) (clouds o msg_filtered_) (snd sensor) in
  let d := localization_GetDiagnostics (fst measured) in
  exists s' l,
    scan_to_submap msg s =
    mkResult (Normal d) s'
      ([Call_MotionUpdate (GetIncrementalEstimate (odometry_ o));
        Call_TransformPointsToFixedFrame msg;
        Call_ApproxNearestNeighbors (snd fixed);
        Call_TransformPointsToSensorFrame (snd near);
        Call_MeasurementUpdate (clouds o msg_filtered_) (snd sensor)]
       ++ (if level d =? 0 then [Call_localization_PublishAll] else [])
       ++ l)
    /\ (l = [] \/ exists x, l = [Publish_Float64 scan_to_submap_duration_pub_ x]).
Proof.
  intros o moved fixed near sensor measured d.
  subst d measured sensor near fixed moved o.
  destruct (b_enable_computation_time_profiling_ (params (self s))) eqn:Hp;
    destruct (level _ =? 0) eqn:Hl;
    unfold scan_to_submap; run_block;
    repeat (rewrite ?Hp, ?Hl; simpl);
    eexists; eexists; (split; [reflexivity|]);
    solve [left; reflexivity | right; eexists; reflexivity].
Qed.

(** The keyframe branch: one map insertion of the raw scan, the counter
    step, and the new keyframe pose. *)
Lemma insert_keyframe_run msg pose s :
  let o := self s in
  let fixed :=
      TransformPointsToFixedFrame
        (MotionUpdate (localization_ o) Transform3_Identity) msg in
  let c := int32 (counter_ o + 1) in
  let publish := b_publish_map_ (params o)
                 && (c =? map_publishment_meters_ (params o)) in
  exists o',
    insert_keyframe msg pose s =
    mkResult (Normal tt) (mkSys o' (world s))
      ((if b_verbose_ (params o)
        then [Log INFO "Adding to map with translation "] else [])
       ++ [Call_MotionUpdate Transform3_Identity;
           Call_TransformPointsToFixedFrame msg;
           Call_InsertPoints (snd fixed)]
       ++ (if publish then [Call_PublishMap] else []))
    /\ counter_ o' = (if b_publish_map_ (params o)
                      then if c =? map_publishment_meters_ (params o)
                           then 0 else c
                      else counter_ o)
    /\ last_keyframe_pose_ o' = pose
    /\ params o' = params o
    /\ b_add_first_scan_to_key_ o' = b_add_first_scan_to_key_ o.
Proof.
  intros o fixed c publish. subst publish c fixed o.
  destruct (b_verbose_ (params (self s))) eqn:Hv;
    destruct (b_publish_map_ (params (self s))) eqn:Hp;
    destruct (int32 (counter_ (self s) + 1)
              =? map_publishment_meters_ (params (self s))) eqn:Hc;
    unfold insert_keyframe; run_block;
    repeat (rewrite ?Hv, ?Hp, ?Hc; simpl);
    eexists; (split; [reflexivity|]); simpl; auto.
Qed.

(** What the keyframe branch leaves in the localizer and in the mapper. *)
Lemma insert_keyframe_state msg pose s :
  let o := self s in
  let fixed :=
      TransformPointsToFixedFrame
        (MotionUpdate (localization_ o) Transform3_Identity) msg in
  let inserted := InsertPoints (mapper_ o) (snd fixed) in
  let c := int32 (counter_ o + 1) in
  let o' := self (after (insert_keyframe msg pose s)) in
  localization_ o' = fst fixed
  /\ mapper_ o' =
     (if b_publish_map_ (params o)
         && (c =? map_publishment_meters_ (params o))
      then PublishMap (fst inserted) else fst inserted).
Proof.
  intros o fixed inserted c o'. subst o' c inserted fixed o.
  destruct (b_verbose_ (params (self s))) eqn:Hv;
    destruct (b_publish_map_ (params (self s))) eqn:Hp;
    destruct (int32 (counter_ (self s) + 1)
              =? map_publishment_meters_ (params (self s))) eqn:Hc;
    unfold insert_keyframe; run_block;
    repeat (rewrite ?Hv, ?Hp, ?Hc; simpl);
    split; reflexivity.
Qed.

Lemma ToGtsam_run {Ret} pose s :
  ToGtsam (Ret:=Ret) pose s =
  mkResult (Normal (ToGtsam_value pose)) s
           (if b_verbose_ (params (self s))
            then [Log INFO "SpotFrontend - ToGtsam"] else []).
Proof.
  unfold ToGtsam. run_block.
  destruct (b_verbose_ (params (self s))); destruct s; reflexivity.
Qed.

Lemma keyframe_decision_run msg s :
  let o := self s in
  let current_pose := GetIntegratedEstimate (localization_ o) in
  let delta := ToGtsam_value (PoseDelta (last_keyframe_pose_ o) current_pose) in
  let said := if b_verbose_ (params o)
              then [Log INFO "SpotFrontend - ToGtsam"] else [] in
  keyframe_decision msg s =
  if exceeds_threshold (params o) delta
  then mkResult (Normal tt) (after (insert_keyframe msg current_pose s))
                (said ++ emitted (insert_keyframe msg current_pose s))
  else mkResult (Normal tt) s said.
Proof.
  intros o current_pose delta said. subst said delta current_pose o.
  destruct (insert_keyframe_run msg (GetIntegratedEstimate (localization_ (self s))) s)
    as (o' & Hrun & _).
  unfold keyframe_decision.
  cbv beta iota delta [bind this]. rewrite ToGtsam_run.
  cbv beta iota delta [when].
  destruct (exceeds_threshold _ _).
  - rewrite Hrun. reflexivity.
  - simpl. rewrite List.app_nil_r. reflexivity.
Qed.
End Blocks.

(** ** Composition of blocks *)
Section Composition.
Context {D : Double} {R : RosTypes} {E : Externals}.

Lemma bind_assoc {Ret A B C} (m : M Ret A) (f : A -> M Ret B)
      (g : B -> M Ret C) s :
  bind (bind m f) g s = bind m (fun a => bind (f a) g) s.
Proof.
  unfold bind. destruct (m s) as [[a|v|e] s1 l1]; try reflexivity.
  destruct (f a s1) as [[b|v|e] s2 l2]; try reflexivity.
  destruct (g b s2) as [c s3 l3]. rewrite List.app_assoc. reflexivity.
Qed.

(** After a prefix that leaves [I], a continuation that keeps [I]. *)
Lemma bind_after_keeps {Ret A B} (I : SpotFrontend -> Prop) p
      (m : M Ret A) (k : A -> M Ret B) s :
  I (self (after (m s))) -> (forall a, keeps I p (k a)) ->
  I (self (after (bind m k s))).
Proof.
  intros H Hk. unfold bind. destruct (m s) as [[a|v|e] s1 l1]; simpl in *; auto.
  destruct (Hk a s1 H) as [H1 _]. destruct (k a s1). exact H1.
Qed.

Lemma bind_filter_silent_right {Ret A B} (I : SpotFrontend -> Prop) p
      (m : M Ret A) (k : A -> M Ret B) s :
  I (self (after (m s))) -> (forall a, keeps I p (k a)) ->
  List.filter p (emitted (bind m k s)) = List.filter p (emitted (m s)).
Proof.
  intros H Hk. unfold bind. destruct (m s) as [[a|v|e] s1 l1]; simpl in *; auto.
  destruct (Hk a s1 H) as [_ H2]. destruct (k a s1). simpl in *.
  rewrite List.filter_app, H2, List.app_nil_r. reflexivity.
Qed.

Lemma bind_ext {Ret A B} (m : M Ret A) (k k' : A -> M Ret B) s :
  (forall a s', k a s' = k' a s') -> bind m k s = bind m k' s.
Proof.
  intros H. unfold bind. destruct (m s) as [[a|v|e] s1 l1]; try reflexivity.
  rewrite H. reflexivity.
Qed.

Lemma bind_ret_l {Ret A B} (a : A) (k : A -> M Ret B) s :
  bind (ret a) k s = k a s.
Proof. unfold bind, ret. destruct (k a s). reflexivity. Qed.

Lemma keeps_apply {Ret A} (I : SpotFrontend -> Prop) p (m : M Ret A) s :
  keeps I p m -> I (self s) ->
  I (self (after (m s))) /\ List.filter p (emitted (m s)) = [].
Proof. intros H HI. apply H. exact HI. Qed.

(** [LidarCallback] is its prefix followed by the keyframe decision and the
    publishing tail. *)
Lemma LidarCallback_split msg s :
  LidarCallback msg s =
  bind (before_keyframe_decision msg)
       (fun l => keyframe_decision msg ;;
                 publish_outputs msg (lidar_callback_start l)
                                 (diagnostics_odometry l)
                                 (diagnostics_localization l)) s.
Proof.
  unfold LidarCallback, before_keyframe_decision.
  rewrite bind_assoc. apply bind_ext. intros start s1.
  rewrite bind_assoc. apply bind_ext. intros _ s2.
  rewrite bind_assoc. apply bind_ext. intros _ s3.
  cbv zeta.
  rewrite bind_assoc. apply bind_ext. intros _ s4.
  rewrite bind_assoc. apply bind_ext. intros d1 s5.
  rewrite bind_assoc. apply bind_ext. intros _ s6.
  rewrite bind_assoc. apply bind_ext. intros d2 s7.
  rewrite bind_ret_l. reflexivity.
Qed.

Lemma deliver_scan_run msg s :
  deliver (scan msg) s =
  if reaches_callback msg s then call_void (LidarCallback msg) s
  else mkResult (Normal tt) s [].
Proof.
  unfold reaches_callback, deliver, through_filter, bind, this, when, ret.
  destruct (b_use_odometry_integration_ (self s)); simpl.
  - destruct (canTransform _ _ _ _); [|reflexivity].
    destruct (call_void (LidarCallback msg) s). reflexivity.
  - destruct (call_void (LidarCallback msg) s). reflexivity.
Qed.

Lemma profiling_now_eq s :
  profiling_now s =
  if b_enable_computation_time_profiling_ (params (self s))
  then mkResult (Normal (fst (now (world s))))
                (mkSys (self s) (snd (now (world s)))) []
  else mkResult (Normal Time_default) s [].
Proof.
  run_block.
  destruct (b_enable_computation_time_profiling_ (params (self s)));
    reflexivity.
Qed.
End Composition.

(** ** Sequence continuity *)
Section SequenceGuard.
Context {D : Double} {R : RosTypes} {E : Externals}.

Lemma profiling_now_sys s :
  exists t w,
    forall o, params o = params (self s) ->
      profiling_now (mkSys o (world s)) = mkResult (Normal t) (mkSys o w) [].
Proof.
  destruct (b_enable_computation_time_profiling_ (params (self s))) eqn:Hf.
  - exists (fst (now (world s))), (snd (now (world s))). intros o Ho.
    rewrite profiling_now_eq. simpl. rewrite Ho, Hf. reflexivity.
  - exists Time_default, (world s). intros o Ho.
    rewrite profiling_now_eq. simpl. rewrite Ho, Hf. reflexivity.
Qed.

(** The callback is the guard, run after the first clock reading, followed
    by a continuation that neither reads nor writes the guard's members. *)
Lemma LidarCallback_after_guard msg o w0 :
  exists (w : World) (start : Time),
    let rest : M unit unit :=
        (classify_density msg ;;
         odometry_integration (fromPCL (header_stamp msg)) ;;
         d1 <- scan_to_scan msg ;;
         bootstrap msg (fromPCL (header_stamp msg)) ;;
         d2 <- scan_to_submap msg ;;
         keyframe_decision msg ;;
         publish_outputs msg start d1 d2) in
    (forall v,
        keeps (fun o => pcld_seq_prev_ o = v /\ b_pcld_received_ o = true)
              is_scan_dropped rest)
    /\ forall prev received,
        let o' := set_b_pcld_received_ received (set_pcld_seq_prev_ prev o) in
        LidarCallback msg (mkSys o' w0) =
        mkResult
          (outcome (rest (after (sequence_guard msg (mkSys o' w)))))
          (after (rest (after (sequence_guard msg (mkSys o' w)))))
          (emitted (sequence_guard msg (mkSys o' w))
           ++ emitted (rest (after (sequence_guard msg (mkSys o' w))))).
Proof.
  destruct (profiling_now_sys (mkSys o w0)) as (start & w & Hp).
  exists w, start. intros rest. split.
  - intros v. subst rest. keeps_auto.
  - intros prev received o'. unfold LidarCallback.
    rewrite (bind_run _ _ _ _ _ _ (Hp o' eq_refl)).
    rewrite (bind_run _ _ _ _ _ _ (sequence_guard_run msg _)).
    rewrite sequence_guard_run. reflexivity.
Qed.

Lemma LidarCallback_guard msg s :
  count is_scan_dropped (emitted (LidarCallback msg s)) =
  (if b_pcld_received_ (self s)
      && negb (header_seq msg =? uint32 (pcld_seq_prev_ (self s) + 1))
   then 1%nat else 0%nat)
  /\ pcld_seq_prev_ (self (after (LidarCallback msg s))) = header_seq msg
  /\ b_pcld_received_ (self (after (LidarCallback msg s))) = true.
Proof.
  destruct s as [o w0].
  destruct (LidarCallback_after_guard msg o w0) as (w & start & Hk & Hrun).
  specialize (Hrun (pcld_seq_prev_ o) (b_pcld_received_ o)). simpl in Hrun.
  assert (Ho : set_b_pcld_received_ (b_pcld_received_ o)
                 (set_pcld_seq_prev_ (pcld_seq_prev_ o) o) = o)
    by (destruct o; reflexivity).
  rewrite Ho in Hrun. rewrite Hrun. clear Hrun. simpl emitted. simpl after.
  rewrite sequence_guard_run. simpl.
  match goal with
  | |- context [emitted (?rest ?s0)] =>
      destruct (keeps_apply _ _ rest s0 (Hk (header_seq msg))) as [[H1 H2] H3];
        [split; reflexivity|]
  end.
  split; [|split; assumption].
  rewrite count_app, (count_silent _ _ H3), Nat.add_0_r.
  destruct (b_pcld_received_ o && _); reflexivity.
Qed.

Lemma uint32_step_differs n : (uint32 (n + 2) =? uint32 (n + 1)) = false.
Proof.
  apply Z.eqb_neq. unfold uint32. intros H.
  pose proof (Z.div_mod (n + 2) (2 ^ 32)) as H2.
  pose proof (Z.div_mod (n + 1) (2 ^ 32)) as H1.
  rewrite H in H2. change (2 ^ 32) with 4294967296 in *. lia.
Qed.

(** C9.  A gap is reported exactly when the scan's sequence number differs
    from the stored previous number plus one (in the 32-bit unsigned
    arithmetic of the sequence field); the stored number always becomes the
    current one; two scans numbered n, n+1 give no report and n, n+2 give
    exactly one; and the report changes nothing else: started with any
    other stored number, the callback completes the same way, leaves the
    same state and performs the same actions, the warning apart. *)
Theorem sequence_gap_reported msg1 msg2 s prev received :
  let dropped r := count is_scan_dropped (emitted r) in
  let other e := negb (is_scan_dropped e) in
  let r1 := LidarCallback msg1 s in
  let r2 := LidarCallback msg2 (after r1) in
  let r1' := LidarCallback msg1
               (mkSys (set_b_pcld_received_ received
                         (set_pcld_seq_prev_ prev (self s))) (world s)) in
  dropped r1 =
    (if b_pcld_received_ (self s)
        && negb (header_seq msg1 =? uint32 (pcld_seq_prev_ (self s) + 1))
     then 1%nat else 0%nat)
  /\ pcld_seq_prev_ (self (after r1)) = header_seq msg1
  /\ b_pcld_received_ (self (after r1)) = true
  /\ dropped r2 =
       (if header_seq msg2 =? uint32 (header_seq msg1 + 1)
        then 0%nat else 1%nat)
  /\ (header_seq msg2 = uint32 (header_seq msg1 + 1) -> dropped r2 = 0%nat)
  /\ (header_seq msg2 = uint32 (header_seq msg1 + 2) -> dropped r2 = 1%nat)
  /\ outcome r1' = outcome r1
  /\ after r1' = after r1
  /\ List.filter other (emitted r1') = List.filter other (emitted r1).
Proof.
  intros dropped other r1 r2 r1'.
  destruct (LidarCallback_guard msg1 s) as (Hd1 & Hp1 & Hb1).
  destruct (LidarCallback_guard msg2 (after r1)) as (Hd2 & _ & _).
  fold r1 in Hp1, Hb1. rewrite Hp1, Hb1 in Hd2. simpl in Hd2.
  assert (Hr2 : dropped r2 =
                if header_seq msg2 =? uint32 (header_seq msg1 + 1)
                then 0%nat else 1%nat).
  { unfold dropped, r2. rewrite Hd2.
    destruct (header_seq msg2 =? uint32 (header_seq msg1 + 1)); reflexivity. }
  repeat split; try assumption.
  - intros H. rewrite Hr2, H, Z.eqb_refl. reflexivity.
  - intros H. rewrite Hr2, H, uint32_step_differs. reflexivity.
  - unfold r1', r1. destruct s as [o w0].
    destruct (LidarCallback_after_guard msg1 o w0) as (w & start & _ & Hrun).
    simpl self. simpl world. rewrite (Hrun prev received).
    assert (Ho : set_b_pcld_received_ (b_pcld_received_ o)
                   (set_pcld_seq_prev_ (pcld_seq_prev_ o) o) = o)
      by (destruct o; reflexivity).
    pose proof (Hrun (pcld_seq_prev_ o) (b_pcld_received_ o)) as Hrun0.
    simpl in Hrun0. rewrite Ho in Hrun0. rewrite Hrun0.
    rewrite !sequence_guard_run. reflexivity.
  - unfold r1', r1. destruct s as [o w0].
    destruct (LidarCallback_after_guard msg1 o w0) as (w & start & _ & Hrun).
    simpl self. simpl world. rewrite (Hrun prev received).
    assert (Ho : set_b_pcld_received_ (b_pcld_received_ o)
                   (set_pcld_seq_prev_ (pcld_seq_prev_ o) o) = o)
      by (destruct o; reflexivity).
    pose proof (Hrun (pcld_seq_prev_ o) (b_pcld_received_ o)) as Hrun0.
    simpl in Hrun0. rewrite Ho in Hrun0. rewrite Hrun0.
    rewrite !sequence_guard_run. reflexivity.
  - unfold r1', r1. destruct s as [o w0].
    destruct (LidarCallback_after_guard msg1 o w0) as (w & start & Hk & Hrun).
    simpl self. simpl world.
    rewrite (Hrun prev received).
    assert (Ho : set_b_pcld_received_ (b_pcld_received_ o)
                   (set_pcld_seq_prev_ (pcld_seq_prev_ o) o) = o)
      by (destruct o; reflexivity).
    pose proof (Hrun (pcld_seq_prev_ o) (b_pcld_received_ o)) as Hrun0.
    simpl in Hrun0. rewrite Ho in Hrun0. rewrite Hrun0.
    simpl emitted. rewrite !sequence_guard_run. simpl emitted. simpl after.
    assert (Hw : forall c : bool,
               List.filter other
                 (if c then [Log WARN "Lidar scan dropped"] else []) = [])
      by (intros [|]; reflexivity).
    rewrite !List.filter_app, !Hw. reflexivity.
Qed.
End SequenceGuard.

(** ** The rolling map buffer *)
Section RollingMapBuffer.
Context {D : Double} {R : RosTypes} {E : Externals}.

Lemma LoadParameters_rolling_off :
  keeps rolling_off is_SetRollingMapBufferOn LoadParameters.
Proof. unfold rolling_off. keeps_auto. Qed.

Lemma Initialize_rolling_off from_log :
  keeps rolling_off is_SetRollingMapBufferOn (Initialize from_log).
Proof. unfold rolling_off. keeps_auto. Qed.

Lemma deliver_rolling_off i :
  keeps rolling_off is_SetRollingMapBufferOn (deliver i).
Proof. unfold rolling_off. destruct i; keeps_auto. Qed.

Lemma spin_rolling_off inputs :
  keeps rolling_off is_SetRollingMapBufferOn (spin inputs).
Proof.
  induction inputs as [|i rest IH]; simpl.
  - apply keeps_ret.
  - apply keeps_bind; [apply deliver_rolling_off|intros _; exact IH].
Qed.

Lemma never_normal_after_return {Ret B} (v : Ret) (k : unit -> M Ret B) :
  never_normal (bind (return_ v) k).
Proof. intros s a. discriminate. Qed.

Lemma LoadParameters_returns : never_normal LoadParameters.
Proof.
  unfold LoadParameters.
  repeat lazymatch goal with
         | |- never_normal (bind (return_ _) _) => fail
         | |- never_normal (bind _ _) => apply never_normal_bind; intros ?
         end.
  apply never_normal_after_return.
Qed.

(** C10.  In every execution (construction, [Initialize], then any sequence
    of callbacks) the rolling-map-buffer flag stays false and
    [SetRollingMapBufferOn] is never called: [LoadParameters] always leaves
    by a [return] placed before the statements that would load the flag; it
    never runs to the end of its body, leaves the flag as it found it and
    does not call the mapper. *)
Theorem rolling_map_buffer_never_enabled raw w from_log inputs s :
  let s0 := mkSys (SpotFrontend_new raw) w in
  let r0 := call (Ret:=unit) (Initialize from_log) s0 in
  let r1 := spin inputs (after r0) in
  rolling_off (self s0)
  /\ rolling_off (self (after r0))
  /\ rolling_off (self (after r1))
  /\ count is_SetRollingMapBufferOn (emitted r0 ++ emitted r1) = O
  /\ (forall a, outcome (LoadParameters s) <> Normal a)
  /\ b_run_rolling_map_buffer_ (params (self (after (LoadParameters s))))
     = b_run_rolling_map_buffer_ (params (self s))
  /\ count is_SetRollingMapBufferOn (emitted (LoadParameters s)) = O.
Proof.
  intros s0 r0 r1.
  assert (H0 : rolling_off (self s0)) by reflexivity.
  destruct (keeps_call (Ret:=unit) _ _ _ (Initialize_rolling_off from_log) s0 H0)
    as [H1 H2].
  destruct (spin_rolling_off inputs (after r0) H1) as [H3 H4].
  fold r0 in H2. fold r1 in H4.
  split; [exact H0|]. split; [exact H1|]. split; [exact H3|].
  split; [|split; [|split]].
  - rewrite count_app, (count_silent _ _ H2), (count_silent _ _ H4).
    reflexivity.
  - apply LoadParameters_returns.
  - assert (Hk : keeps (fun o => b_run_rolling_map_buffer_ (params o)
                                 = b_run_rolling_map_buffer_ (params (self s)))
                       is_SetRollingMapBufferOn LoadParameters)
      by keeps_auto.
    apply (Hk s eq_refl).
  - apply count_silent.
    assert (Hk : keeps (fun _ => True) is_SetRollingMapBufferOn LoadParameters)
      by keeps_auto.
    apply (Hk s Logic.I).
Qed.
End RollingMapBuffer.

(** ** The odometry delta *)
Section OdometryDelta.
Context {D : Double} {R : RosTypes} {E : Externals}.

(** The algebra of rigid transforms is an algebra over exact scalars: the
    statements of this section read [double] arithmetic as arithmetic in a
    commutative ring, without rounding. *)
Hypothesis exact_arithmetic :
  ring_theory (d_of_Z 0) (d_of_Z 1) dadd dmul dsub dopp (@eq double).

Add Ring double_ring : exact_arithmetic.

Lemma inverseTimes_inverse_mul (a t : tf.Transform) :
  tf.inverseTimes a t = tf.mul (tf.inverse a) t.
Proof.
  destruct a as [[[a00 a01 a02] [a10 a11 a12] [a20 a21 a22]] [ax ay az]].
  destruct t as [[[t00 t01 t02] [t10 t11 t12] [t20 t21 t22]] [tx ty tz]].
  unfold tf.inverseTimes, tf.mul, tf.inverse, tf.transposeTimes,
    tf.mat_times_mat, tf.vec_times_mat, tf.mat_times_vec, tf.apply,
    tf.transpose, tf.vsub, tf.vneg, tf.tdotx, tf.tdoty, tf.tdotz, tf.dot.
  simpl. f_equal; [f_equal; f_equal; ring | f_equal; ring].
Qed.

Lemma inverseTimes_self (p : tf.Transform) :
  tf.orthonormal (tf.m_basis p) ->
  tf.inverseTimes p p = tf.Transform_getIdentity.
Proof.
  destruct p as [[[a00 a01 a02] [a10 a11 a12] [a20 a21 a22]] [ax ay az]].
  intros H.
  pose proof (H 0 0 ltac:(lia) ltac:(lia)) as H00.
  pose proof (H 0 1 ltac:(lia) ltac:(lia)) as H01.
  pose proof (H 0 2 ltac:(lia) ltac:(lia)) as H02.
  pose proof (H 1 0 ltac:(lia) ltac:(lia)) as H10.
  pose proof (H 1 1 ltac:(lia) ltac:(lia)) as H11.
  pose proof (H 1 2 ltac:(lia) ltac:(lia)) as H12.
  pose proof (H 2 0 ltac:(lia) ltac:(lia)) as H20.
  pose proof (H 2 1 ltac:(lia) ltac:(lia)) as H21.
  pose proof (H 2 2 ltac:(lia) ltac:(lia)) as H22.
  clear H.
  unfold tf.column, tf.dot in *. simpl in *.
  unfold tf.inverseTimes, tf.Transform_getIdentity, tf.Matrix3x3_getIdentity,
    tf.transposeTimes, tf.vec_times_mat, tf.vsub, tf.tdotx, tf.tdoty,
    tf.tdotz.
  simpl.
  rewrite H00, H01, H02, H10, H11, H12, H20, H21, H22.
  f_equal. f_equal; ring.
Qed.

(** In exact arithmetic the delta is the inverse of the previous pose
    composed with the current pose, and the delta of a rigid pose with
    itself is the identity. *)
Lemma odometry_delta_exact (o : SpotFrontend) (current : tf.Transform) :
  GetOdometryDelta o current
  = tf.mul (tf.inverse (odometry_pose_previous_ o)) current
  /\ (tf.orthonormal (tf.m_basis current) ->
      odometry_pose_previous_ o = current ->
      GetOdometryDelta o current = tf.Transform_getIdentity).
Proof.
  unfold GetOdometryDelta. split.
  - apply inverseTimes_inverse_mul.
  - intros H ->. apply inverseTimes_self. exact H.
Qed.
End OdometryDelta.

(** ** The odometry delta in binary64 *)
Section OdometryDeltaRounded.

Lemma binary64_mul_comm (x y : float) : PrimFloat.mul x y = PrimFloat.mul y x.
Proof.
  apply Prim2SF_inj. rewrite !mul_spec. unfold SF64mul.
  destruct (Prim2SF x) as [sx|sx| |sx mx ex];
    destruct (Prim2SF y) as [sy|sy| |sy my ey]; simpl;
    rewrite ?(Bool.xorb_comm sx sy); try reflexivity.
  rewrite (Pos.mul_comm mx my), (Z.add_comm ex ey). reflexivity.
Qed.

Lemma binary64_sub_self (x : float) :
  IEEE.finite x = true -> IEEE.is_zero (PrimFloat.sub x x) = true.
Proof.
  unfold IEEE.finite, IEEE.is_zero. rewrite sub_spec. unfold SF64sub.
  destruct (Prim2SF x) as [sx|sx| |sx mx ex]; try discriminate; intros _.
  - destruct sx; reflexivity.
  - unfold SFsub. rewrite Z.min_id. unfold shl_align.
    match goal with
    | |- context [match ?d with Z.neg _ => _ | _ => _ end] =>
        replace d with 0 by (symmetry; apply Z.sub_diag)
    end.
    cbn [fst].
    match goal with
    | |- context [binary_normalize _ _ ?d _ _] =>
        replace d with 0 by (symmetry; apply Z.sub_diag)
    end.
    reflexivity.
Qed.

Lemma binary64_mul_zero (a x : float) :
  IEEE.finite a = true -> IEEE.is_zero x = true ->
  IEEE.is_zero (PrimFloat.mul a x) = true.
Proof.
  unfold IEEE.finite, IEEE.is_zero. rewrite mul_spec. unfold SF64mul.
  destruct (Prim2SF a) as [sa|sa| |sa ma ea]; try discriminate;
    destruct (Prim2SF x) as [sx|sx| |sx mx ex]; try discriminate;
    reflexivity.
Qed.

Lemma binary64_add_zero (x y : float) :
  IEEE.is_zero x = true -> IEEE.is_zero y = true ->
  IEEE.is_zero (PrimFloat.add x y) = true.
Proof.
  unfold IEEE.is_zero. rewrite add_spec. unfold SF64add.
  destruct (Prim2SF x) as [sx|sx| |sx mx ex]; try discriminate;
    destruct (Prim2SF y) as [sy|sy| |sy my ey]; try discriminate.
  destruct sx, sy; reflexivity.
Qed.

Lemma binary64_zero_eqb (x : float) :
  IEEE.is_zero x = true -> PrimFloat.eqb x PrimFloat.zero = true.
Proof.
  unfold IEEE.is_zero. rewrite eqb_spec.
  destruct (Prim2SF x) as [sx|sx| |sx mx ex]; try discriminate.
  intros _. reflexivity.
Qed.

Lemma binary64_dot_zero (a b c x y z : float) :
  IEEE.finite a = true -> IEEE.finite b = true -> IEEE.finite c = true ->
  IEEE.is_zero x = true -> IEEE.is_zero y = true -> IEEE.is_zero z = true ->
  PrimFloat.eqb
    (PrimFloat.add (PrimFloat.add (PrimFloat.mul a x) (PrimFloat.mul b y))
                   (PrimFloat.mul c z))
    PrimFloat.zero = true.
Proof.
  intros Ha Hb Hc Hx Hy Hz. apply binary64_zero_eqb.
  apply binary64_add_zero; [apply binary64_add_zero|];
    apply binary64_mul_zero; assumption.
Qed.

Variable libm_acos : float -> float.
Context {R : RosTypes} {E : @Externals (IEEE.binary64 libm_acos) R}.

(** The rotation of the delta is bit for bit the rotation of
    inverse(previous) * current: the two differ in the order of the factors
    of each product only. *)
Lemma binary64_delta_rotation (a t : @tf.Transform (IEEE.binary64 libm_acos)) :
  tf.m_basis (tf.inverseTimes a t) = tf.m_basis (tf.mul (tf.inverse a) t).
Proof.
  destruct a as [[[a00 a01 a02] [a10 a11 a12] [a20 a21 a22]] [ax ay az]].
  destruct t as [[[t00 t01 t02] [t10 t11 t12] [t20 t21 t22]] [tx ty tz]].
  unfold tf.inverseTimes, tf.mul, tf.inverse, tf.transposeTimes,
    tf.mat_times_mat, tf.transpose, tf.tdotx, tf.tdoty, tf.tdotz.
  cbn [tf.m_basis tf.row0 tf.row1 tf.row2 tf.x tf.y tf.z dadd dmul
       IEEE.binary64].
  rewrite ?(binary64_mul_comm t00), ?(binary64_mul_comm t01),
    ?(binary64_mul_comm t02), ?(binary64_mul_comm t10),
    ?(binary64_mul_comm t11), ?(binary64_mul_comm t12),
    ?(binary64_mul_comm t20), ?(binary64_mul_comm t21),
    ?(binary64_mul_comm t22).
  reflexivity.
Qed.

(** The translation of the delta of a finite pose with itself is zero. *)
Lemma binary64_delta_translation (p : @tf.Transform (IEEE.binary64 libm_acos)) :
  IEEE.finite_pose libm_acos p = true ->
  IEEE.null_vector libm_acos (tf.m_origin (tf.inverseTimes p p)) = true.
Proof.
  destruct p as [[[a00 a01 a02] [a10 a11 a12] [a20 a21 a22]] [ax ay az]].
  unfold IEEE.finite_pose, IEEE.finite_vector, IEEE.null_vector.
  cbn [tf.m_basis tf.m_origin tf.row0 tf.row1 tf.row2 tf.x tf.y tf.z].
  intros H.
  repeat match goal with
         | H : _ && _ = true |- _ =>
             apply Bool.andb_true_iff in H; destruct H
         end.
  unfold tf.inverseTimes, tf.vec_times_mat, tf.vsub, tf.tdotx, tf.tdoty,
    tf.tdotz.
  cbn [tf.m_basis tf.m_origin tf.row0 tf.row1 tf.row2 tf.x tf.y tf.z
       dadd dmul dsub IEEE.binary64].
  rewrite !binary64_dot_zero; try reflexivity;
    try assumption; apply binary64_sub_self; assumption.
Qed.
End OdometryDeltaRounded.

(** C8, as the code has it.  [GetOdometryDelta] is the previous pose's
    [inverseTimes] of the current one.  In exact arithmetic that is
    inverse(previous) composed with current, and the identity when both are
    the same rigid pose.  In the binary64 arithmetic of the compiled code
    the rotation of the delta is still exactly the rotation of
    inverse(previous) * current, and the delta of a finite pose with itself
    has zero translation; the translation in general, and the rotation of
    the delta of a pose with itself, are what these formulas give after
    rounding. *)
Theorem odometry_delta_exact_and_rounded :
  (forall (D : Double) (R : RosTypes) (E : Externals),
      ring_theory (d_of_Z 0) (d_of_Z 1) dadd dmul dsub dopp (@eq double) ->
      forall (o : SpotFrontend) (current : tf.Transform),
        GetOdometryDelta o current
        = tf.mul (tf.inverse (odometry_pose_previous_ o)) current
        /\ (tf.orthonormal (tf.m_basis current) ->
            odometry_pose_previous_ o = current ->
            GetOdometryDelta o current = tf.Transform_getIdentity))
  /\ (forall (libm_acos : float -> float) (R : RosTypes)
             (E : @Externals (IEEE.binary64 libm_acos) R)
             (o : SpotFrontend) (current : tf.Transform),
        GetOdometryDelta o current
        = tf.inverseTimes (odometry_pose_previous_ o) current
        /\ tf.m_basis (GetOdometryDelta o current)
           = tf.m_basis (tf.mul (tf.inverse (odometry_pose_previous_ o))
                                current)
        /\ (IEEE.finite_pose libm_acos current = true ->
            odometry_pose_previous_ o = current ->
            IEEE.null_vector libm_acos
              (tf.m_origin (GetOdometryDelta o current)) = true)).
Proof.
  split.
  - intros D R E exact o current. apply odometry_delta_exact. exact exact.
  - intros libm_acos R E o current. unfold GetOdometryDelta.
    split; [reflexivity|]. split.
    + apply binary64_delta_rotation.
    + intros Hf ->. apply binary64_delta_translation. exact Hf.
Qed.


(** ** External-odometry integration *)
Section OdometryIntegration.
Context {D : Double} {R : RosTypes} {E : Externals}.

Lemma bind_run_Thrown {Ret A B} (m : M Ret A) (k : A -> M Ret B) s e s1 l1 :
  m s = mkResult (Thrown e) s1 l1 -> bind m k s = mkResult (Thrown e) s1 l1.
Proof. intros H. unfold bind. rewrite H. reflexivity. Qed.

Lemma bind_run_Returned {Ret A B} (m : M Ret A) (k : A -> M Ret B) s v s1 l1 :
  m s = mkResult (Returned v) s1 l1 ->
  bind m k s = mkResult (Returned v) s1 l1.
Proof. intros H. unfold bind. rewrite H. reflexivity. Qed.

(** The callback from the odometry block on: the guard and the density
    classification have run, and nothing else. *)
Lemma LidarCallback_to_odometry msg s :
  exists (w : World) (start : Time),
    let o := set_b_is_open_space_
               (width msg >? uint32 (number_of_points_open_space_ (params (self s))))
               (set_b_pcld_received_ true
                  (set_pcld_seq_prev_ (header_seq msg) (self s))) in
    let warned := if b_pcld_received_ (self s)
                     && negb (header_seq msg
                              =? uint32 (pcld_seq_prev_ (self s) + 1))
                  then [Log WARN "Lidar scan dropped"] else [] in
    let rest : M unit unit :=
        (odometry_integration (fromPCL (header_stamp msg)) ;;
         d1 <- scan_to_scan msg ;;
         bootstrap msg (fromPCL (header_stamp msg)) ;;
         d2 <- scan_to_submap msg ;;
         keyframe_decision msg ;;
         publish_outputs msg start d1 d2) in
    LidarCallback msg s =
    mkResult (outcome (rest (mkSys o w))) (after (rest (mkSys o w)))
             (warned ++ emitted (rest (mkSys o w))).
Proof.
  destruct (profiling_now_run s) as (start & w & Hp).
  exists w, start. intros o warned rest. unfold LidarCallback.
  rewrite (bind_run _ _ _ _ _ _ Hp).
  rewrite (bind_run _ _ _ _ _ _ (sequence_guard_run msg _)).
  rewrite (bind_run _ _ _ _ _ _ (classify_density_run msg _)).
  reflexivity.
Qed.

(** [LidarCallback] has no handler of its own: run with odometry
    integration on a scan whose lookup fails, it stops at the lookup, having
    updated the sequence guard and the open-space flag and nothing else,
    and completes by propagating the exception. *)
Lemma LidarCallback_stops_at_failed_lookup msg s e :
  b_use_odometry_integration_ (self s) = true ->
  lookupTransform (odometry_buffer_ (self s))
                  (bd_odom_frame_id_ (params (self s)))
                  (base_frame_id_ (params (self s)))
                  (fromPCL (header_stamp msg)) = inl e ->
  let r := LidarCallback msg s in
  outcome r = Thrown e
  /\ self (after r) =
     set_b_is_open_space_
       (width msg >? uint32 (number_of_points_open_space_ (params (self s))))
       (set_b_pcld_received_ true
          (set_pcld_seq_prev_ (header_seq msg) (self s)))
  /\ KeyframeState (self (after r)) = KeyframeState (self s)
  /\ emitted r =
     ((if b_pcld_received_ (self s)
          && negb (header_seq msg =? uint32 (pcld_seq_prev_ (self s) + 1))
       then [Log WARN "Lidar scan dropped"] else [])
      ++ [Call_lookupTransform (bd_odom_frame_id_ (params (self s)))
                               (base_frame_id_ (params (self s)))
                               (fromPCL (header_stamp msg))])%list
  /\ List.filter (fun ev => is_map_or_pose_call ev || is_estimator_call ev)
                 (emitted r) = [].
Proof.
  intros H1 H2 r. subst r.
  destruct (LidarCallback_to_odometry msg s) as (w & start & Hrun).
  cbv zeta in Hrun. rewrite Hrun. clear Hrun.
  erewrite bind_run_Thrown;
    [|apply odometry_integration_throws; [exact H1|exact H2]].
  cbn [outcome after emitted self].
  split; [reflexivity|]. split; [reflexivity|]. split; [reflexivity|].
  split; [reflexivity|].
  rewrite List.filter_app. simpl.
  destruct (b_pcld_received_ (self s) && _); reflexivity.
Qed.

Lemma after_odometry_keeps msg start d1 pose :
  keeps (fun o => odometry_pose_previous_ o = pose
                  /\ b_odometry_has_been_received_ o = true)
        is_estimator_call
        (bootstrap msg (fromPCL (header_stamp msg)) ;;
         d2 <- scan_to_submap msg ;;
         keyframe_decision msg ;;
         publish_outputs msg start d1 d2).
Proof. keeps_auto. Qed.

(** C7.  With external-odometry integration enabled and the pose looked up:
    the first cycle records the pose as the baseline and returns; the guard
    and the open-space flag apart, nothing else in the object changes and no
    collaborator is called.  From the second cycle on, the delta
    inverse(previous) * current is handed to the estimator before the scan
    is filtered and the estimate updated, and the current pose becomes the
    previous one. *)
Theorem odometry_baseline_then_delta msg s t :
  b_use_odometry_integration_ (self s) = true ->
  lookupTransform (odometry_buffer_ (self s))
                  (bd_odom_frame_id_ (params (self s)))
                  (base_frame_id_ (params (self s)))
                  (fromPCL (header_stamp msg)) = inr t ->
  let pose := tf.mkTransform (tf.setRotation (rotation_msg (transform t)))
                             (translation_msg (transform t)) in
  let r := LidarCallback msg s in
  let is_open_space :=
      width msg >? uint32 (number_of_points_open_space_ (params (self s))) in
  let guarded :=
      set_b_is_open_space_ is_open_space
        (set_b_pcld_received_ true
           (set_pcld_seq_prev_ (header_seq msg) (self s))) in
  let warned :=
      if b_pcld_received_ (self s)
         && negb (header_seq msg =? uint32 (pcld_seq_prev_ (self s) + 1))
      then [Log WARN "Lidar scan dropped"] else [] in
  let looked_up :=
      Call_lookupTransform (bd_odom_frame_id_ (params (self s)))
                           (base_frame_id_ (params (self s)))
                           (fromPCL (header_stamp msg)) in
  if b_odometry_has_been_received_ (self s)
  then
    let delta := tf.inverseTimes (odometry_pose_previous_ (self s)) pose in
    let filtered := Filter (filter_ (self s)) msg is_open_space in
    let estimate :=
        UpdateEstimate
          (SetLidar (SetOdometryDelta (odometry_ (self s)) delta)
                    (snd filtered)) in
    List.filter is_estimator_call (emitted r) =
      ([Call_SetOdometryDelta delta;
        Call_Filter msg is_open_space;
        Call_SetLidar (snd filtered);
        Call_UpdateEstimate (snd estimate)]
       ++ (if level (odometry_GetDiagnostics (fst estimate)) =? 0
           then [Call_odometry_PublishAll] else []))%list
    /\ odometry_pose_previous_ (self (after r)) = pose
    /\ b_odometry_has_been_received_ (self (after r)) = true
  else
    outcome r = Returned tt
    /\ self (after r) =
       set_b_odometry_has_been_received_ true
         (set_odometry_pose_previous_ pose guarded)
    /\ emitted r =
       (warned ++ [looked_up;
                   Log INFO "Receiving odometry for the first time"])%list
    /\ KeyframeState (self (after r)) = KeyframeState (self s)
    /\ List.filter (fun ev => is_map_or_pose_call ev || is_estimator_call ev)
                   (emitted r) = [].
Proof.
  intros H1 H2 pose r is_open_space guarded warned looked_up. subst r.
  destruct (LidarCallback_to_odometry msg s) as (w & start & Hrun).
  cbv zeta in Hrun. rewrite Hrun. clear Hrun.
  destruct (b_odometry_has_been_received_ (self s)) eqn:H3.
  - intros delta filtered estimate.
    erewrite bind_run;
      [|apply (odometry_integration_next _ _ t); [exact H1|exact H2|exact H3]].
    match goal with
    | |- context [bind (scan_to_scan msg) ?k ?s4] =>
        destruct (scan_to_scan_run msg s4) as (w' & l & Hs & Hl);
          cbv zeta in Hs; rewrite (bind_run _ _ _ _ _ _ Hs); clear Hs
    end.
    cbn [outcome after emitted].
    match goal with
    | |- context [emitted (?k ?s5)] =>
        destruct (keeps_apply
                    (fun o => odometry_pose_previous_ o = pose
                              /\ b_odometry_has_been_received_ o = true)
                    is_estimator_call k s5
                    (after_odometry_keeps msg start _ pose))
          as [[Hp Hr] Hq]
    end.
    { cbn [self].
      destruct (snd _); destruct (level _ =? 0);
        (split; [reflexivity|exact H3]). }
    split; [|split; assumption].
    clear Hp Hr. rewrite !List.filter_app, Hq.
    assert (Hl' : List.filter is_estimator_call l = [])
      by (destruct Hl as [->|[x ->]]; reflexivity).
    rewrite Hl'. simpl.
    destruct (b_pcld_received_ (self s) && _); destruct (level _ =? 0);
      reflexivity.
  - erewrite bind_run_Returned;
      [|apply (odometry_integration_first _ _ t); [exact H1|exact H2|exact H3]].
    cbn [outcome after emitted self].
    split; [reflexivity|]. split; [reflexivity|]. split; [reflexivity|].
    split; [reflexivity|].
    rewrite List.filter_app. simpl. subst warned.
    destruct (b_pcld_received_ (self s) && _); reflexivity.
Qed.
End OdometryIntegration.

(** ** Exceptions *)
Section NeverThrows.
Context {D : Double} {R : RosTypes} {E : Externals}.











End NeverThrows.



Section Exceptions.
Context {D : Double} {R : RosTypes} {E : Externals}.




Lemma outcome_result {Ret A} (c : completion Ret A) s l :
  outcome (mkResult c s l) = c.
Proof. reflexivity. Qed.

End Exceptions.

(** ** Scans the transform buffer cannot serve *)
Section MessageFilter.
Context {D : Double} {R : RosTypes} {E : Externals}.


End MessageFilter.

(** ** Bootstrap and steady state *)
Section Keyframes.
Context {D : Double} {R : RosTypes} {E : Externals}.

Lemma LidarCallback_from_estimator msg s :
  LidarCallback msg s =
  bind (until_estimator msg)
       (fun start =>
          d1 <- scan_to_scan msg ;;
          bootstrap msg (fromPCL (header_stamp msg)) ;;
          d2 <- scan_to_submap msg ;;
          keyframe_decision msg ;;
          publish_outputs msg start d1 d2) s.
Proof.
  unfold LidarCallback, until_estimator.
  rewrite bind_assoc. apply bind_ext. intros start s1.
  rewrite bind_assoc. apply bind_ext. intros _ s2.
  rewrite bind_assoc. apply bind_ext. intros _ s3.
  cbv zeta.
  rewrite bind_assoc. apply bind_ext. intros _ s4.
  rewrite bind_ret_l. reflexivity.
Qed.

Lemma before_from_estimator msg s :
  before_keyframe_decision msg s =
  bind (until_estimator msg)
       (fun start =>
          d1 <- scan_to_scan msg ;;
          bootstrap msg (fromPCL (header_stamp msg)) ;;
          d2 <- scan_to_submap msg ;;
          ret (mkLocals start d1 d2)) s.
Proof.
  unfold before_keyframe_decision, until_estimator.
  rewrite bind_assoc. apply bind_ext. intros start s1.
  rewrite bind_assoc. apply bind_ext. intros _ s2.
  rewrite bind_assoc. apply bind_ext. intros _ s3.
  cbv zeta.
  rewrite bind_assoc. apply bind_ext. intros _ s4.
  rewrite bind_ret_l. reflexivity.
Qed.

(** What the blocks before the estimator leave alone. *)
Lemma until_estimator_keeps msg (o0 : SpotFrontend) :
  keeps (fun o => KeyframeState o = KeyframeState o0
                  /\ params o = params o0
                  /\ localization_ o = localization_ o0
                  /\ mapper_ o = mapper_ o0
                  /\ filter_ o = filter_ o0
                  /\ clouds o = clouds o0)
        is_map_or_pose_call
        (until_estimator msg).
Proof. keeps_auto. Qed.

Lemma odometry_integration_off_normal msg s :
  b_use_odometry_integration_ (self s) = false ->
  exists start, outcome (until_estimator msg s) = Normal start.
Proof.
  intros H. unfold until_estimator.
  destruct (profiling_now_run s) as (start & w & Hp).
  rewrite (bind_run _ _ _ _ _ _ Hp).
  rewrite (bind_run _ _ _ _ _ _ (sequence_guard_run msg _)).
  rewrite (bind_run _ _ _ _ _ _ (classify_density_run msg _)).
  erewrite bind_run; [|apply odometry_integration_off; exact H].
  exists start. reflexivity.
Qed.

(** The bootstrap path: a scan that reaches the estimator block with the
    flag set, or whose estimate fails to update, is inserted directly. *)
Lemma bootstrap_path msg s start :
  outcome (until_estimator msg s) = Normal start ->
  let o := self (after (until_estimator msg s)) in
  let filtered := Filter (filter_ o) msg (b_is_open_space_ o) in
  let estimate := UpdateEstimate (SetLidar (odometry_ o) (snd filtered)) in
  b_add_first_scan_to_key_ o || negb (snd estimate) = true ->
  b_run_with_gt_point_cloud_ (params o) = false ->
  let stamp := fromPCL (header_stamp msg) in
  let fixed := TransformPointsToFixedFrame (localization_ o) msg in
  let r := LidarCallback msg s in
  outcome r = Returned tt
  /\ List.filter is_map_or_pose_call (emitted r) =
     [Call_TransformPointsToFixedFrame msg;
      Call_InsertPoints (snd fixed);
      Call_UpdateTimestamp stamp;
      Call_PublishPoseNoUpdate]
  /\ b_add_first_scan_to_key_ (self (after r)) = false
  /\ last_keyframe_pose_ (self (after r)) =
     GetIntegratedEstimate (localization_ (self (after r)))
  /\ localization_ (self (after r)) =
     PublishPoseNoUpdate (UpdateTimestamp (fst fixed) stamp)
  /\ counter_ (self (after r)) = counter_ o
  /\ mapper_ (self (after r)) = fst (InsertPoints (mapper_ o) (snd fixed)).
Proof.
  intros Hout o filtered estimate Hflag Hgt stamp fixed r. subst r.
  rewrite LidarCallback_from_estimator.
  rewrite (bind_Normal _ _ _ _ Hout).
  destruct (until_estimator_keeps msg (self s) s) as [_ Hquiet].
  { repeat split; reflexivity. }
  destruct (scan_to_scan_run msg (after (until_estimator msg s)))
    as (w' & l & Hs & Hl).
  cbv zeta in Hs. fold o in Hs. fold filtered in Hs. fold estimate in Hs.
  rewrite (bind_run _ _ _ _ _ _ Hs). clear Hs.
  erewrite bind_run_Returned.
  2:{ apply bootstrap_taken.
      - cbn [self]. clear - Hflag.
        destruct (snd estimate); destruct (level _ =? 0); simpl in *;
          try reflexivity; rewrite Bool.orb_false_r in Hflag; exact Hflag.
      - cbn [self]. clear - Hgt.
        destruct (snd estimate); destruct (level _ =? 0); exact Hgt. }
  cbn [outcome after emitted self].
  split; [reflexivity|].
  split.
  { rewrite !List.filter_app, Hquiet.
    assert (Hl' : List.filter is_map_or_pose_call l = [])
      by (destruct Hl as [->|[x ->]]; reflexivity).
    rewrite Hl'. clear.
    destruct (snd estimate); destruct (level _ =? 0); reflexivity. }
  clear. repeat split;
    destruct (snd estimate); destruct (level _ =? 0); reflexivity.
Qed.

Lemma filter_sub (p q : Event -> bool) (l : list Event) :
  (forall e, p e = true -> q e = true) ->
  List.filter q l = [] -> List.filter p l = [].
Proof.
  intros Hpq. induction l as [|e l IH]; simpl; [reflexivity|].
  destruct (q e) eqn:Hq; [discriminate|]. intros H.
  destruct (p e) eqn:Hp; [rewrite (Hpq e Hp) in Hq; discriminate|].
  apply IH. exact H.
Qed.

(** A scan that reaches the keyframe decision has not inserted anything,
    has not published the map, and has left the keyframe pose, the counter
    and the parameters as they were. *)
Lemma before_keyframe_decision_keeps msg k c pr :
  keeps_if_normal
    (fun o => last_keyframe_pose_ o = k /\ counter_ o = c /\ params o = pr)
    (fun e => is_InsertPoints e || is_PublishMap e)
    (before_keyframe_decision msg).
Proof.
  unfold before_keyframe_decision.
  repeat lazymatch goal with
         | |- keeps_if_normal _ _ (bind _ _) =>
             apply keeps_if_normal_bind; [|intros ?]
         | |- keeps_if_normal _ _ (let _ := _ in _) => cbv zeta
         | |- keeps_if_normal _ _ (bootstrap _ _) => unfold bootstrap
         | |- keeps_if_normal _ _ (when _ _) =>
             apply keeps_if_normal_when, never_normal_keeps;
             repeat (apply never_normal_bind; intros ?);
             apply never_normal_return
         | |- keeps_if_normal _ _ _ => apply keeps_weaken; keeps_auto
         end.
Qed.

Lemma publish_outputs_quiet msg start d1 d2 s :
  self (after (publish_outputs msg start d1 d2 s)) = self s
  /\ outcome (publish_outputs msg start d1 d2 s) = Normal tt
  /\ List.filter (fun e => is_map_or_pose_call e || is_estimator_call e
                           || is_scan_dropped e)
                 (emitted (publish_outputs msg start d1 d2 s)) = [].
Proof.
  assert (Hk : keeps (fun o => o = self s)
                     (fun e => is_map_or_pose_call e || is_estimator_call e
                               || is_scan_dropped e)
                     (publish_outputs msg start d1 d2)) by keeps_auto.
  destruct (Hk s eq_refl) as [H1 H2]. split; [exact H1|]. split; [|exact H2].
  assert (Hn : always_normal (publish_outputs msg start d1 d2)) by normal_auto.
  destruct (Hn s) as [[] Ha]. exact Ha.
Qed.

(** The callback on a scan that reaches the keyframe decision. *)
Lemma steady_result msg s l :
  outcome (before_keyframe_decision msg s) = Normal l ->
  let s1 := after (before_keyframe_decision msg s) in
  let current := GetIntegratedEstimate (localization_ (self s1)) in
  let delta :=
      ToGtsam_value (PoseDelta (last_keyframe_pose_ (self s1)) current) in
  exists said tail,
    List.filter (fun e => is_map_or_pose_call e || is_estimator_call e
                          || is_scan_dropped e) (said ++ tail) = []
    /\ outcome (LidarCallback msg s) = Normal tt
    /\ if exceeds_threshold (params (self s1)) delta
       then emitted (LidarCallback msg s) =
              (emitted (before_keyframe_decision msg s)
               ++ said ++ emitted (insert_keyframe msg current s1) ++ tail)%list
            /\ self (after (LidarCallback msg s)) =
               self (after (insert_keyframe msg current s1))
       else emitted (LidarCallback msg s) =
              (emitted (before_keyframe_decision msg s) ++ said ++ tail)%list
            /\ self (after (LidarCallback msg s)) = self s1.
Proof.
  intros Hout s1 current delta.
  rewrite LidarCallback_split. rewrite (bind_Normal _ _ _ _ Hout). fold s1.
  pose proof (keyframe_decision_run msg s1) as Hk. cbv zeta in Hk.
  fold current in Hk. fold delta in Hk.
  exists (if b_verbose_ (params (self s1))
          then [Log INFO "SpotFrontend - ToGtsam"] else []).
  destruct (exceeds_threshold (params (self s1)) delta).
  - rewrite (bind_run _ _ _ _ _ _ Hk).
    match goal with
    | |- context [emitted (publish_outputs ?a ?b ?c ?d ?s2)] =>
        destruct (publish_outputs_quiet a b c d s2) as (Hp1 & Hp2 & Hp3);
          exists (emitted (publish_outputs a b c d s2))
    end.
    cbn [outcome after emitted]. rewrite Hp1, Hp2.
    split; [|split; [reflexivity|split; [|reflexivity]]].
    + rewrite List.filter_app, Hp3.
      destruct (b_verbose_ (params (self s1))); reflexivity.
    + rewrite <- !List.app_assoc. reflexivity.
  - rewrite (bind_run _ _ _ _ _ _ Hk).
    match goal with
    | |- context [emitted (publish_outputs ?a ?b ?c ?d ?s2)] =>
        destruct (publish_outputs_quiet a b c d s2) as (Hp1 & Hp2 & Hp3);
          exists (emitted (publish_outputs a b c d s2))
    end.
    cbn [outcome after emitted]. rewrite Hp1, Hp2.
    split; [|split; [reflexivity|split; reflexivity]].
    rewrite List.filter_app, Hp3.
    destruct (b_verbose_ (params (self s1))); reflexivity.
Qed.

(** The keyframe sub-decision of a scan that reaches it, in terms of the
    state before the callback. *)
Lemma keyframe_decision_outcome msg s l :
  outcome (before_keyframe_decision msg s) = Normal l ->
  let o1 := self (after (before_keyframe_decision msg s)) in
  let current := GetIntegratedEstimate (localization_ o1) in
  let delta :=
      ToGtsam_value (PoseDelta (last_keyframe_pose_ (self s)) current) in
  let raw_fixed :=
      snd (TransformPointsToFixedFrame
             (MotionUpdate (localization_ o1) Transform3_Identity) msg) in
  let c := int32 (counter_ (self s) + 1) in
  let r := LidarCallback msg s in
  params (self (after r)) = params (self s)
  /\ existsb is_MeasurementUpdate (emitted r)
     = existsb is_MeasurementUpdate (emitted (before_keyframe_decision msg s))
  /\ if exceeds_threshold (params (self s)) delta
     then count is_InsertPoints (emitted r) = 1%nat
          /\ In (Call_InsertPoints raw_fixed) (emitted r)
          /\ last_keyframe_pose_ (self (after r)) = current
          /\ counter_ (self (after r)) =
             (if b_publish_map_ (params (self s))
              then if c =? map_publishment_meters_ (params (self s))
                   then 0 else c
              else counter_ (self s))
          /\ count is_PublishMap (emitted r) =
             (if b_publish_map_ (params (self s))
                 && (c =? map_publishment_meters_ (params (self s)))
              then 1%nat else 0%nat)
     else count is_InsertPoints (emitted r) = 0%nat
          /\ last_keyframe_pose_ (self (after r))
             = last_keyframe_pose_ (self s)
          /\ counter_ (self (after r)) = counter_ (self s)
          /\ count is_PublishMap (emitted r) = 0%nat.
Proof.
  intros Hout o1 current delta raw_fixed c r. subst r.
  destruct (before_keyframe_decision_keeps msg _ _ _ s l
              (conj eq_refl (conj eq_refl eq_refl)) Hout)
    as ((Hk & Hc & Hp) & Hq).
  fold o1 in Hk, Hc, Hp.
  destruct (steady_result msg s l Hout) as (said & tail & Hst & _ & Hres).
  cbv zeta in Hres. fold o1 in Hres. fold current in Hres.
  rewrite Hk, Hp in Hres. fold delta in Hres.
  assert (Hst' : forall p,
             (forall e, p e = true ->
                        is_map_or_pose_call e || is_estimator_call e
                        || is_scan_dropped e = true) ->
             List.filter p said = [] /\ List.filter p tail = []).
  { intros p Hp'. pose proof (filter_sub p _ _ Hp' Hst) as H.
    rewrite List.filter_app in H. apply List.app_eq_nil in H. exact H. }
  destruct (Hst' is_InsertPoints) as [Hi1 Hi2];
    [intros e He; destruct e; try discriminate; reflexivity|].
  destruct (Hst' is_PublishMap) as [Hm1 Hm2];
    [intros e He; destruct e; try discriminate; reflexivity|].
  destruct (Hst' is_MeasurementUpdate) as [Hu1 Hu2];
    [intros e He; destruct e; try discriminate; reflexivity|].
  assert (HqI : List.filter is_InsertPoints
                  (emitted (before_keyframe_decision msg s)) = [])
    by (apply (filter_sub _ _ _ (fun e H => Bool.orb_true_intro _ _ (or_introl H)) Hq)).
  assert (HqM : List.filter is_PublishMap
                  (emitted (before_keyframe_decision msg s)) = [])
    by (apply (filter_sub _ _ _ (fun e H => Bool.orb_true_intro _ _ (or_intror H)) Hq)).
  destruct (insert_keyframe_run msg current
              (after (before_keyframe_decision msg s)))
    as (o' & Hins & Hic & Hik & Hip & _).
  cbv zeta in Hins, Hic. fold o1 in Hins, Hic. rewrite Hc, Hp in Hic.
  rewrite Hp in Hins. rewrite Hc in Hins. fold c in Hins, Hic.
  destruct (exceeds_threshold (params (self s)) delta).
  - destruct Hres as [He Ha]. rewrite Hins in He, Ha.
    cbn [emitted after self] in He, Ha.
    rewrite Ha, He. split; [rewrite Hip; exact Hp|].
    split.
    { rewrite !List.existsb_app, (existsb_silent _ _ Hu1),
        (existsb_silent _ _ Hu2).
      destruct (b_verbose_ (params (self s)));
        destruct (b_publish_map_ (params (self s)) && _); simpl;
        rewrite ?Bool.orb_false_r; reflexivity. }
    split.
    { rewrite !count_app, (count_silent _ _ HqI), (count_silent _ _ Hi1),
        (count_silent _ _ Hi2).
      destruct (b_verbose_ (params (self s)));
        destruct (b_publish_map_ (params (self s)) && _); reflexivity. }
    split.
    { apply List.in_or_app. right. apply List.in_or_app. right.
      apply List.in_or_app. left. apply List.in_or_app. right.
      apply List.in_or_app. left. simpl. auto. }
    split; [exact Hik|]. split; [exact Hic|].
    rewrite !count_app, (count_silent _ _ HqM), (count_silent _ _ Hm1),
      (count_silent _ _ Hm2).
    destruct (b_verbose_ (params (self s)));
      destruct (b_publish_map_ (params (self s)) && _); reflexivity.
  - destruct Hres as [He Ha]. rewrite Ha, He.
    split; [exact Hp|].
    split.
    { rewrite !List.existsb_app, (existsb_silent _ _ Hu1),
        (existsb_silent _ _ Hu2), !Bool.orb_false_r. reflexivity. }
    split.
    { rewrite !count_app, (count_silent _ _ HqI), (count_silent _ _ Hi1),
        (count_silent _ _ Hi2). reflexivity. }
    split; [exact Hk|]. split; [exact Hc|].
    rewrite !count_app, (count_silent _ _ HqM), (count_silent _ _ Hm1),
      (count_silent _ _ Hm2). reflexivity.
Qed.

(** What the keyframe sub-decision leaves in the localizer and in the
    mapper. *)
Lemma keyframe_decision_state msg s l :
  outcome (before_keyframe_decision msg s) = Normal l ->
  let o1 := self (after (before_keyframe_decision msg s)) in
  let current := GetIntegratedEstimate (localization_ o1) in
  let delta :=
      ToGtsam_value (PoseDelta (last_keyframe_pose_ (self s)) current) in
  let fixed :=
      TransformPointsToFixedFrame
        (MotionUpdate (localization_ o1) Transform3_Identity) msg in
  let inserted := InsertPoints (mapper_ o1) (snd fixed) in
  let c := int32 (counter_ (self s) + 1) in
  let r := LidarCallback msg s in
  if exceeds_threshold (params (self s)) delta
  then localization_ (self (after r)) = fst fixed
       /\ mapper_ (self (after r)) =
          (if b_publish_map_ (params (self s))
              && (c =? map_publishment_meters_ (params (self s)))
           then PublishMap (fst inserted) else fst inserted)
  else localization_ (self (after r)) = localization_ o1
       /\ mapper_ (self (after r)) = mapper_ o1.
Proof.
  intros Hout o1 current delta fixed inserted c r. subst r.
  destruct (before_keyframe_decision_keeps msg _ _ _ s l
              (conj eq_refl (conj eq_refl eq_refl)) Hout)
    as ((Hk & Hc & Hp) & _).
  fold o1 in Hk, Hc, Hp.
  destruct (steady_result msg s l Hout) as (said & tail & _ & _ & Hres).
  cbv zeta in Hres. fold o1 in Hres. fold current in Hres.
  rewrite Hk, Hp in Hres. fold delta in Hres.
  pose proof (insert_keyframe_state msg current
                (after (before_keyframe_decision msg s))) as Hst.
  cbv zeta in Hst. fold o1 in Hst. fold fixed in Hst. fold inserted in Hst.
  rewrite Hc, Hp in Hst. fold c in Hst.
  destruct (exceeds_threshold (params (self s)) delta).
  - destruct Hres as [_ Ha]. rewrite Ha. exact Hst.
  - destruct Hres as [_ Ha]. rewrite Ha. split; reflexivity.
Qed.

(** C1.  For a scan processed in the steady state, the raw scan is inserted
    into the map (one [InsertPoints] call, on the mapper the scan found,
    with the scan transformed to the fixed frame) and the last keyframe
    pose becomes the current integrated estimate if and only if, for
    delta = PoseDelta(last keyframe pose, current integrated estimate), the
    norm of delta's translation is greater than the translation threshold
    or |2 acos(w)| of the quaternion of delta's rotation is greater than the
    rotation threshold.  Either one suffices.  Without them nothing is
    inserted: the mapper, the localizer and the keyframe pose stay. *)
Theorem keyframe_inserted_iff_threshold_exceeded msg s l :
  outcome (before_keyframe_decision msg s) = Normal l ->
  let o1 := self (after (before_keyframe_decision msg s)) in
  let current := GetIntegratedEstimate (localization_ o1) in
  let delta := PoseDelta (last_keyframe_pose_ (self s)) current in
  let translation_norm :=
      norm (mkGtsamVector3 (translation delta 0) (translation delta 1)
                           (translation delta 2)) in
  let rotation_w :=
      toQuaternion_w
        (Rot3_of (rotation delta 0 0) (rotation delta 0 1) (rotation delta 0 2)
                 (rotation delta 1 0) (rotation delta 1 1) (rotation delta 1 2)
                 (rotation delta 2 0) (rotation delta 2 1) (rotation delta 2 2))
  in
  let translation_exceeded :=
      dgt translation_norm (translation_threshold_kf_ (params (self s)))
      = true in
  let rotation_exceeded :=
      dgt (fabs (dmul (d_of_Z 2) (acos rotation_w)))
          (rotation_threshold_kf_ (params (self s))) = true in
  let fixed :=
      TransformPointsToFixedFrame
        (MotionUpdate (localization_ o1) Transform3_Identity) msg in
  let inserted := InsertPoints (mapper_ o1) (snd fixed) in
  let c := int32 (counter_ (self s) + 1) in
  let r := LidarCallback msg s in
  (count is_InsertPoints (emitted r) = 1%nat
   <-> translation_exceeded \/ rotation_exceeded)
  /\ (count is_InsertPoints (emitted r) = 0%nat
      <-> ~ (translation_exceeded \/ rotation_exceeded))
  /\ (translation_exceeded \/ rotation_exceeded ->
      In (Call_InsertPoints (snd fixed)) (emitted r)
      /\ last_keyframe_pose_ (self (after r)) = current)
  /\ (~ (translation_exceeded \/ rotation_exceeded) ->
      last_keyframe_pose_ (self (after r)) = last_keyframe_pose_ (self s))
  /\ (translation_exceeded -> count is_InsertPoints (emitted r) = 1%nat)
  /\ (rotation_exceeded -> count is_InsertPoints (emitted r) = 1%nat)
  /\ (translation_exceeded \/ rotation_exceeded ->
      localization_ (self (after r)) = fst fixed
      /\ mapper_ (self (after r)) =
         (if b_publish_map_ (params (self s))
             && (c =? map_publishment_meters_ (params (self s)))
          then PublishMap (fst inserted) else fst inserted))
  /\ (~ (translation_exceeded \/ rotation_exceeded) ->
      localization_ (self (after r)) = localization_ o1
      /\ mapper_ (self (after r)) = mapper_ o1).
Proof.
  intros Hout o1 current delta translation_norm rotation_w
         translation_exceeded rotation_exceeded fixed inserted c r.
  pose proof (keyframe_decision_outcome msg s l Hout) as (_ & _ & H).
  pose proof (keyframe_decision_state msg s l Hout) as Hs.
  cbv zeta in H, Hs. fold o1 in H, Hs. fold current in H, Hs.
  fold delta in H, Hs. fold fixed in H, Hs. fold inserted in Hs.
  fold c in Hs. fold r in H, Hs.
  assert (Hx : exceeds_threshold (params (self s)) (ToGtsam_value delta) = true
               <-> translation_exceeded \/ rotation_exceeded)
    by (unfold exceeds_threshold; apply Bool.orb_true_iff).
  destruct (exceeds_threshold (params (self s)) (ToGtsam_value delta)).
  - destruct H as (Hc & Hi & Hk & _).
    assert (Ht : translation_exceeded \/ rotation_exceeded)
      by (apply Hx; reflexivity).
    rewrite Hc.
    split; [|split; [|split; [|split; [|split; [|split; [|split]]]]]].
    + split; intros _; [exact Ht|reflexivity].
    + split; [discriminate|]. intros Hn. destruct (Hn Ht).
    + intros _. split; assumption.
    + intros Hn. destruct (Hn Ht).
    + intros _. reflexivity.
    + intros _. reflexivity.
    + intros _. exact Hs.
    + intros Hn. destruct (Hn Ht).
  - destruct H as (Hc & Hk & _).
    assert (Ht : ~ (translation_exceeded \/ rotation_exceeded))
      by (intros Ht; apply Hx in Ht; discriminate).
    rewrite Hc.
    split; [|split; [|split; [|split; [|split; [|split; [|split]]]]]].
    + split; [discriminate|]. intros Hn. destruct (Ht Hn).
    + split; intros _; [exact Ht|reflexivity].
    + intros Hn. destruct (Ht Hn).
    + intros _. exact Hk.
    + intros Hn. destruct (Ht (or_introl Hn)).
    + intros Hn. destruct (Ht (or_intror Hn)).
    + intros Hn. destruct (Ht Hn).
    + intros _. exact Hs.
Qed.

(** C6.  For a scan processed in the steady state with neither threshold
    exceeded, no map insertion occurs, and the last keyframe pose and the
    publication counter are what they were before the scan (nor is the map
    published). *)
Theorem no_insertion_below_thresholds msg s l :
  outcome (before_keyframe_decision msg s) = Normal l ->
  let o1 := self (after (before_keyframe_decision msg s)) in
  let current := GetIntegratedEstimate (localization_ o1) in
  let delta :=
      ToGtsam_value (PoseDelta (last_keyframe_pose_ (self s)) current) in
  dgt (norm (pose_translation delta))
      (translation_threshold_kf_ (params (self s))) = false ->
  dgt (fabs (dmul (d_of_Z 2) (acos (toQuaternion_w (pose_rotation delta)))))
      (rotation_threshold_kf_ (params (self s))) = false ->
  let r := LidarCallback msg s in
  count is_InsertPoints (emitted r) = 0%nat
  /\ last_keyframe_pose_ (self (after r)) = last_keyframe_pose_ (self s)
  /\ counter_ (self (after r)) = counter_ (self s)
  /\ count is_PublishMap (emitted r) = 0%nat.
Proof.
  intros Hout o1 current delta Ht Hr r.
  pose proof (keyframe_decision_outcome msg s l Hout) as (_ & _ & H).
  cbv zeta in H. fold o1 in H. fold current in H. fold delta in H.
  fold r in H.
  assert (Hx : exceeds_threshold (params (self s)) delta = false)
    by (unfold exceeds_threshold; rewrite Ht, Hr; reflexivity).
  rewrite Hx in H. exact H.
Qed.
End Keyframes.


(** ** The map-publication counter *)
Section MapPublication.
Context {D : Double} {R : RosTypes} {E : Externals}.

Lemma bind_Normal_inv {Ret A B} (m : M Ret A) (k : A -> M Ret B) s b :
  outcome (bind m k s) = Normal b ->
  exists a, outcome (m s) = Normal a
            /\ outcome (k a (after (m s))) = Normal b
            /\ emitted (bind m k s)
               = (emitted (m s) ++ emitted (k a (after (m s))))%list.
Proof.
  unfold bind. destruct (m s) as [[a|v|e] s1 l1]; simpl; try discriminate.
  destruct (k a s1) as [c s2 l2] eqn:Hk. simpl. intros ->.
  exists a. rewrite Hk. repeat split; reflexivity.
Qed.

Lemma bind_abnormal {Ret A B} (m : M Ret A) (k : A -> M Ret B) s :
  (forall a, outcome (m s) <> Normal a) ->
  after (bind m k s) = after (m s)
  /\ emitted (bind m k s) = emitted (m s)
  /\ (forall b, outcome (bind m k s) <> Normal b).
Proof.
  unfold bind. destruct (m s) as [[a|v|e] s1 l1]; simpl; intros H.
  - destruct (H a eq_refl).
  - repeat split; auto. discriminate.
  - repeat split; auto. discriminate.
Qed.

(** A scan that reaches the keyframe decision has had its measurement
    update; a scan that does not has had none. *)
Lemma before_normal_measured msg s l :
  outcome (before_keyframe_decision msg s) = Normal l ->
  existsb is_MeasurementUpdate (emitted (before_keyframe_decision msg s))
  = true.
Proof.
  rewrite before_from_estimator. intros H.
  apply bind_Normal_inv in H. destruct H as (start & _ & H & ->).
  apply bind_Normal_inv in H. destruct H as (d1 & _ & H & ->).
  apply bind_Normal_inv in H. destruct H as (u & _ & H & ->).
  apply bind_Normal_inv in H. destruct H as (d2 & _ & _ & ->).
  match goal with
  | |- context [emitted (scan_to_submap msg ?s6)] =>
      destruct (scan_to_submap_run msg s6) as (s7 & l7 & -> & _)
  end.
  rewrite !List.existsb_app. simpl. rewrite !Bool.orb_true_r. reflexivity.
Qed.

Lemma before_abnormal_unmeasured msg :
  silent_unless_normal is_MeasurementUpdate (before_keyframe_decision msg).
Proof.
  unfold before_keyframe_decision.
  repeat lazymatch goal with
         | |- silent_unless_normal _ (bind (scan_to_submap _) _) =>
             apply silent_unless_normal_always; normal_auto
         | |- silent_unless_normal _ (bind _ _) =>
             apply silent_unless_normal_bind; [keeps_auto|intros ?]
         | |- silent_unless_normal _ (let _ := _ in _) => cbv zeta
         end.
Qed.

Lemma before_keeps_counter msg c pr :
  keeps (fun o => counter_ o = c /\ params o = pr) is_PublishMap
        (before_keyframe_decision msg).
Proof. keeps_auto. Qed.

Lemma existsb_count (p : Event -> bool) (l : list Event) :
  existsb p l = negb (Nat.eqb (count p l) 0).
Proof.
  unfold count. induction l as [|e l IH]; simpl; [reflexivity|].
  destruct (p e); simpl; [reflexivity|exact IH].
Qed.

(** One callback: the counter moves only when a keyframe is inserted. *)
Lemma LidarCallback_counter msg s :
  let r := LidarCallback msg s in
  let c := int32 (counter_ (self s) + 1) in
  params (self (after r)) = params (self s)
  /\ if inserted_keyframe (emitted r)
     then counter_ (self (after r)) =
            (if b_publish_map_ (params (self s))
             then if c =? map_publishment_meters_ (params (self s))
                  then 0 else c
             else counter_ (self s))
          /\ count is_PublishMap (emitted r) =
             (if b_publish_map_ (params (self s))
                 && (c =? map_publishment_meters_ (params (self s)))
              then 1%nat else 0%nat)
          /\ outcome r = Normal tt
     else counter_ (self (after r)) = counter_ (self s)
          /\ count is_PublishMap (emitted r) = 0%nat.
Proof.
  intros r c. subst r.
  destruct (outcome (before_keyframe_decision msg s)) as [l|v|e] eqn:Hout.
  - pose proof (keyframe_decision_outcome msg s l Hout) as (Hp & Hm & H).
    cbv zeta in H. fold c in H.
    destruct (steady_result msg s l Hout) as (_ & _ & _ & Hn & _).
    split; [exact Hp|]. unfold inserted_keyframe.
    rewrite Hm, (before_normal_measured msg s l Hout), Bool.andb_true_r.
    rewrite existsb_count.
    destruct (exceeds_threshold _ _).
    + destruct H as (Hc & _ & _ & Hk & Hpub). rewrite Hc. simpl.
      split; [exact Hk|]. split; [exact Hpub|exact Hn].
    + destruct H as (Hc & _ & Hk & Hpub). rewrite Hc. simpl.
      split; assumption.
  - assert (Hab : forall a, outcome (before_keyframe_decision msg s) <> Normal a)
      by (intros a; rewrite Hout; discriminate).
    rewrite LidarCallback_split.
    destruct (bind_abnormal _
                (fun l => keyframe_decision msg ;;
                          publish_outputs msg (lidar_callback_start l)
                                          (diagnostics_odometry l)
                                          (diagnostics_localization l))
                s Hab) as (Ha & He & _).
    rewrite Ha, He.
    destruct (before_keeps_counter msg _ _ s (conj eq_refl eq_refl))
      as [[Hc Hp] Hq].
    destruct (before_abnormal_unmeasured msg s) as [[a Hn]|Hs];
      [destruct (Hab a Hn)|].
    split; [exact Hp|]. unfold inserted_keyframe.
    rewrite (existsb_silent _ _ Hs), Bool.andb_false_r.
    split; [exact Hc|apply count_silent; exact Hq].
  - assert (Hab : forall a, outcome (before_keyframe_decision msg s) <> Normal a)
      by (intros a; rewrite Hout; discriminate).
    rewrite LidarCallback_split.
    destruct (bind_abnormal _
                (fun l => keyframe_decision msg ;;
                          publish_outputs msg (lidar_callback_start l)
                                          (diagnostics_odometry l)
                                          (diagnostics_localization l))
                s Hab) as (Ha & He & _).
    rewrite Ha, He.
    destruct (before_keeps_counter msg _ _ s (conj eq_refl eq_refl))
      as [[Hc Hp] Hq].
    destruct (before_abnormal_unmeasured msg s) as [[a Hn]|Hs];
      [destruct (Hab a Hn)|].
    split; [exact Hp|]. unfold inserted_keyframe.
    rewrite (existsb_silent _ _ Hs), Bool.andb_false_r.
    split; [exact Hc|apply count_silent; exact Hq].
Qed.

Lemma call_void_result (body : M unit unit) s :
  after (call_void (Ret:=unit) body s) = after (body s)
  /\ emitted (call_void (Ret:=unit) body s) = emitted (body s)
  /\ (outcome (body s) = Normal tt ->
      outcome (call_void (Ret:=unit) body s) = Normal tt).
Proof.
  unfold call_void. destruct (body s) as [[a|v|e] s1 l1]; simpl;
    repeat split; auto; discriminate.
Qed.

Lemma deliver_counter i s :
  let r := deliver i s in
  let c := int32 (counter_ (self s) + 1) in
  params (self (after r)) = params (self s)
  /\ if inserted_keyframe (emitted r)
     then counter_ (self (after r)) =
            (if b_publish_map_ (params (self s))
             then if c =? map_publishment_meters_ (params (self s))
                  then 0 else c
             else counter_ (self s))
          /\ count is_PublishMap (emitted r) =
             (if b_publish_map_ (params (self s))
                 && (c =? map_publishment_meters_ (params (self s)))
              then 1%nat else 0%nat)
          /\ outcome r = Normal tt
     else counter_ (self (after r)) = counter_ (self s)
          /\ count is_PublishMap (emitted r) = 0%nat.
Proof.
  intros r c. subst r. destruct i as [msg|msg|data];
    [rewrite deliver_scan_run; destruct (reaches_callback msg s)
    |simpl deliver|simpl deliver].
  - destruct (call_void_result (LidarCallback msg) s) as (Ha & He & Ho).
    rewrite Ha, He. pose proof (LidarCallback_counter msg s) as [Hp H].
    split; [exact Hp|]. fold c in H.
    destruct (inserted_keyframe (emitted (LidarCallback msg s))).
    + destruct H as (H1 & H2 & H3). auto.
    + exact H.
  - cbn. repeat split; reflexivity.
  - assert (Hk : keeps (fun o => counter_ o = counter_ (self s)
                                 /\ params o = params (self s))
                       (fun e => is_PublishMap e || is_InsertPoints e)
                       (call_void (Ret:=unit) (OdometryCallback msg)))
      by keeps_auto.
    destruct (Hk s (conj eq_refl eq_refl)) as [[Hc Hp] Hq].
    split; [exact Hp|]. unfold inserted_keyframe.
    rewrite (existsb_silent is_InsertPoints).
    + simpl. split; [exact Hc|]. apply count_silent.
      apply (filter_sub _ _ _ (fun e H => Bool.orb_true_intro _ _ (or_introl H)) Hq).
    + apply (filter_sub _ _ _ (fun e H => Bool.orb_true_intro _ _ (or_intror H)) Hq).
  - assert (Hk : keeps (fun o => counter_ o = counter_ (self s)
                                 /\ params o = params (self s))
                       (fun e => is_PublishMap e || is_InsertPoints e)
                       (call_void (Ret:=unit)
                                  (FlatGroundAssumptionCallback data)))
      by keeps_auto.
    destruct (Hk s (conj eq_refl eq_refl)) as [[Hc Hp] Hq].
    split; [exact Hp|]. unfold inserted_keyframe.
    rewrite (existsb_silent is_InsertPoints).
    + simpl. split; [exact Hc|]. apply count_silent.
      apply (filter_sub _ _ _ (fun e H => Bool.orb_true_intro _ _ (or_introl H)) Hq).
    + apply (filter_sub _ _ _ (fun e H => Bool.orb_true_intro _ _ (or_intror H)) Hq).
Qed.

Lemma counter_step m c :
  1 <= m < 2 ^ 31 -> 0 <= c < m ->
  int32 (c + 1) = c + 1
  /\ (if c + 1 =? m then 0 else c + 1) = (c + 1) mod m
  /\ (if c + 1 =? m then 1 else 0) = (c + 1) / m.
Proof.
  intros Hm Hc. split.
  - unfold int32. change (2 ^ 31) with 2147483648 in *.
    change (2 ^ 32) with 4294967296.
    rewrite Z.mod_small by lia. lia.
  - destruct (Z.eqb_spec (c + 1) m) as [->|Hne].
    + rewrite Z.mod_same, Z.div_same by lia. split; reflexivity.
    + rewrite Z.mod_small, Z.div_small by lia. split; reflexivity.
Qed.

(** Over a whole run with map publication enabled: the counter is the
    number of keyframe insertions modulo the threshold, and the map has
    been published once per full count. *)
Lemma spin_counter inputs : forall s m c,
  b_publish_map_ (params (self s)) = true ->
  map_publishment_meters_ (params (self s)) = m ->
  1 <= m < 2 ^ 31 ->
  counter_ (self s) = c -> 0 <= c < m ->
  let r := spin inputs s in
  let inserted := Z.of_nat (keyframes_inserted inputs s) in
  counter_ (self (after r)) = (c + inserted) mod m
  /\ Z.of_nat (count is_PublishMap (emitted r)) = (c + inserted) / m.
Proof.
  induction inputs as [|i rest IH]; intros s m c Hpub Hm Hrange Hc Hcr.
  - simpl. rewrite Z.add_0_r, Z.mod_small, Z.div_small by lia.
    split; [exact Hc|reflexivity].
  - cbn [spin keyframes_inserted]. cbv zeta.
    pose proof (deliver_counter i s) as [Hp Hd]. cbv zeta in Hd.
    rewrite Hpub, Hm, Hc in Hd.
    destruct (counter_step m c Hrange Hcr) as (Hw & Hmod & Hdiv).
    rewrite Hw in Hd. simpl andb in Hd.
    assert (Hstep :
              exists c1 k1 : Z,
                counter_ (self (after (deliver i s))) = c1
                /\ Z.of_nat (count is_PublishMap (emitted (deliver i s)))
                   = (c + k1) / m
                /\ c1 = (c + k1) mod m
                /\ k1 = Z.of_nat
                          (if inserted_keyframe (emitted (deliver i s))
                           then 1 else 0)
                /\ (k1 = 1 -> outcome (deliver i s) = Normal tt)).
    { destruct (inserted_keyframe (emitted (deliver i s))).
      - destruct Hd as (H1 & H2 & H3). exists ((c + 1) mod m), 1.
        rewrite H1, H2, <- Hmod, <- Hdiv.
        repeat split; auto. destruct (c + 1 =? m); reflexivity.
      - destruct Hd as (H1 & H2). exists c, 0.
        rewrite H1, H2, Z.add_0_r, Z.mod_small, Z.div_small by lia.
        repeat split; auto. discriminate. }
    destruct Hstep as (c1 & k1 & Hc1 & Hp1 & Hc1' & Hk1 & Hn1).
    rewrite Nat2Z.inj_add, <- Hk1.
    assert (Hc1r : 0 <= c1 < m) by (rewrite Hc1'; apply Z.mod_pos_bound; lia).
    destruct (outcome (deliver i s)) as [[]|v|e] eqn:Ho.
    + rewrite (bind_Normal _ _ _ _ Ho). cbn [after emitted].
      specialize (IH (after (deliver i s)) m c1).
      rewrite Hp in IH. specialize (IH Hpub Hm Hrange Hc1 Hc1r).
      cbv zeta in IH. destruct IH as [IHc IHp].
      rewrite IHc, count_app, Nat2Z.inj_add, Hp1, IHp.
      set (k2 := Z.of_nat (keyframes_inserted rest (after (deliver i s)))).
      rewrite Hc1'. split.
      * rewrite Z.add_mod_idemp_l by lia. f_equal. lia.
      * pose proof (Z.div_mod (c + k1) m ltac:(lia)) as Hdm.
        replace (c + (k1 + k2)) with (k2 + (c + k1)) by lia.
        rewrite Hdm at 3.
        replace (k2 + (m * ((c + k1) / m) + (c + k1) mod m))
          with (((c + k1) mod m + k2) + ((c + k1) / m) * m) by lia.
        rewrite Z.div_add by lia. lia.
    + assert (Hk0 : k1 = 0).
      { rewrite Hk1. destruct (inserted_keyframe _); [|reflexivity].
        specialize (Hn1 Hk1). discriminate. }
      rewrite (bind_Returned _ _ _ _ Ho). cbn [after emitted].
      rewrite Z.add_0_r, Hc1, Hp1, Hc1'. split; reflexivity.
    + assert (Hk0 : k1 = 0).
      { rewrite Hk1. destruct (inserted_keyframe _); [|reflexivity].
        specialize (Hn1 Hk1). discriminate. }
      rewrite (bind_Thrown _ _ _ _ Ho). cbn [after emitted].
      rewrite Z.add_0_r, Hc1, Hp1, Hc1'. split; reflexivity.
Qed.

(** C5, as the code has it: the counter runs only when map publication is
    enabled ([b_publish_map_]).  Then, starting from a zero counter, after
    any run the counter is the number of keyframe insertions modulo the
    threshold and the map has been published once per full count: with a
    threshold of 3, three insertions give exactly one [PublishMap] and a
    counter back at zero, a fourth starts the next cycle. *)
Theorem map_published_every_threshold_insertions inputs s m :
  b_publish_map_ (params (self s)) = true ->
  map_publishment_meters_ (params (self s)) = m ->
  1 <= m < 2 ^ 31 ->
  counter_ (self s) = 0 ->
  let r := spin inputs s in
  let inserted := Z.of_nat (keyframes_inserted inputs s) in
  let published := Z.of_nat (count is_PublishMap (emitted r)) in
  counter_ (self (after r)) = inserted mod m
  /\ published = inserted / m
  /\ (m = 3 -> inserted = 3 ->
      published = 1 /\ counter_ (self (after r)) = 0)
  /\ (m = 3 -> inserted = 4 ->
      published = 1 /\ counter_ (self (after r)) = 1).
Proof.
  intros Hpub Hm Hrange Hc r inserted published.
  destruct (spin_counter inputs s m 0 Hpub Hm Hrange Hc ltac:(lia))
    as [H1 H2].
  fold r in H1, H2. fold inserted in H1, H2. fold published in H2.
  rewrite Z.add_0_l in H1, H2.
  split; [exact H1|]. split; [exact H2|]. split.
  - intros -> Hi. rewrite H1, H2, Hi. split; reflexivity.
  - intros -> Hi. rewrite H1, H2, Hi. split; reflexivity.
Qed.
End MapPublication.

(** ** The bootstrap *)
Section Bootstrap.
Context {D : Double} {R : RosTypes} {E : Externals}.

(** A scan that reaches the estimator block with the flag clear (or in
    ground-truth mode) and whose estimate updates goes on to the keyframe
    decision. *)
Lemma steady_path msg s start :
  outcome (until_estimator msg s) = Normal start ->
  let o := self (after (until_estimator msg s)) in
  let filtered := Filter (filter_ o) msg (b_is_open_space_ o) in
  let estimate := UpdateEstimate (SetLidar (odometry_ o) (snd filtered)) in
  (b_add_first_scan_to_key_ o || negb (snd estimate))
  && negb (b_run_with_gt_point_cloud_ (params o)) = false ->
  exists l, outcome (before_keyframe_decision msg s) = Normal l.
Proof.
  intros Hout o filtered estimate Hc.
  rewrite before_from_estimator. rewrite (bind_Normal _ _ _ _ Hout).
  destruct (scan_to_scan_run msg (after (until_estimator msg s)))
    as (w' & l & Hs & Hl).
  cbv zeta in Hs. fold o in Hs. fold filtered in Hs. fold estimate in Hs.
  rewrite (bind_run _ _ _ _ _ _ Hs). clear Hs.
  erewrite bind_run.
  2:{ apply bootstrap_skipped. cbn [self]. clear - Hc.
      destruct (snd estimate); destruct (level _ =? 0); simpl in *;
        rewrite ?Bool.orb_false_r, ?Bool.orb_true_r in Hc; exact Hc. }
  match goal with
  | |- context [bind (scan_to_submap msg) ?k ?s5] =>
      destruct (scan_to_submap_run msg s5) as (s6 & l6 & Hm & _);
        cbv zeta in Hm; rewrite (bind_run _ _ _ _ _ _ Hm)
  end.
  eexists. reflexivity.
Qed.

Lemma Initialize_keeps_flag from_log :
  keeps (fun o => b_add_first_scan_to_key_ o = true
                  /\ b_odometry_has_been_received_ o = false)
        (fun _ => false)
        (call (Ret:=unit) (Initialize from_log)).
Proof. keeps_auto. Qed.

Lemma until_estimator_params msg s :
  KeyframeState (self (after (until_estimator msg s))) = KeyframeState (self s)
  /\ params (self (after (until_estimator msg s))) = params (self s)
  /\ localization_ (self (after (until_estimator msg s)))
     = localization_ (self s).
Proof.
  destruct (until_estimator_keeps msg (self s) s) as [(H1 & H2 & H3 & _) _].
  { repeat split; reflexivity. }
  repeat split; assumption.
Qed.

Lemma until_estimator_mapper msg s :
  mapper_ (self (after (until_estimator msg s))) = mapper_ (self s).
Proof.
  destruct (until_estimator_keeps msg (self s) s) as [(_ & _ & _ & H & _) _].
  { repeat split; reflexivity. }
  exact H.
Qed.

(** The four calls of the bootstrap include neither a motion update nor a
    measurement update. *)
Lemma bootstrap_calls_no_update (l : list Event) points fixed stamp :
  List.filter is_map_or_pose_call l =
  [Call_TransformPointsToFixedFrame points; Call_InsertPoints fixed;
   Call_UpdateTimestamp stamp; Call_PublishPoseNoUpdate] ->
  count is_MotionUpdate l = 0%nat /\ count is_MeasurementUpdate l = 0%nat.
Proof.
  intros H. split; apply count_silent.
  - assert (Hs : List.filter is_MotionUpdate
                   (List.filter is_map_or_pose_call l) = [])
      by (rewrite H; reflexivity).
    revert Hs. clear. induction l as [|e l IH]; simpl; auto.
    destruct e; simpl; auto; discriminate.
  - assert (Hs : List.filter is_MeasurementUpdate
                   (List.filter is_map_or_pose_call l) = [])
      by (rewrite H; reflexivity).
    revert Hs. clear. induction l as [|e l IH]; simpl; auto.
    destruct e; simpl; auto; discriminate.
Qed.

(** A scan that gets past the odometry block is filtered. *)
Lemma reaches_estimator_filters msg s start :
  outcome (until_estimator msg s) = Normal start ->
  existsb is_Filter (emitted (LidarCallback msg s)) = true.
Proof.
  intros Hout. rewrite LidarCallback_from_estimator.
  rewrite (bind_Normal _ _ _ _ Hout).
  destruct (scan_to_scan_run msg (after (until_estimator msg s)))
    as (w' & l & Hs & _).
  cbv zeta in Hs. rewrite (bind_run _ _ _ _ _ _ Hs). clear Hs.
  cbn [emitted]. rewrite !List.existsb_app. cbn [existsb is_Filter orb].
  rewrite Bool.orb_true_r. reflexivity.
Qed.

(** A scan that is stopped in the odometry block has touched neither the
    map, nor the pose, nor KeyframeState. *)
Lemma stopped_scan msg s :
  (forall start, outcome (until_estimator msg s) <> Normal start) ->
  KeyframeState (self (after (LidarCallback msg s))) = KeyframeState (self s)
  /\ List.filter is_map_or_pose_call (emitted (LidarCallback msg s)) = []
  /\ mapper_ (self (after (LidarCallback msg s))) = mapper_ (self s)
  /\ localization_ (self (after (LidarCallback msg s)))
     = localization_ (self s).
Proof.
  intros Hstop. rewrite LidarCallback_from_estimator.
  match goal with
  | |- context [bind _ ?k s] =>
      destruct (bind_abnormal (until_estimator msg) k s Hstop)
        as (Ha & He & _)
  end.
  rewrite Ha, He.
  destruct (until_estimator_keeps msg (self s) s)
    as [(H1 & _ & H3 & H4 & _) Hq].
  { repeat split; reflexivity. }
  repeat split; assumption.
Qed.

Lemma deliver_keeps_setup i (o0 : SpotFrontend) :
  keeps (fun o => params o = params o0
                  /\ b_use_odometry_integration_ o
                     = b_use_odometry_integration_ o0)
        (fun _ => false) (deliver i).
Proof. destruct i; keeps_auto. Qed.

Lemma spin_keeps_setup inputs (o0 : SpotFrontend) :
  keeps (fun o => params o = params o0
                  /\ b_use_odometry_integration_ o
                     = b_use_odometry_integration_ o0)
        (fun _ => false) (spin inputs).
Proof.
  induction inputs as [|i rest IH]; simpl.
  - apply keeps_ret.
  - apply keeps_bind; [apply deliver_keeps_setup|intros _; exact IH].
Qed.

(** Until a scan is filtered, the bootstrap flag is what it was. *)
Lemma deliver_before_first_filter i s :
  existsb is_Filter (emitted (deliver i s)) = false ->
  b_add_first_scan_to_key_ (self (after (deliver i s)))
  = b_add_first_scan_to_key_ (self s).
Proof.
  destruct i as [msg|msg|data].
  - rewrite deliver_scan_run.
    destruct (reaches_callback msg s); [|reflexivity].
    destruct (call_void_result (LidarCallback msg) s) as (Ha & He & _).
    rewrite Ha, He. intros Hq.
    destruct (stopped_scan msg s) as (Hk & _).
    { intros start Hout.
      rewrite (reaches_estimator_filters msg s start Hout) in Hq.
      discriminate Hq. }
    unfold KeyframeState in Hk. injection Hk as _ Hb _. exact Hb.
  - intros _.
    assert (Hk : keeps (fun o => b_add_first_scan_to_key_ o
                                 = b_add_first_scan_to_key_ (self s))
                       (fun _ => false)
                       (deliver (odometry_sample msg))) by keeps_auto.
    destruct (Hk s eq_refl) as [H _]. exact H.
  - intros _.
    assert (Hk : keeps (fun o => b_add_first_scan_to_key_ o
                                 = b_add_first_scan_to_key_ (self s))
                       (fun _ => false)
                       (deliver (flat_ground data))) by keeps_auto.
    destruct (Hk s eq_refl) as [H _]. exact H.
Qed.

Lemma spin_before_first_filter inputs : forall s,
  count is_Filter (emitted (spin inputs s)) = 0%nat ->
  b_add_first_scan_to_key_ (self (after (spin inputs s)))
  = b_add_first_scan_to_key_ (self s).
Proof.
  induction inputs as [|i rest IH]; intros s Hq; [reflexivity|].
  cbn [spin] in *. unfold bind in *.
  pose proof (deliver_before_first_filter i s) as Hd.
  rewrite existsb_count in Hd.
  destruct (deliver i s) as [[[]|v|e] s1 l1]; cbn [after emitted self] in *.
  - specialize (IH s1). destruct (spin rest s1) as [c s2 l2].
    cbn [after emitted self] in *. rewrite count_app in Hq.
    rewrite IH by lia. apply Hd.
    destruct (count is_Filter l1); [reflexivity|discriminate Hq].
  - apply Hd. rewrite Hq. reflexivity.
  - apply Hd. rewrite Hq. reflexivity.
Qed.

(** C2, as the code has it.  After construction and initialisation, and
    whatever was delivered since, as long as no scan has got past the
    external-odometry block the bootstrap is pending.  The first scan that
    does get past it (with odometry integration off: the first scan there
    is) is then, unless ground-truth mode is on, inserted into the map
    directly: the localizer and the mapper see exactly the transform to the
    fixed frame, the insertion of the transformed scan, the timestamp update
    and the pose-no-update publication, hence no motion update and no
    measurement update; the mapper holds the insertion, the last keyframe
    pose is the localizer's integrated estimate at that point, and the
    bootstrap flag is cleared.  A scan that is stopped in the odometry block
    inserts nothing and leaves the bootstrap pending. *)
Theorem first_scan_bootstraps raw w from_log inputs msg :
  let s0 := after (call (Ret:=unit) (Initialize from_log)
                        (mkSys (SpotFrontend_new raw) w)) in
  let s := after (spin inputs s0) in
  count is_Filter (emitted (spin inputs s0)) = 0%nat ->
  b_run_with_gt_point_cloud_ (params (self s0)) = false ->
  let stamp := fromPCL (header_stamp msg) in
  let fixed := TransformPointsToFixedFrame (localization_ (self s)) msg in
  let r := LidarCallback msg s in
  let bootstrapped :=
      outcome r = Returned tt
      /\ List.filter is_map_or_pose_call (emitted r) =
         [Call_TransformPointsToFixedFrame msg;
          Call_InsertPoints (snd fixed);
          Call_UpdateTimestamp stamp;
          Call_PublishPoseNoUpdate]
      /\ count is_MotionUpdate (emitted r) = 0%nat
      /\ count is_MeasurementUpdate (emitted r) = 0%nat
      /\ last_keyframe_pose_ (self (after r)) =
         GetIntegratedEstimate (localization_ (self (after r)))
      /\ localization_ (self (after r)) =
         PublishPoseNoUpdate (UpdateTimestamp (fst fixed) stamp)
      /\ mapper_ (self (after r)) =
         fst (InsertPoints (mapper_ (self s)) (snd fixed))
      /\ b_add_first_scan_to_key_ (self (after r)) = false in
  b_add_first_scan_to_key_ (self s) = true
  /\ (b_use_odometry_integration_ (self s0) = false -> bootstrapped)
  /\ (forall start,
         outcome (until_estimator msg s) = Normal start -> bootstrapped)
  /\ ((forall start, outcome (until_estimator msg s) <> Normal start) ->
      count is_InsertPoints (emitted r) = 0%nat
      /\ mapper_ (self (after r)) = mapper_ (self s)
      /\ KeyframeState (self (after r)) = KeyframeState (self s)
      /\ b_add_first_scan_to_key_ (self (after r)) = true).
Proof.
  intros s0 s Hq Hgt stamp fixed r bootstrapped.
  destruct (Initialize_keeps_flag from_log (mkSys (SpotFrontend_new raw) w))
    as [[Hflag0 _] _]; [split; reflexivity|]. fold s0 in Hflag0.
  assert (Hflag : b_add_first_scan_to_key_ (self s) = true)
    by (subst s; rewrite (spin_before_first_filter inputs s0 Hq);
        exact Hflag0).
  destruct (spin_keeps_setup inputs (self s0) s0 (conj eq_refl eq_refl))
    as [[Hp Hu] _]. fold s in Hp, Hu.
  assert (Hboot : forall start,
             outcome (until_estimator msg s) = Normal start -> bootstrapped).
  { intros start Hout.
    destruct (until_estimator_params msg s) as (Hk & Hp' & Hl).
    pose proof (until_estimator_mapper msg s) as Hm.
    pose proof (bootstrap_path msg s start Hout) as H. cbv zeta in H.
    rewrite Hp', Hl, Hm in H. fold fixed in H. fold stamp in H. fold r in H.
    assert (Hf : b_add_first_scan_to_key_
                   (self (after (until_estimator msg s))) = true).
    { unfold KeyframeState in Hk. injection Hk as _ Hb _. rewrite Hb.
      exact Hflag. }
    rewrite Hf, Hp, Hgt in H. specialize (H eq_refl eq_refl).
    destruct H as (H1 & H2 & H3 & H4 & H5 & _ & H7).
    destruct (bootstrap_calls_no_update _ _ _ _ H2) as [Hmo Hme].
    subst bootstrapped. cbv beta.
    split; [exact H1|]. split; [exact H2|]. split; [exact Hmo|].
    split; [exact Hme|]. split; [exact H4|]. split; [exact H5|].
    split; [exact H7|exact H3]. }
  split; [exact Hflag|]. split; [|split; [exact Hboot|]].
  - intros Hoff. rewrite <- Hu in Hoff.
    destruct (odometry_integration_off_normal msg s Hoff) as [start Hout].
    exact (Hboot start Hout).
  - intros Hstop. destruct (stopped_scan msg s Hstop) as (Hk & Hs & Hm & _).
    fold r in Hk, Hs, Hm.
    split.
    { apply count_silent. apply (filter_sub is_InsertPoints _ _) in Hs;
        [exact Hs|]. intros e He. destruct e; try discriminate He.
      reflexivity. }
    split; [exact Hm|]. split; [exact Hk|].
    unfold KeyframeState in Hk. injection Hk as _ Hb _. rewrite Hb.
    exact Hflag.
Qed.

(** C3, as the code has it.  When [UpdateEstimate] returns false for a scan
    (and ground-truth mode is off), that same scan takes the bootstrap path,
    whatever the flag was: the scan transformed to the fixed frame is
    inserted into the map directly, with no motion and no measurement
    update, and the last keyframe pose is reset to the localizer's
    integrated estimate.  The flag is cleared by it, so the next scan is
    processed in the steady state as soon as its own estimate updates. *)
Theorem failed_estimate_bootstraps_same_scan msg s start next start' :
  outcome (until_estimator msg s) = Normal start ->
  let o := self (after (until_estimator msg s)) in
  let filtered := Filter (filter_ o) msg (b_is_open_space_ o) in
  let estimate := UpdateEstimate (SetLidar (odometry_ o) (snd filtered)) in
  snd estimate = false ->
  b_run_with_gt_point_cloud_ (params (self s)) = false ->
  let stamp := fromPCL (header_stamp msg) in
  let fixed := TransformPointsToFixedFrame (localization_ (self s)) msg in
  let r := LidarCallback msg s in
  outcome r = Returned tt
  /\ List.filter is_map_or_pose_call (emitted r) =
     [Call_TransformPointsToFixedFrame msg;
      Call_InsertPoints (snd fixed);
      Call_UpdateTimestamp stamp;
      Call_PublishPoseNoUpdate]
  /\ b_add_first_scan_to_key_ (self (after r)) = false
  /\ (outcome (until_estimator next (after r)) = Normal start' ->
      let o' := self (after (until_estimator next (after r))) in
      let filtered' := Filter (filter_ o') next (b_is_open_space_ o') in
      snd (UpdateEstimate (SetLidar (odometry_ o') (snd filtered'))) = true ->
      exists l, outcome (before_keyframe_decision next (after r)) = Normal l)
  /\ count is_MotionUpdate (emitted r) = 0%nat
  /\ count is_MeasurementUpdate (emitted r) = 0%nat
  /\ last_keyframe_pose_ (self (after r)) =
     GetIntegratedEstimate (localization_ (self (after r)))
  /\ localization_ (self (after r)) =
     PublishPoseNoUpdate (UpdateTimestamp (fst fixed) stamp)
  /\ mapper_ (self (after r)) =
     fst (InsertPoints (mapper_ (self s)) (snd fixed)).
Proof.
  intros Hout o filtered estimate Hfail Hgt stamp fixed r.
  destruct (until_estimator_params msg s) as (Hk & Hp & Hl).
  pose proof (until_estimator_mapper msg s) as Hm.
  pose proof (bootstrap_path msg s start Hout) as H. cbv zeta in H.
  fold o in H. fold filtered in H. fold estimate in H.
  rewrite Hfail, Bool.orb_true_r in H. fold o in Hp, Hl, Hm.
  rewrite Hp, Hl, Hm in H. fold fixed in H. fold stamp in H. fold r in H.
  specialize (H eq_refl Hgt).
  destruct H as (H1 & H2 & H3 & H4 & H5 & _ & H7).
  destruct (bootstrap_calls_no_update _ _ _ _ H2) as [Hmo Hme].
  split; [exact H1|]. split; [exact H2|]. split; [exact H3|].
  split.
  { intros Hout' o' filtered' Hok.
    apply (steady_path next (after r) start' Hout').
    destruct (until_estimator_params next (after r)) as (Hk' & _ & _).
    unfold KeyframeState in Hk'. injection Hk' as _ Hb _.
    fold o' in Hb. fold o'. fold filtered'. rewrite Hb, H3, Hok.
    reflexivity. }
  split; [exact Hmo|]. split; [exact Hme|]. split; [exact H4|].
  split; [exact H5|exact H7].
Qed.
End Bootstrap.

Section LoadParametersFacts.
Context {D : Double} {R : RosTypes} {E : Externals}.

Lemma bind_emit_run {Ret B} (e : Event) (k : unit -> M Ret B) s :
  bind (emit e) k s =
  mkResult (outcome (k tt s)) (after (k tt s)) (e :: emitted (k tt s)).
Proof. unfold bind, emit. destruct (k tt s). reflexivity. Qed.

Lemma bind_return_run {Ret B} (v : Ret) (k : unit -> M Ret B) s :
  bind (return_ v) k s = mkResult (Returned v) s [].
Proof. reflexivity. Qed.

Lemma require_Get_run {T} (get : World -> string -> option T) name set
      (k : unit -> M bool unit) s :
  bind (require (pu_Get get name set)) k s =
  match get (world s) name with
  | Some v => k tt (mkSys (set_param (set v) (self s)) (world s))
  | None => mkResult (Returned false) s []
  end.
Proof.
  unfold require, pu_Get, bind, env, when, assign, ret, return_. simpl.
  destruct (get (world s) name); simpl; [|reflexivity].
  destruct (k tt _). reflexivity.
Qed.

Lemma Get_run {T B} (get : World -> string -> option T) name set
      (k : bool -> M bool B) s :
  bind (pu_Get get name set) k s =
  match get (world s) name with
  | Some v => k true (mkSys (set_param (set v) (self s)) (world s))
  | None => k false s
  end.
Proof.
  unfold pu_Get, bind, env, assign, ret. simpl.
  destruct (get (world s) name); simpl.
  - destruct (k true _). reflexivity.
  - destruct (k false s). reflexivity.
Qed.

(** [LoadParameters] run on any state: it reports whether the required keys
    are all there, writes only parameter members, and calls nobody. *)
Lemma LoadParameters_run s :
  exists p',
    LoadParameters s =
    mkResult (Returned (required_parameters_present (world s)))
             (mkSys (set_params p' (self s)) (world s))
             [Log INFO "SpotFrontend - LoadParameters"]
    /\ b_run_rolling_map_buffer_ p'
       = b_run_rolling_map_buffer_ (params (self s))
    /\ (required_parameters_present (world s) = true ->
        loaded_from (world s) (params (self s)) p').
Proof.
  unfold LoadParameters, log. rewrite bind_emit_run.
  repeat (rewrite require_Get_run; cbn [world];
          lazymatch goal with
          | |- context [match ?g with Some _ => _ | None => _ end] =>
              destruct g eqn:?
          end).
  1: rewrite Get_run; cbn [world];
     destruct (Get_bool (world s) "publish_diagnostics") eqn:Hd;
     rewrite bind_return_run.
  all: unfold required_parameters_present, loaded_from.
  all: repeat match goal with
              | H : _ = Some _ |- _ => rewrite H; clear H
              | H : _ = None |- _ => rewrite H; clear H
              end.
  all: cbn [present andb outcome after emitted].
  all: destruct s as [o w]; destruct o; cbn [self world].
  all: eexists; split; [unfold set_param; cbn; reflexivity|].
  all: split; [reflexivity|].
  all: try (intros; discriminate).
  all: intros _; cbn; repeat split; reflexivity.
Qed.
End LoadParametersFacts.
Section InitializeFacts.
Context {D : Double} {R : RosTypes} {E : Externals}.

Lemma require_or_run (e : M bool bool) text (k : unit -> M bool unit)
      s b s1 l1 :
  e s = mkResult (Normal b) s1 l1 ->
  bind (require_or e text) k s =
  if b then mkResult (outcome (k tt s1)) (after (k tt s1))
                     (l1 ++ emitted (k tt s1))
  else mkResult (Returned false) s1 (l1 ++ [Log ERROR text]).
Proof.
  intros H. unfold require_or, bind, when, log, emit, return_. rewrite H.
  destruct b; simpl; [|reflexivity].
  rewrite List.app_nil_r. destruct (k tt s1). reflexivity.
Qed.

Lemma initialize_run {C} name (init : World -> C -> C * bool) get set s :
  initialize (Ret:=bool) name init get set s =
  mkResult (Normal (snd (init (world s) (get (self s)))))
           (mkSys (set (fst (init (world s) (get (self s)))) (self s))
                  (world s))
           [Call_Initialize name (snd (init (world s) (get (self s))))].
Proof. reflexivity. Qed.

Lemma SetDataIntegrationMode_run s :
  let o := self s in
  let mode := data_integration_mode_ (params o) in
  SetDataIntegrationMode s =
  if mode =? 0 then
    mkResult (Returned true) s
      [Log INFO "SpotFrontend - SetDataIntegrationMode";
       Log INFO "No integration requested"]
  else if mode =? 3 then
    mkResult (Returned true)
      (mkSys (set_odometry_ (EnableOdometryIntegration (odometry_ o))
                (set_b_use_odometry_integration_ true o)) (world s))
      [Log INFO "SpotFrontend - SetDataIntegrationMode";
       Log INFO "Odometry integration requested";
       Call_EnableOdometryIntegration]
  else
    mkResult (Returned false) s
      [Log INFO "SpotFrontend - SetDataIntegrationMode";
       Log ERROR "Default case to be handled"].
Proof.
  intros o mode. subst mode o. unfold SetDataIntegrationMode.
  unfold odometry_EnableOdometryIntegration, log, bind, this, assign, emit,
    return_. simpl.
  destruct (data_integration_mode_ (params (self s)) =? 0);
    [destruct s; reflexivity|].
  destruct (data_integration_mode_ (params (self s)) =? 3);
    [reflexivity|destruct s; reflexivity].
Qed.

Lemma CreatePublishers_run s :
  CreatePublishers s =
  mkResult (Returned true) s
           (Log INFO "SpotFrontend - CreatePublishers" :: publishers).
Proof. destruct s. reflexivity. Qed.

Lemma RegisterCallbacks_run from_log s :
  exists said,
    RegisterCallbacks from_log s = mkResult (Returned true) s said
    /\ List.filter is_Subscribe said
       = subscriptions from_log (b_use_odometry_integration_ (self s))
                       (params (self s))
    /\ List.filter is_Advertise said = publishers
    /\ List.filter (fun e => is_Initialize_call e || is_InsertPoints e
                             || is_EnableOdometryIntegration e || is_error e)
                   said = [].
Proof.
  unfold RegisterCallbacks, RegisterLogCallbacks, RegisterOnlineCallbacks.
  unfold subscriptions.
  destruct from_log; [|destruct (b_use_odometry_integration_ (self s)) eqn:Hu];
    unfold call, log, bind, this, emit, return_; simpl;
    rewrite ?Hu; simpl;
    eexists; (split; [destruct s; reflexivity|]); repeat split; reflexivity.
Qed.
End InitializeFacts.
Section InitializeRun.
Context {D : Double} {R : RosTypes} {E : Externals}.

Lemma bind_env_run {Ret B} (k : World -> M Ret B) s :
  bind env k s = k (world s) s.
Proof. unfold bind, env. destruct (k (world s) s). reflexivity. Qed.

Lemma bind_this_run {Ret B} (k : SpotFrontend -> M Ret B) s :
  bind this k s = k (self s) s.
Proof. unfold bind, this. destruct (k (self s) s). reflexivity. Qed.

Lemma bind_assign_run {Ret B} f (k : unit -> M Ret B) s :
  bind (assign f) k s = k tt (mkSys (f (self s)) (world s)).
Proof. unfold bind, assign. destruct (k tt _). reflexivity. Qed.

Lemma call_run {Ret T} (body : M T unit) s v s1 l1 :
  body s = mkResult (Returned v) s1 l1 ->
  call (Ret:=Ret) body s = mkResult (Normal v) s1 l1.
Proof. intros H. unfold call. rewrite H. reflexivity. Qed.

Lemma bind_emit_prepend {Ret B} (e : Event) (k : unit -> M Ret B) s :
  bind (emit e) k s = prepend [e] (k tt s).
Proof. unfold bind, emit, prepend. destruct (k tt s). reflexivity. Qed.

Lemma require_or_prepend (e : M bool bool) text (k : unit -> M bool unit)
      s b s1 l1 :
  e s = mkResult (Normal b) s1 l1 ->
  bind (require_or e text) k s =
  prepend l1 (if b then k tt s1
              else mkResult (Returned false) s1 [Log ERROR text]).
Proof.
  intros H. unfold require_or, bind, when, log, emit, return_, prepend.
  rewrite H. destruct b; simpl; [|reflexivity].
  rewrite List.app_nil_r. destruct (k tt s1). reflexivity.
Qed.

Lemma prepend_prepend {Ret A} l1 l2 (r : Result Ret A) :
  prepend l1 (prepend l2 r) = prepend (l1 ++ l2) r.
Proof. unfold prepend. simpl. rewrite List.app_assoc. reflexivity. Qed.

Lemma prepend_result {Ret A} l (c : completion Ret A) s l' :
  prepend l (mkResult c s l') = mkResult c s (l ++ l').
Proof. reflexivity. Qed.

Lemma ground_truth_tail_run (b : bool) f s :
  (when b (call_void (InitWithGTPointCloud f)) ;; return_ (Ret:=bool) true) s =
  if b then
    mkResult (Returned true)
      (mkSys (set_mapper_
                (fst (InsertPoints (mapper_ (self s)) (read_pcd (world s) f)))
                (self s))
             (world s))
      [Log INFO "Generating point cloud ground truth using point cloud from ";
       Call_InsertPoints (read_pcd (world s) f);
       Log INFO "Completed addition of GT point cloud to map"]
  else mkResult (Returned true) s [].
Proof. destruct b; [reflexivity|destruct s; reflexivity]. Qed.

Lemma Initialize_run {Ret} from_log s :
  let r := call (Ret:=Ret) (Initialize from_log) s in
  outcome r = Normal (initialization_succeeds s)
  /\ world (after r) = world s
  /\ List.filter is_Initialize_call (emitted r) = initialized_collaborators s
  /\ if initialization_succeeds s then
       let o' := self (after r) in
       loaded_from (world s) (params (self s)) (params o')
       /\ b_use_odometry_integration_ o'
          = b_use_odometry_integration_ (self s)
            || (data_integration_mode_ (params o') =? 3)
       /\ List.filter is_Subscribe (emitted r)
          = subscriptions from_log (b_use_odometry_integration_ o') (params o')
       /\ List.filter is_Advertise (emitted r) = publishers
       /\ List.filter is_InsertPoints (emitted r)
          = (if b_run_with_gt_point_cloud_ (params o')
             then [Call_InsertPoints
                     (read_pcd (world s) (gt_point_cloud_filename_ (params o')))]
             else [])
       /\ List.filter is_EnableOdometryIntegration (emitted r)
          = (if data_integration_mode_ (params o') =? 3
             then [Call_EnableOdometryIntegration] else [])
       /\ List.filter is_error (emitted r) = []
     else
       List.filter (fun e => is_Subscribe e || is_Advertise e
                             || is_InsertPoints e
                             || is_EnableOdometryIntegration e)
                   (emitted r) = []
       /\ existsb is_error (emitted r) = true
       /\ b_use_odometry_integration_ (self (after r))
          = b_use_odometry_integration_ (self s).
Proof.
  intros r. unfold initialization_succeeds, initialized_collaborators.
  cbv zeta.
  destruct s as [o w]. cbn [self world].
  subst r. unfold call.
  remember (Initialize from_log (mkSys o w)) as i eqn:Hi.
  unfold Initialize, log in Hi.
  rewrite bind_emit_prepend, bind_env_run, bind_assign_run in Hi.
  cbn [self world] in Hi.
  erewrite require_or_prepend in Hi; [|apply initialize_run].
  cbn [self world filter_ set_name_] in Hi.
  destruct (snd (filter_Initialize w (filter_ o))) eqn:Hf.
  2:{ subst i. cbn. repeat split; reflexivity. }
  erewrite require_or_prepend in Hi; [|apply initialize_run].
  cbn [self world odometry_ set_name_ set_filter_] in Hi.
  destruct (snd (odometry_Initialize w (odometry_ o))) eqn:Ho.
  2:{ subst i. cbn. repeat split; reflexivity. }
  erewrite require_or_prepend in Hi; [|apply initialize_run].
  cbn [self world localization_ set_name_ set_filter_ set_odometry_] in Hi.
  destruct (snd (localization_Initialize w (localization_ o))) eqn:Hl.
  2:{ subst i. cbn. repeat split; reflexivity. }
  erewrite require_or_prepend in Hi; [|apply initialize_run].
  cbn [self world mapper_ set_name_ set_filter_ set_odometry_
       set_localization_] in Hi.
  destruct (snd (mapper_Initialize w (mapper_ o))) eqn:Hm.
  2:{ subst i. cbn. repeat split; reflexivity. }
  match type of Hi with
  | context [bind _ _ ?s4] =>
      destruct (LoadParameters_run s4) as (p' & Hload & _ & Hp')
  end.
  erewrite require_or_prepend in Hi; [|apply call_run; exact Hload].
  cbn [self world params] in Hi, Hp'.
  destruct (required_parameters_present w) eqn:Hpresent.
  2:{ subst i. cbn. repeat split; reflexivity. }
  specialize (Hp' eq_refl). clear Hload.
  assert (Hmode : Get_int w "data_integration/mode"
                  = Some (data_integration_mode_ p'))
    by (unfold loaded_from in Hp'; tauto).
  unfold integration_mode_supported. rewrite Hmode.
  match type of Hi with
  | context [bind _ _ ?s5] =>
      pose proof (SetDataIntegrationMode_run s5) as Hset;
      destruct (RegisterCallbacks_run from_log s5)
        as (said0 & Hreg0 & Hsub0 & Hadv0 & Hq0);
      destruct (RegisterCallbacks_run from_log
                  (mkSys (set_odometry_
                            (EnableOdometryIntegration (odometry_ (self s5)))
                            (set_b_use_odometry_integration_ true (self s5)))
                         w))
        as (said3 & Hreg3 & Hsub3 & Hadv3 & Hq3)
  end.
  cbv zeta in Hset. cbn [self world params set_params] in Hset.
  cbn [self world params set_params set_odometry_
       set_b_use_odometry_integration_ b_use_odometry_integration_
       set_mapper_ set_localization_ set_filter_ set_name_]
    in Hsub0, Hsub3, Hp'.
  assert (Hi0 : List.filter is_InsertPoints said0 = []
                /\ List.filter is_Initialize_call said0 = []
                /\ List.filter is_EnableOdometryIntegration said0 = []
                /\ List.filter is_error said0 = []).
  { repeat split; (eapply filter_sub; [|exact Hq0]);
      intros e He; destruct e; try discriminate He; try reflexivity;
      match goal with v : Severity |- _ => destruct v end;
      try discriminate He; reflexivity. }
  assert (Hi3 : List.filter is_InsertPoints said3 = []
                /\ List.filter is_Initialize_call said3 = []
                /\ List.filter is_EnableOdometryIntegration said3 = []
                /\ List.filter is_error said3 = []).
  { repeat split; (eapply filter_sub; [|exact Hq3]);
      intros e He; destruct e; try discriminate He; try reflexivity;
      match goal with v : Severity |- _ => destruct v end;
      try discriminate He; reflexivity. }
  destruct Hi0 as (Hins0 & Hini0 & Hen0 & Herr0).
  destruct Hi3 as (Hins3 & Hini3 & Hen3 & Herr3).
  clear Hq0 Hq3.
  destruct (data_integration_mode_ p' =? 0) eqn:Hm0;
    [|destruct (data_integration_mode_ p' =? 3) eqn:Hm3].
  - assert (Hm3 : (data_integration_mode_ p' =? 3) = false)
      by (apply Z.eqb_eq in Hm0; rewrite Hm0; reflexivity).
    erewrite require_or_prepend in Hi; [|apply call_run; exact Hset].
    erewrite require_or_prepend in Hi; [|apply call_run; exact Hreg0].
    rewrite bind_this_run in Hi. cbn [self params set_params] in Hi.
    rewrite ground_truth_tail_run in Hi.
    destruct (b_run_with_gt_point_cloud_ p') eqn:Hgt;
      rewrite !prepend_prepend, prepend_result in Hi;
      cbn [app self world] in Hi; subst i;
      cbn [outcome after emitted app world self params set_params
           b_use_odometry_integration_ set_mapper_ set_localization_
           set_odometry_ set_filter_ set_name_ andb orb];
      rewrite ?Hgt, ?Hm3, ?Bool.orb_false_r; simpl;
      rewrite ?List.filter_app, ?Hsub0, ?Hadv0, ?Hins0, ?Hini0, ?Hen0, ?Herr0;
      simpl; rewrite ?List.app_nil_r; repeat split; auto;
      unfold loaded_from in Hp'; decompose [and] Hp'; assumption.
  - erewrite require_or_prepend in Hi; [|apply call_run; exact Hset].
    erewrite require_or_prepend in Hi; [|apply call_run; exact Hreg3].
    rewrite bind_this_run in Hi. cbn [self params set_params] in Hi.
    rewrite ground_truth_tail_run in Hi.
    cbn [self world params set_params set_odometry_
         set_b_use_odometry_integration_] in Hi.
    destruct (b_run_with_gt_point_cloud_ p') eqn:Hgt;
      rewrite !prepend_prepend, prepend_result in Hi;
      cbn [app self world] in Hi; subst i;
      cbn [outcome after emitted app world self params set_params
           b_use_odometry_integration_ set_mapper_ set_localization_
           set_odometry_ set_filter_ set_name_ andb orb
           set_b_use_odometry_integration_];
      rewrite ?Hgt, ?Hm3, ?Bool.orb_true_r; simpl;
      rewrite ?List.filter_app, ?Hsub3, ?Hadv3, ?Hins3, ?Hini3, ?Hen3, ?Herr3;
      simpl; rewrite ?List.app_nil_r; repeat split; auto;
      unfold loaded_from in Hp'; decompose [and] Hp'; assumption.
  - erewrite require_or_prepend in Hi; [|apply call_run; exact Hset].
    rewrite !prepend_prepend, prepend_result in Hi.
    cbn [app self world] in Hi; subst i.
    simpl. repeat split; reflexivity.
Qed.
End InitializeRun.
(** ** Initialisation *)
Section Initialisation.
Context {D : Double} {R : RosTypes} {E : Externals}.

(** X1.  [LoadParameters] succeeds exactly when every required key is on the
    parameter server; it reads the server and writes parameter members only
    (no collaborator is called, no other member changes); on success each
    member holds the server's value for its key, and the optional key
    [publish_diagnostics] keeps the member's value when it is missing. *)
Theorem LoadParameters_loads_or_fails s :
  let r := LoadParameters s in
  outcome r = Returned (required_parameters_present (world s))
  /\ world (after r) = world s
  /\ emitted r = [Log INFO "SpotFrontend - LoadParameters"]
  /\ self (after r) = set_params (params (self (after r))) (self s)
  /\ (required_parameters_present (world s) = true ->
      loaded_from (world s) (params (self s)) (params (self (after r)))).
Proof.
  intros r. subst r.
  destruct (LoadParameters_run s) as (p' & -> & _ & H).
  cbn [outcome after emitted self world params set_params].
  split; [reflexivity|]. split; [reflexivity|]. split; [reflexivity|].
  split; [reflexivity|exact H].
Qed.

Lemma LoadParameters_keeps_first v :
  keeps (fun o => b_verbose_ (params o) = v) (fun _ => false)
        (require (pu_Get Get_double "translation_threshold_kf"
                         set_translation_threshold_kf_) ;;
         require (pu_Get Get_double "rotation_threshold_kf"
                         set_rotation_threshold_kf_) ;;
         require (pu_Get Get_int "number_of_points_open_space"
                         set_number_of_points_open_space_) ;;
         require (pu_Get Get_int "map_publishment/meters"
                         set_map_publishment_meters_) ;;
         require (pu_Get Get_bool "map_publishment/b_publish_map"
                         set_b_publish_map_) ;;
         require (pu_Get Get_string "frame_id/fixed" set_fixed_frame_id_) ;;
         require (pu_Get Get_string "frame_id/base" set_base_frame_id_) ;;
         require (pu_Get Get_string "frame_id/bd_odometry"
                         set_bd_odom_frame_id_) ;;
         require (pu_Get Get_int "queues/lidar_queue_size"
                         set_lidar_queue_size_) ;;
         require (pu_Get Get_int "queues/odom_queue_size"
                         set_odom_queue_size_) ;;
         require (pu_Get Get_int "buffers/odometry_buffer_size_limit"
                         set_odometry_buffer_size_limit_) ;;
         require (pu_Get Get_int "data_integration/mode"
                         set_data_integration_mode_) ;;
         require (pu_Get Get_int "data_integration/max_number_of_calls"
                         set_max_number_of_calls_) ;;
         require (pu_Get Get_bool "b_enable_computation_time_profiling"
                         set_b_enable_computation_time_profiling_) ;;
         require (pu_Get Get_bool "b_run_with_gt_point_cloud"
                         set_b_run_with_gt_point_cloud_) ;;
         require (pu_Get Get_string "gt_point_cloud_filename"
                         set_gt_point_cloud_filename_) ;;
         _ <- pu_Get Get_bool "publish_diagnostics" set_publish_diagnostics_ ;;
         return_ true ;;
         require (pu_Get Get_bool "b_run_rolling_map_buffer"
                         set_b_run_rolling_map_buffer_) ;;
         o <- this ;;
         when (b_run_rolling_map_buffer_ (params o))
              mapper_SetRollingMapBufferOn_).
Proof. keeps_auto. Qed.

(** X2.  A failed [LoadParameters] is not rolled back: a key that was read before
    the missing one has already overwritten its member. *)
Theorem LoadParameters_not_rolled_back s v :
  Get_bool (world s) "b_verbose" = Some v ->
  required_parameters_present (world s) = false ->
  let r := LoadParameters s in
  outcome r = Returned false
  /\ b_verbose_ (params (self (after r))) = v.
Proof.
  intros Hv Hmissing r. subst r. split.
  - destruct (LoadParameters_run s) as (p' & -> & _). rewrite Hmissing.
    reflexivity.
  - unfold LoadParameters, log. rewrite bind_emit_run.
    rewrite require_Get_run, Hv. cbn [after].
    match goal with
    | |- context [after (?k ?s1)] =>
        destruct (LoadParameters_keeps_first v s1 eq_refl) as [H _]
    end.
    exact H.
Qed.

(** X3.  [Initialize] returns true exactly when the four collaborators
    initialise, every required parameter is present and the integration
    mode is 0 or 3.  It never throws.  The collaborators are initialised in
    the order filter, odometry, localization, mapper and the first failure
    stops the sequence.  An error is logged exactly when it returns false. *)
Theorem Initialize_succeeds_iff from_log s :
  let r := call (Ret:=unit) (Initialize from_log) s in
  outcome r = Normal (initialization_succeeds s)
  /\ world (after r) = world s
  /\ List.filter is_Initialize_call (emitted r) = initialized_collaborators s
  /\ existsb is_error (emitted r) = negb (initialization_succeeds s).
Proof.
  intros r. subst r.
  destruct (Initialize_run (Ret:=unit) from_log s) as (H1 & H2 & H3 & H4).
  split; [exact H1|]. split; [exact H2|]. split; [exact H3|].
  destruct (initialization_succeeds s).
  - destruct H4 as (_ & _ & _ & _ & _ & _ & H). cbv zeta in H.
    apply existsb_silent. exact H.
  - destruct H4 as (_ & H & _). exact H.
Qed.

(** X4.  A failed [Initialize] has subscribed to nothing, advertised nothing,
    inserted nothing into the map and has not enabled odometry
    integration. *)
Theorem failed_initialization_registers_nothing from_log s :
  initialization_succeeds s = false ->
  let r := call (Ret:=unit) (Initialize from_log) s in
  outcome r = Normal false
  /\ count is_Subscribe (emitted r) = 0%nat
  /\ count is_Advertise (emitted r) = 0%nat
  /\ count is_InsertPoints (emitted r) = 0%nat
  /\ count is_EnableOdometryIntegration (emitted r) = 0%nat
  /\ b_use_odometry_integration_ (self (after r))
     = b_use_odometry_integration_ (self s).
Proof.
  intros Hfail r. subst r.
  destruct (Initialize_run (Ret:=unit) from_log s) as (H1 & _ & _ & H4).
  rewrite Hfail in H1, H4. destruct H4 as (Hq & _ & Hu).
  split; [exact H1|].
  repeat split; try exact Hu; apply count_silent;
    (eapply filter_sub; [|exact Hq]); intros e He; cbv beta; rewrite He;
    rewrite ?Bool.orb_true_r; reflexivity.
Qed.

(** X5.  After a successful [Initialize], odometry integration is on when
    the mode is 3 (and it is switched on in the estimator exactly then).
    Replaying a log subscribes to nothing.  Pure lidar odometry subscribes
    the lidar topic to [LidarCallback] and the flat-ground topic.  With
    integration the odometry topic comes first, the lidar topic goes to a
    message filter on the frame [bd_odom_frame_id_] with a queue of 10, and
    the flat-ground topic follows.  The queue sizes are the ones just
    loaded, and the five publishers are advertised once each. *)
Theorem successful_initialization_subscribes from_log s :
  initialization_succeeds s = true ->
  let r := call (Ret:=unit) (Initialize from_log) s in
  let o' := self (after r) in
  outcome r = Normal true
  /\ loaded_from (world s) (params (self s)) (params o')
  /\ b_use_odometry_integration_ o'
     = b_use_odometry_integration_ (self s)
       || (data_integration_mode_ (params o') =? 3)
  /\ List.filter is_EnableOdometryIntegration (emitted r)
     = (if data_integration_mode_ (params o') =? 3
        then [Call_EnableOdometryIntegration] else [])
  /\ List.filter is_Subscribe (emitted r)
     = subscriptions from_log (b_use_odometry_integration_ o') (params o')
  /\ List.filter is_Advertise (emitted r) = publishers.
Proof.
  intros Hok r o'. subst o' r.
  destruct (Initialize_run (Ret:=unit) from_log s) as (H1 & _ & _ & H4).
  rewrite Hok in H1, H4. cbv zeta in H4.
  destruct H4 as (Hl & Hu & Hs & Ha & _ & He & _).
  split; [exact H1|]. split; [exact Hl|]. split; [exact Hu|].
  split; [exact He|]. split; [exact Hs|exact Ha].
Qed.

(** X6.  In ground-truth mode a successful [Initialize] inserts the point cloud
    read from [gt_point_cloud_filename] into the map, once; otherwise it
    inserts nothing. *)
Theorem ground_truth_cloud_seeds_map from_log s :
  initialization_succeeds s = true ->
  let r := call (Ret:=unit) (Initialize from_log) s in
  let p' := params (self (after r)) in
  Get_bool (world s) "b_run_with_gt_point_cloud"
  = Some (b_run_with_gt_point_cloud_ p')
  /\ Get_string (world s) "gt_point_cloud_filename"
     = Some (gt_point_cloud_filename_ p')
  /\ List.filter is_InsertPoints (emitted r)
     = (if b_run_with_gt_point_cloud_ p'
        then [Call_InsertPoints
                (read_pcd (world s) (gt_point_cloud_filename_ p'))]
        else []).
Proof.
  intros Hok r p'. subst p' r.
  destruct (Initialize_run (Ret:=unit) from_log s) as (_ & _ & _ & H4).
  rewrite Hok in H4. cbv zeta in H4.
  destruct H4 as (Hl & _ & _ & _ & Hi & _).
  unfold loaded_from in Hl. decompose [and] Hl.
  repeat split; assumption.
Qed.

Lemma Initialize_keeps_runtime_state {Ret} from_log (o0 : SpotFrontend) :
  keeps (fun o => KeyframeState o = KeyframeState o0
                  /\ b_pcld_received_ o = b_pcld_received_ o0
                  /\ pcld_seq_prev_ o = pcld_seq_prev_ o0
                  /\ b_odometry_has_been_received_ o
                     = b_odometry_has_been_received_ o0
                  /\ b_is_open_space_ o = b_is_open_space_ o0
                  /\ odometry_number_of_calls_ o = odometry_number_of_calls_ o0
                  /\ tf_buffer_authority_ o = tf_buffer_authority_ o0
                  /\ odometry_pose_previous_ o = odometry_pose_previous_ o0
                  /\ odometry_buffer_ o = odometry_buffer_ o0
                  /\ clouds o = clouds o0)
        (fun e => is_estimator_call e || is_PublishMap e
                  || is_MotionUpdate e || is_MeasurementUpdate e)
        (call (Ret:=Ret) (Initialize from_log)).
Proof. keeps_auto. Qed.

(** X7.  A constructed and initialised frontend, whether or not initialisation
    succeeded, awaits its first scan: the bootstrap is pending, the
    publication counter is zero, no scan and no odometry have been seen,
    the transform buffer is written under the authority
    [transform_odometry], and the estimator has not been run. *)
Theorem initialised_frontend_awaits_first_scan raw w from_log :
  let r := call (Ret:=unit) (Initialize from_log)
                (mkSys (SpotFrontend_new raw) w) in
  let o := self (after r) in
  b_add_first_scan_to_key_ o = true
  /\ counter_ o = 0
  /\ b_pcld_received_ o = false
  /\ b_odometry_has_been_received_ o = false
  /\ b_is_open_space_ o = false
  /\ odometry_number_of_calls_ o = 0
  /\ tf_buffer_authority_ o = "transform_odometry"
  /\ odometry_buffer_ o = odometry_buffer_ raw
  /\ List.filter (fun e => is_estimator_call e || is_PublishMap e
                           || is_MotionUpdate e || is_MeasurementUpdate e)
                 (emitted r) = [].
Proof.
  intros r o. subst o r.
  destruct (Initialize_keeps_runtime_state (Ret:=unit) from_log
              (SpotFrontend_new raw) (mkSys (SpotFrontend_new raw) w))
    as [H Hq]; [repeat split; reflexivity|].
  destruct H as (Hk & H1 & _ & H3 & H4 & H5 & H6 & _ & H8 & _).
  unfold KeyframeState in Hk. injection Hk as _ Hb Hc.
  repeat split; assumption.
Qed.
End Initialisation.
(** ** The odometry and flat-ground callbacks *)
Section SmallCallbacks.
Context {D : Double} {R : RosTypes} {E : Externals}.


End SmallCallbacks.
(** ** Exceptions and runs *)
Section RunSafety.
Context {D : Double} {R : RosTypes} {E : Externals}.





Lemma deliver_keeps_configuration i (o0 : SpotFrontend) :
  keeps (fun o => params o = params o0
                  /\ b_use_odometry_integration_ o
                     = b_use_odometry_integration_ o0
                  /\ tf_buffer_authority_ o = tf_buffer_authority_ o0
                  /\ name_ o = name_ o0)
        (fun e => is_Subscribe e || is_Advertise e || is_Initialize_call e
                  || is_EnableOdometryIntegration e)
        (deliver i).
Proof. destruct i; keeps_auto. Qed.

(** X12.  What initialisation set up is not touched by any callback: the
    parameters, the integration mode, the buffer authority and the node
    name stay, and no callback subscribes, advertises or initialises a
    collaborator. *)
Theorem callbacks_keep_configuration inputs s :
  let r := spin inputs s in
  params (self (after r)) = params (self s)
  /\ b_use_odometry_integration_ (self (after r))
     = b_use_odometry_integration_ (self s)
  /\ tf_buffer_authority_ (self (after r)) = tf_buffer_authority_ (self s)
  /\ name_ (self (after r)) = name_ (self s)
  /\ count (fun e => is_Subscribe e || is_Advertise e || is_Initialize_call e
                     || is_EnableOdometryIntegration e) (emitted r) = 0%nat.
Proof.
  intros r. subst r.
  assert (H : keeps (fun o => params o = params (self s)
                       /\ b_use_odometry_integration_ o
                          = b_use_odometry_integration_ (self s)
                       /\ tf_buffer_authority_ o = tf_buffer_authority_ (self s)
                       /\ name_ o = name_ (self s))
                    (fun e => is_Subscribe e || is_Advertise e
                              || is_Initialize_call e
                              || is_EnableOdometryIntegration e)
                    (spin inputs)).
  { induction inputs as [|i rest IH]; simpl.
    - apply keeps_ret.
    - apply keeps_bind; [apply deliver_keeps_configuration|intros _; exact IH]. }
  destruct (H s) as [(H1 & H2 & H3 & H4) Hq].
  { repeat split; reflexivity. }
  split; [exact H1|]. split; [exact H2|]. split; [exact H3|].
  split; [exact H4|]. apply count_silent. exact Hq.
Qed.
End RunSafety.
(** ** The open-space flag and the outputs of a scan *)
Section Outputs.
Context {D : Double} {R : RosTypes} {E : Externals}.

Lemma filter_silent_In (p : Event -> bool) (l : list Event) e :
  List.filter p l = [] -> In e l -> p e = false.
Proof.
  intros Hq Hin. destruct (p e) eqn:Hp; [|reflexivity].
  assert (H : In e (List.filter p l)) by (apply List.filter_In; auto).
  rewrite Hq in H. destruct H.
Qed.

Lemma scan_to_scan_flag msg v :
  keeps (fun o => b_is_open_space_ o = v) (filters_otherwise v)
        (scan_to_scan msg).
Proof.
  assert (Hk : keeps (fun o => b_is_open_space_ o = v) (fun _ => false)
                     (scan_to_scan msg)) by keeps_auto.
  intros s Hv.
  destruct (Hk s Hv) as [Hf _]. split; [exact Hf|]. clear Hk Hf.
  destruct (scan_to_scan_run msg s) as (w & l & Hs & Hl).
  cbv zeta in Hs. rewrite Hs. cbn [emitted].
  rewrite !List.filter_app. cbn [List.filter filters_otherwise].
  rewrite Hv, Bool.eqb_reflx. cbn [negb].
  match goal with
  | |- context [if ?c then [Call_odometry_PublishAll] else []] => destruct c
  end; destruct Hl as [->|[x ->]]; reflexivity.
Qed.

Lemma after_classification_flag msg start v :
  keeps (fun o => b_is_open_space_ o = v) (filters_otherwise v)
        (odometry_integration (fromPCL (header_stamp msg)) ;;
         d1 <- scan_to_scan msg ;;
         bootstrap msg (fromPCL (header_stamp msg)) ;;
         d2 <- scan_to_submap msg ;;
         keyframe_decision msg ;;
         publish_outputs msg start d1 d2).
Proof.
  apply keeps_bind; [keeps_auto|intros _].
  apply keeps_bind; [apply scan_to_scan_flag|intros d1].
  keeps_auto.
Qed.

(** X13.  Every scan sets the open-space flag: it is on exactly when the scan has
    more points than [number_of_points_open_space_] (compared as unsigned,
    like [msg->width]), whatever the flag was and however the callback
    ends; and that is the flag the filter is given for this scan. *)
Theorem open_space_flag_follows_width msg s :
  let r := LidarCallback msg s in
  let open_space :=
      width msg >? uint32 (number_of_points_open_space_ (params (self s))) in
  b_is_open_space_ (self (after r)) = open_space
  /\ forall points flag,
      In (Call_Filter points flag) (emitted r) -> flag = open_space.
Proof.
  intros r open_space. subst r.
  destruct (LidarCallback_to_odometry msg s) as (w & start & H).
  cbv zeta in H. rewrite H. clear H. cbn [after emitted].
  match goal with
  | |- context [after (?rest ?s1)] =>
      destruct (after_classification_flag msg start open_space s1 eq_refl)
        as [Hf Hq]
  end.
  split; [exact Hf|].
  intros points flag Hin. apply List.in_app_or in Hin.
  destruct Hin as [Hin|Hin].
  - destruct (b_pcld_received_ (self s) && _); simpl in Hin;
      [destruct Hin as [Hin|[]]; discriminate Hin|destruct Hin].
  - pose proof (filter_silent_In _ _ _ Hq Hin) as Hp.
    cbn [filters_otherwise] in Hp. apply Bool.negb_false_iff in Hp.
    apply Bool.eqb_prop. exact Hp.
Qed.

Lemma publish_outputs_run msg start d1 d2 s :
  let p := params (self s) in
  exists w x t,
    publish_outputs msg start d1 d2 s =
    mkResult (Normal tt) (mkSys (self s) w)
      ((if negb (getNumSubscribers (world s) base_frame_pcld_pub_ =? 0)
        then [Publish_PointCloud base_frame_pcld_pub_
                (set_header_frame_id (base_frame_id_ p) msg)]
        else [])
       ++ (if b_enable_computation_time_profiling_ p
           then [Publish_Float64 lidar_callback_duration_pub_ x] else [])
       ++ (if publish_diagnostics_ p
           then [Publish_DiagnosticArray diagnostics_pub_
                   (mkDiagnosticArray (mkHeader (uint32 (0 + 1)) t
                                                (name_ (self s)))
                                      [d1; d2])]
           else [])).
Proof.
  intros p. subst p. destruct s as [o w0]. cbn [self world].
  exists (world (after (publish_outputs msg start d1 d2 (mkSys o w0)))),
         (duration_data (fst (now w0)) start),
         (fst (now (if b_enable_computation_time_profiling_ (params o)
                    then snd (now w0) else w0))).
  unfold publish_outputs. run_block.
  destruct (negb (getNumSubscribers w0 base_frame_pcld_pub_ =? 0)); simpl;
    destruct (b_enable_computation_time_profiling_ (params o)); simpl;
    destruct (publish_diagnostics_ (params o)); reflexivity.
Qed.

Lemma before_keyframe_decision_outputs msg (o0 : SpotFrontend) :
  keeps (fun o => params o = params o0 /\ name_ o = name_ o0)
        is_final_output (before_keyframe_decision msg).
Proof. keeps_auto. Qed.

Lemma keyframe_decision_outputs msg (o0 : SpotFrontend) :
  keeps (fun o => params o = params o0 /\ name_ o = name_ o0)
        is_final_output (keyframe_decision msg).
Proof. keeps_auto. Qed.

Lemma keyframe_decision_normal msg s :
  outcome (keyframe_decision msg s) = Normal tt.
Proof.
  rewrite keyframe_decision_run. cbv zeta.
  destruct (exceeds_threshold _ _); reflexivity.
Qed.

(** X14.  A scan that is processed in the steady state ends with its outputs, in
    this order: the scan itself with the frame replaced by
    [base_frame_id_], when that topic has a subscriber; the duration of the
    callback, when profiling is on; the diagnostics of the estimator and of
    the localizer, in that order and under the node's name, when
    [publish_diagnostics_] is on. *)
Theorem steady_scan_outputs msg s l :
  outcome (before_keyframe_decision msg s) = Normal l ->
  let r := LidarCallback msg s in
  let p := params (self s) in
  (exists w x t,
      List.filter is_final_output (emitted r) =
      ((if negb (getNumSubscribers w base_frame_pcld_pub_ =? 0)
        then [Publish_PointCloud base_frame_pcld_pub_
                (set_header_frame_id (base_frame_id_ p) msg)]
        else [])
       ++ (if b_enable_computation_time_profiling_ p
           then [Publish_Float64 lidar_callback_duration_pub_ x] else [])
       ++ (if publish_diagnostics_ p
           then [Publish_DiagnosticArray diagnostics_pub_
                   (mkDiagnosticArray (mkHeader 1 t (name_ (self s)))
                                      [diagnostics_odometry l;
                                       diagnostics_localization l])]
           else []))%list)
  /\ count is_Publish_DiagnosticArray (emitted r)
     = (if publish_diagnostics_ p then 1%nat else 0%nat)
  /\ (count is_Publish_PointCloud (emitted r) <= 1)%nat.
Proof.
  intros Hout r p. subst r p.
  rewrite LidarCallback_split. rewrite (bind_Normal _ _ _ _ Hout).
  cbn [emitted].
  destruct (before_keyframe_decision_outputs msg (self s) s
              (conj eq_refl eq_refl)) as [[Hp1 Hn1] Hq1].
  set (s1 := after (before_keyframe_decision msg s)) in *.
  rewrite (bind_Normal _ _ _ _ (keyframe_decision_normal msg s1)).
  cbn [emitted].
  destruct (keyframe_decision_outputs msg (self s1) s1
              (conj eq_refl eq_refl)) as [[Hp2 Hn2] Hq2].
  set (s2 := after (keyframe_decision msg s1)) in *.
  destruct (publish_outputs_run msg (lidar_callback_start l)
              (diagnostics_odometry l) (diagnostics_localization l) s2)
    as (w & x & t & Hrun).
  cbv zeta in Hrun. rewrite Hrun. cbn [emitted].
  rewrite Hp2, Hp1, Hn2, Hn1.
  assert (Hother : forall q, (forall e, q e = true -> is_final_output e = true) ->
              List.filter q (emitted (before_keyframe_decision msg s)) = []
              /\ List.filter q (emitted (keyframe_decision msg s1)) = []).
  { intros q Hsub. split; eapply filter_sub; eauto. }
  split; [|split].
  - exists (world s2), x, t.
    rewrite !List.filter_app, Hq1, Hq2. cbn [app].
    destruct (negb (getNumSubscribers (world s2) base_frame_pcld_pub_ =? 0));
      destruct (b_enable_computation_time_profiling_ (params (self s)));
      destruct (publish_diagnostics_ (params (self s))); reflexivity.
  - destruct (Hother is_Publish_DiagnosticArray) as [Ha Hb].
    { intros e He. destruct e; try discriminate He. reflexivity. }
    rewrite !count_app, (count_silent _ _ Ha), (count_silent _ _ Hb).
    destruct (negb (getNumSubscribers (world s2) base_frame_pcld_pub_ =? 0));
      destruct (b_enable_computation_time_profiling_ (params (self s)));
      destruct (publish_diagnostics_ (params (self s))); reflexivity.
  - destruct (Hother is_Publish_PointCloud) as [Ha Hb].
    { intros e He. destruct e; try discriminate He. reflexivity. }
    rewrite !count_app, (count_silent _ _ Ha), (count_silent _ _ Hb).
    destruct (negb (getNumSubscribers (world s2) base_frame_pcld_pub_ =? 0));
      destruct (b_enable_computation_time_profiling_ (params (self s)));
      destruct (publish_diagnostics_ (params (self s))); cbn; lia.
Qed.

(** X15.  A scan on which the callback returns early (the first odometry cycle,
    or the bootstrap) has none of these outputs: in particular the scan
    that bootstraps the map is not republished in the base frame and has
    no diagnostics. *)
Theorem early_return_has_no_output msg s :
  outcome (LidarCallback msg s) = Returned tt ->
  count is_final_output (emitted (LidarCallback msg s)) = 0%nat.
Proof.
  intros Hret. apply count_silent.
  destruct (before_keyframe_decision_outputs msg (self s) s
              (conj eq_refl eq_refl)) as [_ Hq].
  rewrite LidarCallback_split in *.
  destruct (outcome (before_keyframe_decision msg s)) as [l|v|e] eqn:Hout.
  - rewrite (bind_Normal _ _ _ _ Hout) in Hret. rewrite outcome_result in Hret.
    rewrite (bind_Normal _ _ _ _ (keyframe_decision_normal msg _)) in Hret.
    rewrite outcome_result in Hret.
    destruct (publish_outputs_quiet msg (lidar_callback_start l)
                (diagnostics_odometry l) (diagnostics_localization l)
                (after (keyframe_decision msg
                          (after (before_keyframe_decision msg s)))))
      as (_ & Hn & _).
    rewrite Hn in Hret. discriminate Hret.
  - rewrite (bind_Returned _ _ _ _ Hout). exact Hq.
  - rewrite (bind_Thrown _ _ _ _ Hout). exact Hq.
Qed.
End Outputs.
(** ** What a configuration switches off, over whole runs *)
Section Modes.
Context {D : Double} {R : RosTypes} {E : Externals}.

Lemma spin_keeps (I : SpotFrontend -> Prop) (p : Event -> bool) inputs :
  (forall i, keeps I p (deliver i)) -> keeps I p (spin inputs).
Proof.
  intros Hd. induction inputs as [|i rest IH]; simpl.
  - apply keeps_ret.
  - apply keeps_bind; [apply Hd|intros _; exact IH].
Qed.

Lemma odometry_integration_unused stamp pose received :
  keeps (fun o => b_use_odometry_integration_ o = false
                  /\ odometry_pose_previous_ o = pose
                  /\ b_odometry_has_been_received_ o = received)
        (fun e => is_lookupTransform e || is_SetOdometryDelta e)
        (odometry_integration stamp).
Proof.
  intros s [Hu Hrest]. rewrite (odometry_integration_off stamp s Hu).
  split; [split; assumption|reflexivity].
Qed.

Lemma deliver_pure_lidar_odometry i pose received :
  keeps (fun o => b_use_odometry_integration_ o = false
                  /\ odometry_pose_previous_ o = pose
                  /\ b_odometry_has_been_received_ o = received)
        (fun e => is_lookupTransform e || is_SetOdometryDelta e)
        (deliver i).
Proof.
  destruct i; repeat first [apply odometry_integration_unused | keeps_step].
Qed.

(** X16.  In pure lidar odometry (integration off) no run looks anything up in
    the transform buffer or hands the estimator an odometry delta, and the
    odometry baseline is never written; odometry samples are still stored
    in the buffer. *)
Theorem pure_lidar_odometry_ignores_buffer inputs s :
  b_use_odometry_integration_ (self s) = false ->
  let r := spin inputs s in
  count is_lookupTransform (emitted r) = 0%nat
  /\ count is_SetOdometryDelta (emitted r) = 0%nat
  /\ odometry_pose_previous_ (self (after r)) = odometry_pose_previous_ (self s)
  /\ b_odometry_has_been_received_ (self (after r))
     = b_odometry_has_been_received_ (self s)
  /\ b_use_odometry_integration_ (self (after r)) = false.
Proof.
  intros Hu r. subst r.
  destruct (spin_keeps _ _ inputs
              (fun i => deliver_pure_lidar_odometry i
                          (odometry_pose_previous_ (self s))
                          (b_odometry_has_been_received_ (self s)))
              s) as [(H1 & H2 & H3) Hq].
  { split; [exact Hu|]. split; reflexivity. }
  assert (Hl : List.filter is_lookupTransform (emitted (spin inputs s)) = []).
  { eapply filter_sub; [|exact Hq]. intros e He. cbv beta. rewrite He.
    reflexivity. }
  assert (Hd : List.filter is_SetOdometryDelta (emitted (spin inputs s)) = []).
  { eapply filter_sub; [|exact Hq]. intros e He. cbv beta. rewrite He.
    apply Bool.orb_true_r. }
  split; [apply count_silent; exact Hl|].
  split; [apply count_silent; exact Hd|].
  split; [exact H2|]. split; [exact H3|exact H1].
Qed.

Lemma bootstrap_unused msg stamp :
  keeps (fun o => b_run_with_gt_point_cloud_ (params o) = true)
        is_PublishPoseNoUpdate (bootstrap msg stamp).
Proof.
  intros s Hgt. rewrite bootstrap_skipped.
  - split; [exact Hgt|reflexivity].
  - rewrite Hgt. apply Bool.andb_false_r.
Qed.

Lemma deliver_ground_truth i :
  keeps (fun o => b_run_with_gt_point_cloud_ (params o) = true)
        is_PublishPoseNoUpdate (deliver i).
Proof. destruct i; repeat first [apply bootstrap_unused | keeps_step]. Qed.

(** X17.  In ground-truth mode no scan of any run takes the bootstrap path: the
    pose-no-update signal is never published, and every scan that gets past
    the external-odometry block goes on to the keyframe decision, whatever
    the estimator reported. *)
Theorem ground_truth_mode_never_bootstraps inputs s :
  b_run_with_gt_point_cloud_ (params (self s)) = true ->
  count is_PublishPoseNoUpdate (emitted (spin inputs s)) = 0%nat
  /\ forall msg start,
      outcome (until_estimator msg s) = Normal start ->
      exists l, outcome (before_keyframe_decision msg s) = Normal l.
Proof.
  intros Hgt. split.
  - apply count_silent.
    apply (spin_keeps _ _ inputs deliver_ground_truth s Hgt).
  - intros msg start Hout. apply (steady_path msg s start Hout).
    destruct (until_estimator_params msg s) as (_ & Hp & _).
    rewrite Hp, Hgt. apply Bool.andb_false_r.
Qed.

Lemma insert_keyframe_unpublished msg pose c :
  keeps (fun o => b_publish_map_ (params o) = false /\ counter_ o = c)
        is_PublishMap (insert_keyframe msg pose).
Proof.
  intros s [Hp Hc].
  destruct (insert_keyframe_run msg pose s) as (o' & Hrun & Hc' & _ & Hp' & _).
  cbv zeta in Hrun, Hc'. rewrite Hrun. cbn [after self emitted].
  rewrite Hp in *. split.
  - split; [rewrite Hp'; exact Hp|rewrite Hc'; exact Hc].
  - cbn [andb]. destruct (b_verbose_ (params (self s))); reflexivity.
Qed.

Lemma deliver_unpublished i c :
  keeps (fun o => b_publish_map_ (params o) = false /\ counter_ o = c)
        is_PublishMap (deliver i).
Proof.
  destruct i; repeat first [apply insert_keyframe_unpublished | keeps_step].
Qed.

(** X18.  With map publication disabled no run publishes the map and the
    publication counter never moves, however many keyframes are inserted. *)
Theorem map_never_published_when_disabled inputs s :
  b_publish_map_ (params (self s)) = false ->
  let r := spin inputs s in
  count is_PublishMap (emitted r) = 0%nat
  /\ counter_ (self (after r)) = counter_ (self s).
Proof.
  intros Hp r. subst r.
  destruct (spin_keeps _ _ inputs
              (fun i => deliver_unpublished i (counter_ (self s))) s)
    as [[_ Hc] Hq]; [split; [exact Hp|reflexivity]|].
  split; [apply count_silent; exact Hq|exact Hc].
Qed.

Lemma publish_duration_unprofiled pub start :
  keeps (fun o => b_enable_computation_time_profiling_ (params o) = false)
        is_Publish_Float64 (publish_duration pub start).
Proof.
  intros s Hoff. unfold publish_duration. run_block. rewrite Hoff.
  split; [exact Hoff|reflexivity].
Qed.

Lemma deliver_unprofiled i :
  keeps (fun o => b_enable_computation_time_profiling_ (params o) = false)
        is_Publish_Float64 (deliver i).
Proof.
  destruct i; repeat first [apply publish_duration_unprofiled | keeps_step].
Qed.

(** X19.  With profiling disabled no run publishes a duration. *)
Theorem no_duration_without_profiling inputs s :
  b_enable_computation_time_profiling_ (params (self s)) = false ->
  count is_Publish_Float64 (emitted (spin inputs s)) = 0%nat.
Proof.
  intros Hoff. apply count_silent.
  apply (spin_keeps _ _ inputs deliver_unprofiled s Hoff).
Qed.
End Modes.
(** ** The data that flows through a scan *)
Section Pipeline.
Context {D : Double} {R : RosTypes} {E : Externals}.

Lemma until_estimator_unestimated msg :
  keeps (fun _ => True) is_scan_to_scan_call (until_estimator msg).
Proof. keeps_auto. Qed.

Lemma after_estimator_unestimated msg start d1 :
  keeps (fun _ => True) is_scan_to_scan_call
        (bootstrap msg (fromPCL (header_stamp msg)) ;;
         d2 <- scan_to_submap msg ;;
         keyframe_decision msg ;;
         publish_outputs msg start d1 d2).
Proof. keeps_auto. Qed.

(** X20.  A scan that gets past the external-odometry block is filtered with the
    open-space flag, the estimator is given the filtered scan (not the raw
    one) and updated, and its results are published only when its
    diagnostics level is 0 (OK).  This happens once per scan, in this
    order, and the filter is the one the scan found. *)
Theorem estimator_sees_filtered_scan msg s start :
  outcome (until_estimator msg s) = Normal start ->
  let o := self (after (until_estimator msg s)) in
  let filtered := Filter (filter_ (self s)) msg (b_is_open_space_ o) in
  let estimate := UpdateEstimate (SetLidar (odometry_ o) (snd filtered)) in
  let d := odometry_GetDiagnostics (fst estimate) in
  let r := LidarCallback msg s in
  List.filter is_scan_to_scan_call (emitted r)
  = ([Call_Filter msg (b_is_open_space_ o);
      Call_SetLidar (snd filtered);
      Call_UpdateEstimate (snd estimate)]
     ++ (if level d =? 0 then [Call_odometry_PublishAll] else []))%list
  /\ b_is_open_space_ o
     = (width msg >? uint32 (number_of_points_open_space_ (params (self s)))).
Proof.
  intros Hout o filtered estimate d r. subst r.
  assert (Hf : filter_ o = filter_ (self s)).
  { destruct (until_estimator_keeps msg (self s) s)
      as [(_ & _ & _ & _ & H & _) _]; [repeat split; reflexivity|exact H]. }
  assert (Hflag : b_is_open_space_ o
                  = (width msg
                     >? uint32 (number_of_points_open_space_ (params (self s))))).
  { subst o. unfold until_estimator.
    destruct (profiling_now_run s) as (t & w & Hp).
    rewrite (bind_run _ _ _ _ _ _ Hp).
    rewrite (bind_run _ _ _ _ _ _ (sequence_guard_run msg _)).
    rewrite (bind_run _ _ _ _ _ _ (classify_density_run msg _)).
    cbn [after self world params].
    match goal with
    | |- b_is_open_space_ (self (after (?m ?s1))) = ?v =>
        assert (Hk : keeps (fun o => b_is_open_space_ o = v) (fun _ => false) m)
          by keeps_auto;
        destruct (Hk s1 eq_refl) as [H _]; exact H
    end. }
  split; [|exact Hflag].
  rewrite LidarCallback_from_estimator. rewrite (bind_Normal _ _ _ _ Hout).
  cbn [emitted]. fold o.
  destruct (until_estimator_unestimated msg s Logic.I) as [_ Hq0].
  destruct (scan_to_scan_run msg (after (until_estimator msg s)))
    as (w' & l & Hs & Hl).
  cbv zeta in Hs. fold o in Hs. rewrite Hf in Hs. fold filtered in Hs.
  fold estimate in Hs. fold d in Hs.
  rewrite (bind_run _ _ _ _ _ _ Hs). clear Hs. cbn [emitted].
  match goal with
  | |- context [emitted (bind (bootstrap _ _) _ ?s3)] =>
      destruct (after_estimator_unestimated msg start d s3 Logic.I)
        as [_ Hq1]
  end.
  rewrite !List.filter_app, Hq0, Hq1. cbn [app List.filter is_scan_to_scan_call].
  rewrite List.app_nil_r.
  destruct (level d =? 0); destruct Hl as [->|[x ->]]; reflexivity.
Qed.
End Pipeline.
Section LocalizationPipeline.
Context {D : Double} {R : RosTypes} {E : Externals}.

Lemma bootstrap_normal_skipped msg stamp s u :
  outcome (bootstrap msg stamp s) = Normal u ->
  bootstrap msg stamp s = mkResult (Normal tt) s [].
Proof.
  intros H.
  destruct (b_add_first_scan_to_key_ (self s)
            && negb (b_run_with_gt_point_cloud_ (params (self s)))) eqn:Hc.
  - apply Bool.andb_true_iff in Hc. destruct Hc as [Hf Hg].
    apply Bool.negb_true_iff in Hg.
    pose proof (bootstrap_taken msg stamp s Hf Hg) as Ht. cbv zeta in Ht.
    rewrite Ht in H. discriminate H.
  - apply bootstrap_skipped. exact Hc.
Qed.

Lemma scan_to_scan_state msg s :
  let o := self s in
  let filtered := Filter (filter_ o) msg (b_is_open_space_ o) in
  let estimate := UpdateEstimate (SetLidar (odometry_ o) (snd filtered)) in
  let o' := self (after (scan_to_scan msg s)) in
  localization_ o' = localization_ o
  /\ mapper_ o' = mapper_ o
  /\ clouds o' msg_filtered_ = snd filtered
  /\ odometry_ o'
     = (if level (odometry_GetDiagnostics (fst estimate)) =? 0
        then odometry_PublishAll (fst estimate) else fst estimate).
Proof.
  intros o filtered estimate o'. subst o'.
  destruct (scan_to_scan_run msg s) as (w & l & Hs & _).
  cbv zeta in Hs. fold o in Hs. fold filtered in Hs. fold estimate in Hs.
  rewrite Hs. cbn [after self].
  destruct (level (odometry_GetDiagnostics (fst estimate)) =? 0);
    destruct (snd estimate); repeat split; reflexivity.
Qed.

Lemma scan_to_submap_state msg s :
  let o := self s in
  let moved := MotionUpdate (localization_ o)
                            (GetIncrementalEstimate (odometry_ o)) in
  let fixed := TransformPointsToFixedFrame moved msg in
  let near := ApproxNearestNeighbors (mapper_ o) (snd fixed) in
  let sensor := TransformPointsToSensorFrame (fst fixed) (snd near) in
  let measured :=
      MeasurementUpdate (fst sensor) (clouds o msg_filtered_) (snd sensor) in
  let d := localization_GetDiagnostics (fst measured) in
  let o' := self (after (scan_to_submap msg s)) in
  localization_ o'
  = (if level d =? 0 then localization_PublishAll (fst measured)
     else fst measured)
  /\ mapper_ o' = fst near
  /\ odometry_ o' = odometry_ o.
Proof.
  intros o moved fixed near sensor measured d o'.
  subst o' d measured sensor near fixed moved o.
  destruct (b_enable_computation_time_profiling_ (params (self s))) eqn:Hp;
    destruct (level _ =? 0) eqn:Hl;
    unfold scan_to_submap; run_block;
    repeat (rewrite ?Hp, ?Hl; simpl); repeat split; reflexivity.
Qed.

(** X21.  The scan-to-submap stage of a scan processed in the steady state.  The
    localizer is moved by the estimator's incremental estimate; the raw
    scan is transformed to the fixed frame; its nearest neighbours are
    looked up in the map the scan found and transformed back to the sensor
    frame; the measurement update is given the filtered scan of the
    scan-to-scan stage and those neighbours; the localizer publishes only
    when its diagnostics level is 0.  The callback's two diagnostics
    records are the estimator's and the localizer's after their updates. *)
Theorem steady_scan_pipeline msg s l :
  outcome (before_keyframe_decision msg s) = Normal l ->
  let o := self (after (until_estimator msg s)) in
  let filtered := Filter (filter_ (self s)) msg (b_is_open_space_ o) in
  let estimate := UpdateEstimate (SetLidar (odometry_ o) (snd filtered)) in
  let estimator :=
      if level (odometry_GetDiagnostics (fst estimate)) =? 0
      then odometry_PublishAll (fst estimate) else fst estimate in
  let moved := MotionUpdate (localization_ (self s))
                            (GetIncrementalEstimate estimator) in
  let fixed := TransformPointsToFixedFrame moved msg in
  let near := ApproxNearestNeighbors (mapper_ (self s)) (snd fixed) in
  let sensor := TransformPointsToSensorFrame (fst fixed) (snd near) in
  let measured := MeasurementUpdate (fst sensor) (snd filtered) (snd sensor) in
  let d := localization_GetDiagnostics (fst measured) in
  let r := before_keyframe_decision msg s in
  List.filter is_map_or_pose_call (emitted r)
  = ([Call_MotionUpdate (GetIncrementalEstimate estimator);
      Call_TransformPointsToFixedFrame msg;
      Call_ApproxNearestNeighbors (snd fixed);
      Call_TransformPointsToSensorFrame (snd near);
      Call_MeasurementUpdate (snd filtered) (snd sensor)]
     ++ (if level d =? 0 then [Call_localization_PublishAll] else []))%list
  /\ diagnostics_odometry l = odometry_GetDiagnostics (fst estimate)
  /\ diagnostics_localization l = d
  /\ localization_ (self (after r))
     = (if level d =? 0 then localization_PublishAll (fst measured)
        else fst measured)
  /\ mapper_ (self (after r)) = fst near
  /\ odometry_ (self (after r)) = estimator.
Proof.
  intros Hout o filtered estimate estimator moved fixed near sensor measured
         d r.
  subst r. rewrite before_from_estimator in *.
  destruct (bind_Normal_inv _ _ _ _ Hout) as (start & Hu & _).
  destruct (until_estimator_keeps msg (self s) s)
    as [(_ & _ & Hloc & Hmap & Hfil & _) Hq0]; [repeat split; reflexivity|].
  fold o in Hloc, Hmap, Hfil.
  rewrite (bind_Normal _ _ _ _ Hu) in *. rewrite outcome_result in Hout.
  cbn [after emitted].
  set (s1 := after (until_estimator msg s)) in *.
  destruct (scan_to_scan_run msg s1) as (w' & l1 & Hs & Hl1).
  pose proof (scan_to_scan_state msg s1) as Hst.
  cbv zeta in Hs, Hst. fold o in Hs, Hst. rewrite Hfil in Hs, Hst.
  fold filtered in Hs, Hst. fold estimate in Hs, Hst. fold estimator in Hst.
  rewrite Hs in Hst. cbn [after self] in Hst.
  rewrite (bind_run _ _ _ _ _ _ Hs) in *. clear Hs.
  rewrite outcome_result in Hout. cbn [after emitted].
  match type of Hout with
  | outcome (bind _ _ ?x) = _ => set (s3 := x) in *
  end.
  destruct (bind_Normal_inv _ _ _ _ Hout) as (u & Hb & _).
  apply bootstrap_normal_skipped in Hb.
  rewrite (bind_run _ _ _ _ _ _ Hb) in *. clear Hb.
  rewrite outcome_result in Hout. cbn [after emitted app].
  destruct (scan_to_submap_run msg s3) as (s4 & l4 & Hm & Hl4).
  pose proof (scan_to_submap_state msg s3) as Hmt.
  cbv zeta in Hm, Hmt.
  destruct Hst as (Hst1 & Hst2 & Hst3 & Hst4).
  subst s3. cbn [self] in Hm, Hmt.
  rewrite Hst1, Hst2, Hst3, Hloc, Hmap in Hm, Hmt.
  rewrite Hst4 in Hm. rewrite Hst4 in Hmt.
  fold moved in Hm, Hmt. fold fixed in Hm, Hmt. fold near in Hm, Hmt.
  fold sensor in Hm, Hmt. fold measured in Hm, Hmt. fold d in Hm, Hmt.
  rewrite Hm in Hmt. cbn [after self] in Hmt.
  rewrite (bind_run _ _ _ _ _ _ Hm) in *. clear Hm.
  cbn [ret outcome after emitted self] in *.
  injection Hout as <-. cbn [diagnostics_odometry diagnostics_localization].
  destruct Hmt as (Hmt1 & Hmt2 & Hmt3).
  split.
  { rewrite !List.filter_app, Hq0.
    cbn [app List.filter is_map_or_pose_call].
    destruct (level (odometry_GetDiagnostics (fst estimate)) =? 0);
      destruct Hl1 as [->|[x1 ->]]; destruct (level d =? 0);
      destruct Hl4 as [->|[x4 ->]]; reflexivity. }
  split; [reflexivity|]. split; [reflexivity|].
  split; [exact Hmt1|]. split; [exact Hmt2|exact Hmt3].
Qed.
End LocalizationPipeline.

(** * The theorems at concrete runs *)

(** A run with the test doubles: the first scan bootstraps, the second moves
    600 forward, past the translation threshold of 500. *)
Lemma keyframe_inserted_witness :
  count is_InsertPoints
        (emitted (LidarCallback (Sim.scan_ 2 600)
                    (after (LidarCallback (Sim.scan_ 1 0)
                                          (Sim.started 0 false true)))))
  = 1%nat.
Proof.
  unshelve epose proof
    (keyframe_inserted_iff_threshold_exceeded
       (Sim.scan_ 2 600)
       (after (LidarCallback (Sim.scan_ 1 0) (Sim.started 0 false true)))
       (mkLocals 0 0 0) _) as H;
    [vm_compute; reflexivity|].
  destruct H as ((_ & H) & _).
  apply H. left. vm_compute. reflexivity.
Defined.

(** The same run with a step of 100, below both thresholds. *)
Lemma no_insertion_witness :
  let s := after (LidarCallback (Sim.scan_ 1 0) (Sim.started 0 false true)) in
  let r := LidarCallback (Sim.scan_ 2 100) s in
  count is_InsertPoints (emitted r) = 0%nat
  /\ last_keyframe_pose_ (self (after r)) = last_keyframe_pose_ (self s)
  /\ counter_ (self (after r)) = counter_ (self s)
  /\ count is_PublishMap (emitted r) = 0%nat.
Proof.
  intros s r.
  unshelve epose proof
    (no_insertion_below_thresholds (Sim.scan_ 2 100) s (mkLocals 0 0 0) _ _ _)
    as H;
    [vm_compute; reflexivity|vm_compute; reflexivity|vm_compute; reflexivity|].
  exact H.
Defined.

(** Without ground truth.  Odometry integration off: the first scan, here
    after a flat-ground message, is inserted directly.  Odometry integration
    on: the first scan records the baseline, inserts nothing and leaves the
    bootstrap pending; the second is the first to get past the odometry
    block and is inserted directly. *)
Lemma first_scan_bootstraps_witness :
  let r := LidarCallback (Sim.scan_ 1 0)
             (after (spin [flat_ground true] (Sim.started 0 false true))) in
  let prefix := [odometry_sample (Sim.odometry_at 50 0);
                 odometry_sample (Sim.odometry_at 150 5);
                 odometry_sample (Sim.odometry_at 250 9);
                 scan (Sim.base_scan 1 0)] in
  let r' := LidarCallback (Sim.base_scan 2 0)
              (after (spin prefix (Sim.started 3 false true))) in
  b_odometry_has_been_received_
    (self (after (spin prefix (Sim.started 3 false true)))) = true
  /\ reaches_callback (Sim.base_scan 2 0)
       (after (spin prefix (Sim.started 3 false true))) = true
  /\ (outcome r = Returned tt
   /\ count is_MotionUpdate (emitted r) = 0%nat
   /\ count is_MeasurementUpdate (emitted r) = 0%nat
   /\ b_add_first_scan_to_key_ (self (after r)) = false)
  /\ (outcome r' = Returned tt
      /\ count is_MotionUpdate (emitted r') = 0%nat
      /\ count is_MeasurementUpdate (emitted r') = 0%nat
      /\ b_add_first_scan_to_key_ (self (after r')) = false)
  /\ (let baseline :=
          LidarCallback (Sim.base_scan 1 0)
            (after (spin [odometry_sample (Sim.odometry_at 50 0);
                          odometry_sample (Sim.odometry_at 150 5);
                          odometry_sample (Sim.odometry_at 250 9)]
                         (Sim.started 3 false true))) in
      count is_InsertPoints (emitted baseline) = 0%nat
      /\ b_add_first_scan_to_key_ (self (after baseline)) = true).
Proof.
  unfold Sim.started.
  split; [vm_compute; reflexivity|]. split; [vm_compute; reflexivity|].
  split.
  - unshelve epose proof
      (first_scan_bootstraps Sim.raw
         (Sim.mkRuntime 0 0 (Sim.parameter_table 0 false true))
         false [flat_ground true] (Sim.scan_ 1 0) _ _) as H;
      [vm_compute; reflexivity|vm_compute; reflexivity|].
    cbv zeta in H. destruct H as (_ & H & _).
    assert (Hoff : b_use_odometry_integration_
                     (self (after (call (Ret:=unit) (Initialize false)
                                    (mkSys (SpotFrontend_new Sim.raw)
                                       (Sim.mkRuntime 0 0
                                          (Sim.parameter_table 0 false true))))))
                   = false) by (vm_compute; reflexivity).
    destruct (H Hoff) as (H1 & _ & H3 & H4 & _ & _ & _ & H8).
    split; [exact H1|]. split; [exact H3|]. split; [exact H4|exact H8].
  - unshelve epose proof
      (first_scan_bootstraps Sim.raw
         (Sim.mkRuntime 0 0 (Sim.parameter_table 3 false true))
         false
         [odometry_sample (Sim.odometry_at 50 0);
          odometry_sample (Sim.odometry_at 150 5);
          odometry_sample (Sim.odometry_at 250 9);
          scan (Sim.base_scan 1 0)]
         (Sim.base_scan 2 0) _ _) as H;
      [vm_compute; reflexivity|vm_compute; reflexivity|].
    cbv zeta in H. destruct H as (_ & _ & H & _).
    unshelve epose proof (H 0 _) as H'; [vm_compute; reflexivity|].
    destruct H' as (H1 & _ & H3 & H4 & _ & _ & _ & H8).
    split; [split; [exact H1|]; split; [exact H3|]; split; [exact H4|exact H8]|].
    unshelve epose proof
      (first_scan_bootstraps Sim.raw
         (Sim.mkRuntime 0 0 (Sim.parameter_table 3 false true))
         false
         [odometry_sample (Sim.odometry_at 50 0);
          odometry_sample (Sim.odometry_at 150 5);
          odometry_sample (Sim.odometry_at 250 9)]
         (Sim.base_scan 1 0) _ _) as Hb;
      [vm_compute; reflexivity|vm_compute; reflexivity|].
    cbv zeta in Hb. destruct Hb as (_ & _ & _ & Hb).
    assert (Hstop : forall start,
               outcome (until_estimator (Sim.base_scan 1 0)
                          (after (spin [odometry_sample (Sim.odometry_at 50 0);
                                        odometry_sample (Sim.odometry_at 150 5);
                                        odometry_sample (Sim.odometry_at 250 9)]
                                       (after (call (Ret:=unit) (Initialize false)
                                                (mkSys (SpotFrontend_new Sim.raw)
                                                   (Sim.mkRuntime 0 0
                                                      (Sim.parameter_table 3 false true))))))))
               <> Normal start).
    { intros start Hs. vm_compute in Hs. discriminate Hs. }
    destruct (Hb Hstop) as (Hi & _ & _ & Hf).
    split; [exact Hi|exact Hf].
Defined.

(** C2 as stated fails in two configurations.  With odometry integration
    enabled, the first scan, which the filter lets through, only records
    the odometry baseline: nothing is inserted and the bootstrap is still
    pending.  In ground-truth mode the
    first scan gets a motion update and a measurement update, and no direct
    insertion. *)
Lemma first_scan_not_always_inserted :
  let with_odometry :=
      after (spin [odometry_sample (Sim.odometry_at 50 0);
                   odometry_sample (Sim.odometry_at 250 9)]
                  (Sim.started 3 false true)) in
  let r := LidarCallback (Sim.base_scan 1 0) with_odometry in
  let r' := LidarCallback (Sim.scan_ 1 0) (Sim.started 0 true true) in
  reaches_callback (Sim.base_scan 1 0) with_odometry = true
  /\ outcome r = Returned tt
  /\ count is_InsertPoints (emitted r) = 0%nat
  /\ b_add_first_scan_to_key_ (self (after r)) = true
  /\ outcome r' = Normal tt
  /\ count is_MotionUpdate (emitted r') = 1%nat
  /\ count is_MeasurementUpdate (emitted r') = 1%nat
  /\ count is_InsertPoints (emitted r') = 0%nat.
Proof. vm_compute. repeat split; reflexivity. Qed.

(** The steady state of the test doubles after two scans, then an empty
    scan, on which the estimator fails, then an ordinary scan. *)
Lemma failed_estimate_witness :
  let s := after (spin [scan (Sim.scan_ 1 0); scan (Sim.scan_ 2 100)]
                       (Sim.started 0 false true)) in
  let r := LidarCallback (Sim.empty_scan 3) s in
  outcome r = Returned tt
  /\ b_add_first_scan_to_key_ (self (after r)) = false
  /\ exists l,
      outcome (before_keyframe_decision (Sim.scan_ 4 100) (after r)) = Normal l.
Proof.
  intros s r.
  unshelve epose proof
    (failed_estimate_bootstraps_same_scan
       (Sim.empty_scan 3) s 0 (Sim.scan_ 4 100) 0 _ _ _) as H;
    [vm_compute; reflexivity|vm_compute; reflexivity|vm_compute; reflexivity|].
  destruct H as (H1 & _ & H3 & H4 & _).
  split; [exact H1|]. split; [exact H3|].
  apply H4; vm_compute; reflexivity.
Defined.

(** C3 as stated fails: the scan on which the estimator fails is itself the
    bootstrap (no motion or measurement update, one direct insertion), and
    the scan after it is processed in the steady state (motion and
    measurement update, no insertion for a step below the thresholds). *)
Lemma failed_estimate_next_scan_is_steady :
  let s := after (spin [scan (Sim.scan_ 1 0); scan (Sim.scan_ 2 100)]
                       (Sim.started 0 false true)) in
  let r := LidarCallback (Sim.empty_scan 3) s in
  let r' := LidarCallback (Sim.scan_ 4 100) (after r) in
  b_add_first_scan_to_key_ (self s) = false
  /\ count is_failed_estimate (emitted r) = 1%nat
  /\ outcome r = Returned tt
  /\ count is_MotionUpdate (emitted r) = 0%nat
  /\ count is_MeasurementUpdate (emitted r) = 0%nat
  /\ count is_InsertPoints (emitted r) = 1%nat
  /\ count is_failed_estimate (emitted r') = 0%nat
  /\ outcome r' = Normal tt
  /\ count is_MotionUpdate (emitted r') = 1%nat
  /\ count is_MeasurementUpdate (emitted r') = 1%nat
  /\ count is_InsertPoints (emitted r') = 0%nat.
Proof. vm_compute. repeat split; reflexivity. Qed.


(** Five scans: a bootstrap, then four steps of 600, each a keyframe. *)
Lemma map_publication_witness :
  let inputs := [scan (Sim.scan_ 1 0); scan (Sim.scan_ 2 600);
                 scan (Sim.scan_ 3 600); scan (Sim.scan_ 4 600);
                 scan (Sim.scan_ 5 600)] in
  let r := spin inputs (Sim.started 0 false true) in
  Z.of_nat (count is_PublishMap (emitted r)) = 1
  /\ counter_ (self (after r)) = 1.
Proof.
  intros inputs r.
  unshelve epose proof
    (map_published_every_threshold_insertions
       inputs (Sim.started 0 false true) 3 _ _ _ _) as H;
    [vm_compute; reflexivity|vm_compute; reflexivity|lia
    |vm_compute; reflexivity|].
  destruct H as (_ & _ & _ & H).
  apply H; [reflexivity|vm_compute; reflexivity].
Defined.

(** C5 as stated fails when map publication is disabled: with a threshold
    of 3 and a zero counter, three keyframe insertions publish nothing and
    the counter does not move. *)
Lemma map_not_published_when_disabled :
  let inputs := [scan (Sim.scan_ 1 0); scan (Sim.scan_ 2 600);
                 scan (Sim.scan_ 3 600); scan (Sim.scan_ 4 600)] in
  let s := Sim.started 0 false false in
  let r := spin inputs s in
  map_publishment_meters_ (params (self s)) = 3
  /\ counter_ (self s) = 0
  /\ keyframes_inserted inputs s = 3%nat
  /\ count is_InsertPoints (emitted r) = 4%nat
  /\ count is_PublishMap (emitted r) = 0%nat
  /\ counter_ (self (after r)) = 0.
Proof. vm_compute. repeat split; reflexivity. Qed.

(** Odometry integration with samples around the scans: the first scan
    records the baseline and returns, the second hands the delta to the
    estimator and moves the baseline. *)
Lemma odometry_baseline_witness :
  let s := after (spin [odometry_sample (Sim.odometry_at 50 0);
                        odometry_sample (Sim.odometry_at 150 5);
                        odometry_sample (Sim.odometry_at 250 9)]
                       (Sim.started 3 false true)) in
  let r := LidarCallback (Sim.scan_ 1 0) s in
  let r' := LidarCallback (Sim.scan_ 2 0) (after r) in
  let pose' :=
      tf.mkTransform (tf.setRotation (tf.mkQuaternion 0 0 0 1))
                     (tf.mkVector3 5 0 0) in
  outcome r = Returned tt
  /\ KeyframeState (self (after r)) = KeyframeState (self s)
  /\ In (Call_SetOdometryDelta
           (tf.inverseTimes (odometry_pose_previous_ (self (after r))) pose'))
        (emitted r')
  /\ odometry_pose_previous_ (self (after r')) = pose'.
Proof.
  intros s r r' pose'.
  unshelve epose proof
    (odometry_baseline_then_delta (Sim.scan_ 1 0) s (Sim.sample_at 50 0) _ _)
    as H; [vm_compute; reflexivity|vm_compute; reflexivity|].
  cbv zeta in H.
  assert (Hb : b_odometry_has_been_received_ (self s) = false)
    by (vm_compute; reflexivity).
  rewrite Hb in H. destruct H as (H1 & _ & _ & H4 & _).
  unshelve epose proof
    (odometry_baseline_then_delta (Sim.scan_ 2 0) (after r)
                                  (Sim.sample_at 150 5) _ _)
    as H'; [vm_compute; reflexivity|vm_compute; reflexivity|].
  cbv zeta in H'.
  assert (Hb' : b_odometry_has_been_received_ (self (after r)) = true)
    by (vm_compute; reflexivity).
  rewrite Hb' in H'. destruct H' as (H1' & H2' & _).
  split; [exact H1|]. split; [exact H4|]. split; [|exact H2'].
  apply (proj1 (List.filter_In is_estimator_call _ (emitted r'))).
  fold r' in H1'. rewrite H1'. left. reflexivity.
Defined.

(** A quarter turn in integer arithmetic, which is exact: its delta with
    itself is the identity.  A tilted pose in binary64: the translation of
    its delta with itself is zero. *)
Lemma odometry_delta_witness :
  GetOdometryDelta (set_odometry_pose_previous_ Sim.quarter_turn Sim.raw)
                   Sim.quarter_turn
  = tf.Transform_getIdentity
  /\ IEEE.null_vector (fun w => w)
       (tf.m_origin
          (@GetOdometryDelta (IEEE.binary64 (fun w => w)) Sim.ros_types
             (Bare.externals _)
             (Bare.holding (IEEE.tilted_here (fun w => w)))
             (IEEE.tilted_here (fun w => w)))) = true.
Proof.
  destruct odometry_delta_exact_and_rounded as [Hexact Hrounded]. split.
  - destruct (Hexact Sim.scalars Sim.ros_types Sim.externals
                InitialRing.Zth
                (set_odometry_pose_previous_ Sim.quarter_turn Sim.raw)
                Sim.quarter_turn) as [_ H].
    apply H; [|reflexivity].
    intros i j Hi Hj.
    assert (Hi' : i = 0 \/ i = 1 \/ i = 2) by lia.
    assert (Hj' : j = 0 \/ j = 1 \/ j = 2) by lia.
    destruct Hi' as [->|[->| ->]]; destruct Hj' as [->|[->| ->]]; reflexivity.
  - destruct (Hrounded (fun w => w) Sim.ros_types (Bare.externals _)
                (Bare.holding (IEEE.tilted_here (fun w => w)))
                (IEEE.tilted_here (fun w => w))) as (_ & _ & H).
    apply H; [vm_compute; reflexivity|reflexivity].
Defined.

(** C8 as stated fails in the arithmetic the code runs in.  For the pose
    [LidarCallback] builds from the unit quaternion (0.36, 0.48, 0, 0.8),
    a finite pose, the delta with itself is not the identity (its rotation
    is off by the rounding of the nine dot products), and the delta to a
    second pose is not inverse(previous) composed with current (the
    translations differ by rounding). *)
Lemma odometry_delta_rounds :
  let here := IEEE.tilted_here (fun w => w) in
  let there := IEEE.tilted_there (fun w => w) in
  let delta :=
      @GetOdometryDelta (IEEE.binary64 (fun w => w)) Sim.ros_types
                        (Bare.externals _) (Bare.holding here) in
  PrimFloat.eqb (IEEE.length2 (fun w => w) (IEEE.tilt (fun w => w))) 1 = true
  /\ IEEE.finite_pose (fun w => w) here = true
  /\ IEEE.finite_pose (fun w => w) there = true
  /\ IEEE.transform_eqb (fun w => w) (delta here)
       (@tf.Transform_getIdentity (IEEE.binary64 (fun w => w))) = false
  /\ IEEE.transform_eqb (fun w => w) (delta there)
       (@tf.mul (IEEE.binary64 (fun w => w))
                (@tf.inverse (IEEE.binary64 (fun w => w)) here) there)
     = false.
Proof. vm_compute. repeat split; reflexivity. Qed.

(** Scans numbered 7, 8 give no report; 7, 9 give one. *)
Lemma sequence_gap_witness :
  let s := after (LidarCallback (Sim.scan_ 7 0) (Sim.started 0 false true)) in
  count is_scan_dropped (emitted (LidarCallback (Sim.scan_ 8 0) s)) = 0%nat
  /\ count is_scan_dropped (emitted (LidarCallback (Sim.scan_ 9 0) s)) = 1%nat.
Proof.
  intros s. split.
  - destruct (sequence_gap_reported (E:=Sim.externals) (Sim.scan_ 7 0) (Sim.scan_ 8 0)
                (Sim.started 0 false true) 0 false)
      as (_ & _ & _ & _ & H & _).
    apply H. reflexivity.
  - destruct (sequence_gap_reported (E:=Sim.externals) (Sim.scan_ 7 0) (Sim.scan_ 9 0)
                (Sim.started 0 false true) 0 false)
      as (_ & _ & _ & _ & _ & H & _).
    apply H. reflexivity.
Defined.

(** A parameter server that has [b_verbose] and nothing else: loading
    fails, with the member already overwritten. *)
Lemma LoadParameters_not_rolled_back_witness :
  let s := mkSys Sim.raw (Sim.mkRuntime 0 0 [("b_verbose", Sim.VBool true)]) in
  b_verbose_ (params (self s)) = false
  /\ outcome (LoadParameters s) = Returned false
  /\ b_verbose_ (params (self (after (LoadParameters s)))) = true.
Proof.
  intros s. split; [reflexivity|].
  apply (LoadParameters_not_rolled_back s true);
    vm_compute; reflexivity.
Defined.

(** Integration mode 1 is not handled: initialisation fails and nothing is
    registered. *)
Lemma failed_initialization_witness :
  let s := mkSys (SpotFrontend_new Sim.raw)
                 (Sim.mkRuntime 0 0 (Sim.parameter_table 1 false true)) in
  let r := call (Ret:=unit) (Initialize false) s in
  outcome r = Normal false
  /\ count is_Subscribe (emitted r) = 0%nat
  /\ count is_Advertise (emitted r) = 0%nat.
Proof.
  intros s r.
  unshelve epose proof (failed_initialization_registers_nothing false s _)
    as H; [vm_compute; reflexivity|].
  destruct H as (H1 & H2 & H3 & _).
  split; [exact H1|]. split; [exact H2|exact H3].
Defined.

(** Integration mode 3: initialisation succeeds, odometry integration is
    on, and the five publishers are advertised. *)
Lemma successful_initialization_witness :
  let s := mkSys (SpotFrontend_new Sim.raw)
                 (Sim.mkRuntime 0 0 (Sim.parameter_table 3 false true)) in
  let r := call (Ret:=unit) (Initialize false) s in
  outcome r = Normal true
  /\ List.filter is_Advertise (emitted r) = publishers
  /\ b_use_odometry_integration_ (self (after r)) = true.
Proof.
  intros s r.
  unshelve epose proof (successful_initialization_subscribes false s _)
    as H; [vm_compute; reflexivity|].
  destruct H as (H1 & _ & _ & _ & _ & H6).
  split; [exact H1|]. split; [exact H6|]. vm_compute. reflexivity.
Defined.

(** Ground-truth mode: the file name comes from the parameter server. *)
Lemma ground_truth_cloud_witness :
  let s := mkSys (SpotFrontend_new Sim.raw)
                 (Sim.mkRuntime 0 0 (Sim.parameter_table 0 true true)) in
  let r := call (Ret:=unit) (Initialize false) s in
  Get_string (world s) "gt_point_cloud_filename"
  = Some (gt_point_cloud_filename_ (params (self (after r)))).
Proof.
  intros s r.
  unshelve epose proof (ground_truth_cloud_seeds_map false s _)
    as H; [vm_compute; reflexivity|].
  destruct H as (_ & H & _). exact H.
Defined.


(** The second scan of a run, in the steady state, with diagnostics off. *)
Lemma steady_scan_outputs_witness :
  let s := after (LidarCallback (Sim.scan_ 1 0) (Sim.started 0 false true)) in
  let r := LidarCallback (Sim.scan_ 2 100) s in
  count is_Publish_DiagnosticArray (emitted r) = 0%nat
  /\ (count is_Publish_PointCloud (emitted r) <= 1)%nat.
Proof.
  intros s r.
  unshelve epose proof
    (steady_scan_outputs (Sim.scan_ 2 100) s (mkLocals 0 0 0) _) as H;
    [vm_compute; reflexivity|].
  cbv zeta in H. destruct H as (_ & H2 & H3).
  split; [|exact H3].
  subst r. rewrite H2.
  assert (Hd : publish_diagnostics_ (params (self s)) = false)
    by (vm_compute; reflexivity).
  rewrite Hd. reflexivity.
Defined.

(** The first scan of a run bootstraps and returns early. *)
Lemma early_return_witness :
  count is_final_output
        (emitted (LidarCallback (Sim.scan_ 1 0) (Sim.started 0 false true)))
  = 0%nat.
Proof.
  apply early_return_has_no_output. vm_compute. reflexivity.
Defined.

(** Pure lidar odometry with an odometry sample among the inputs. *)
Lemma pure_lidar_odometry_witness :
  let r := spin [odometry_sample (Sim.odometry_at 50 0);
                 scan (Sim.scan_ 1 0); scan (Sim.scan_ 2 600)]
                (Sim.started 0 false true) in
  count is_lookupTransform (emitted r) = 0%nat
  /\ count is_SetOdometryDelta (emitted r) = 0%nat.
Proof.
  intros r.
  unshelve epose proof
    (pure_lidar_odometry_ignores_buffer
       [odometry_sample (Sim.odometry_at 50 0);
        scan (Sim.scan_ 1 0); scan (Sim.scan_ 2 600)]
       (Sim.started 0 false true) _) as H; [vm_compute; reflexivity|].
  destruct H as (H1 & H2 & _). split; [exact H1|exact H2].
Defined.

(** Ground-truth mode: two scans, no pose-no-update signal. *)
Lemma ground_truth_mode_witness :
  count is_PublishPoseNoUpdate
        (emitted (spin [scan (Sim.scan_ 1 0); scan (Sim.scan_ 2 600)]
                       (Sim.started 0 true true)))
  = 0%nat.
Proof.
  unshelve epose proof
    (ground_truth_mode_never_bootstraps
       [scan (Sim.scan_ 1 0); scan (Sim.scan_ 2 600)]
       (Sim.started 0 true true) _) as H; [vm_compute; reflexivity|].
  destruct H as [H _]. exact H.
Defined.

(** Map publication disabled: four scans, three of them keyframes. *)
Lemma map_never_published_witness :
  let r := spin [scan (Sim.scan_ 1 0); scan (Sim.scan_ 2 600);
                 scan (Sim.scan_ 3 600); scan (Sim.scan_ 4 600)]
                (Sim.started 0 false false) in
  count is_PublishMap (emitted r) = 0%nat
  /\ counter_ (self (after r)) = counter_ (self (Sim.started 0 false false)).
Proof.
  intros r.
  unshelve epose proof
    (map_never_published_when_disabled
       [scan (Sim.scan_ 1 0); scan (Sim.scan_ 2 600);
        scan (Sim.scan_ 3 600); scan (Sim.scan_ 4 600)]
       (Sim.started 0 false false) _) as H; [vm_compute; reflexivity|].
  exact H.
Defined.

(** Profiling is off in the test configuration. *)
Lemma no_duration_witness :
  count is_Publish_Float64
        (emitted (spin [scan (Sim.scan_ 1 0); scan (Sim.scan_ 2 600)]
                       (Sim.started 0 false true)))
  = 0%nat.
Proof.
  apply no_duration_without_profiling. vm_compute. reflexivity.
Defined.

(** The second scan of a run: 64 points, below the open-space threshold of
    1000, so the filter is called with the flag off. *)
Lemma estimator_sees_filtered_scan_witness :
  let s := after (LidarCallback (Sim.scan_ 1 0) (Sim.started 0 false true)) in
  b_is_open_space_ (self (after (until_estimator (Sim.scan_ 2 100) s)))
  = false.
Proof.
  intros s.
  unshelve epose proof
    (estimator_sees_filtered_scan (Sim.scan_ 2 100) s 0 _) as H;
    [vm_compute; reflexivity|].
  cbv zeta in H. destruct H as [_ H]. rewrite H. vm_compute. reflexivity.
Defined.

(** The second scan of a run: the diagnostics records the callback keeps. *)
Lemma steady_scan_pipeline_witness :
  let s := after (LidarCallback (Sim.scan_ 1 0) (Sim.started 0 false true)) in
  exists l,
    outcome (before_keyframe_decision (Sim.scan_ 2 100) s) = Normal l
    /\ diagnostics_odometry l = 0.
Proof.
  intros s. exists (mkLocals (R:=Sim.ros_types) 0 0 0).
  assert (H0 : outcome (before_keyframe_decision (Sim.scan_ 2 100) s)
               = Normal (mkLocals 0 0 0)) by (vm_compute; reflexivity).
  split; [exact H0|].
  pose proof (steady_scan_pipeline (Sim.scan_ 2 100) s (mkLocals 0 0 0) H0)
    as H.
  cbv zeta in H. destruct H as (_ & H & _). rewrite H.
  vm_compute. reflexivity.
Defined.
